(** * ADAS perception-and-warning pipeline: distance, collision warning, lane keeping

    Shallow embedding of
      - [backend/adas/distance_estimator.py]  (module [DistanceEstimator]),
      - [backend/adas/collision_warning.py]   (module [CollisionWarning]),
      - [backend/adas/lane_keeping.py]        (module [LaneKeeping]),
      - [backend/depth_adas_service.py]       (module [DepthADASService]),
    followed by the properties proved of them.

    Numbers.  Python floats are embedded as exact rationals [Q]; numeric
    equality is [Qeq] (written [==]), which is also how Python compares
    floats.  Rounding error and NaN are outside the model.  Where the code
    uses [float('inf')] the value has type [efloat], a rational or plus
    infinity.  The one place where the rounding of a product selects an
    array row, [int(h * y_ratio)], is computed in IEEE 754 binary64
    ([float64]), with the Standard Library's specification of the format.

    Effects.  A method that mutates [self] is a function from the receiver to
    the new receiver and an outcome; a Python exception is the outcome
    [Raise e], and the receiver returned with it carries the mutations made
    before the exception was raised. *)

From Stdlib Require Import QArith Qminmax Qabs Qround Lqa Lia String.
From Stdlib Require Import SpecFloat.
From Stdlib Require Import Sorting.Sorted Sorting.Permutation.
From stdpp Require Import base option list gmap.

Open Scope Q_scope.

(* ===================================================================== *)
(** * Python numbers and builtins *)
(* ===================================================================== *)

(** [x < y] on floats. *)
Definition Qltb (x y : Q) : bool := negb (Qle_bool y x).

(** Builtin [max(a, b)]: the first argument unless the second is strictly
    greater. *)
Definition py_max (a b : Q) : Q := if Qltb a b then b else a.

(** Builtin [min(a, b)]: the first argument unless the second is strictly
    smaller. *)
Definition py_min (a b : Q) : Q := if Qltb b a then b else a.

(** Builtin [int(x)] on a float: truncation towards zero. *)
Definition py_int (x : Q) : Z := if Qle_bool 0 x then Qfloor x else Qceiling x.

(** [np.clip(x, lo, hi)], that is [minimum(maximum(x, lo), hi)]. *)
Definition np_clip (x lo hi : Q) : Q := Qmin (Qmax x lo) hi.

(** A slice bound [i] on a sequence of length [len], as Python normalises
    it: a negative bound counts from the end, and both are clipped to the
    sequence. *)
Definition slice_bound (len i : Z) : Z :=
  if (i <? 0)%Z then Z.max 0 (len + i) else Z.min len i.

(** The slice [l[start:stop]]. *)
Definition py_slice {A : Type} (l : list A) (start stop : Z) : list A :=
  let len := Z.of_nat (length l) in
  let a := slice_bound len start in
  let b := slice_bound len stop in
  firstn (Z.to_nat (b - a)) (skipn (Z.to_nat a) l).

(** The element [l[i]] for an integer index; [None] stands for
    [IndexError]. *)
Definition py_index {A : Type} (l : list A) (i : Z) : option A :=
  let len := Z.of_nat (length l) in
  if (i <? - len)%Z || (len <=? i)%Z then None
  else nth_error l (Z.to_nat (if (i <? 0)%Z then len + i else i)).

(** The sum of a list of floats. *)
Definition Qsum (l : list Q) : Q := fold_right Qplus 0 l.

(** [np.mean] of the elements of an array; on an empty array NumPy returns
    NaN (with a warning), for which [None] stands. *)
Definition np_mean (l : list Q) : option Q :=
  match l with
  | [] => None
  | _ :: _ => Some (Qsum l / inject_Z (Z.of_nat (length l)))
  end.

(** [np.argmax] on the elements of a non-empty array in row-major order:
    the position of the first largest element, and that element. *)
Fixpoint argmax_from (best_i : nat) (best : Q) (i : nat) (l : list Q) : nat * Q :=
  match l with
  | [] => (best_i, best)
  | x :: l' =>
      if Qltb best x then argmax_from i x (S i) l'
      else argmax_from best_i best (S i) l'
  end.

Definition np_argmax (l : list Q) : option (nat * Q) :=
  match l with
  | [] => None
  | x :: l' => Some (argmax_from 0 x 1 l')
  end.

(** [np.max]: the largest element. *)
Definition np_max (l : list Q) : option Q := option_map snd (np_argmax l).

(** Ascending sort of floats, for [np.median]. *)
Fixpoint Qinsert (x : Q) (l : list Q) : list Q :=
  match l with
  | [] => [x]
  | y :: l' => if Qle_bool x y then x :: y :: l' else y :: Qinsert x l'
  end.

Definition Qsort (l : list Q) : list Q := fold_right Qinsert [] l.

(** [np.median]: the middle element of the sorted values, or the mean of
    the two middle elements when their number is even; NaN ([None]) on an
    empty array. *)
Definition np_median (l : list Q) : option Q :=
  let sorted := Qsort l in
  let n := length l in
  match n with
  | O => None
  | _ =>
      if Nat.even n then
        match nth_error sorted (n / 2 - 1), nth_error sorted (n / 2) with
        | Some a, Some b => Some ((a + b) / 2)
        | _, _ => None
        end
      else nth_error sorted (n / 2)
  end.

(** A float that may be [float('inf')]. *)
Inductive efloat : Type :=
| Fin (q : Q)
| PInf.

(** Numeric equality [==] of two such floats. *)
Definition ef_eq (x y : efloat) : Prop :=
  match x, y with
  | Fin p, Fin q => p == q
  | PInf, PInf => True
  | _, _ => False
  end.

Definition ef_eqb (x y : efloat) : bool :=
  match x, y with
  | Fin p, Fin q => Qeq_bool p q
  | PInf, PInf => true
  | _, _ => false
  end.

(** [x < y]. *)
Definition ef_ltb (x y : efloat) : bool :=
  match x, y with
  | Fin p, Fin q => Qltb p q
  | Fin _, PInf => true
  | PInf, _ => false
  end.

Definition ef_lt (x y : efloat) : Prop := ef_ltb x y = true.

(** [x <= y]. *)
Definition ef_leb (x y : efloat) : bool :=
  match x, y with
  | Fin p, Fin q => Qle_bool p q
  | _, PInf => true
  | PInf, Fin _ => false
  end.

Definition ef_le (x y : efloat) : Prop := ef_leb x y = true.

(** The exceptions the modelled code can raise. *)
Inductive exn : Type :=
| ZeroDivisionError
| TypeError
| IndexError
| OverflowError
| ValueError (msg : string).

(** Outcome of a call: a value, or an exception. *)
Inductive pyresult (A : Type) : Type :=
| Ret (a : A)
| Raise (e : exn).
Arguments Ret {A} a.
Arguments Raise {A} e.

(** A Python [float]: IEEE 754 binary64, 53 bits of precision, with
    signed zeros, infinities and NaN. *)
Definition float64 : Type := spec_float.

(** The conversion of an [int] operand to [float]: rounded to nearest,
    ties to even; an [int] beyond the range of the format raises
    [OverflowError]. *)
Definition float_of_int (z : Z) : pyresult float64 :=
  match binary_normalize 53 1024 z 0 false with
  | S754_infinity _ => Raise OverflowError
  | x => Ret x
  end.

(** [x * y] on floats: the exact product, rounded to nearest, ties to
    even. *)
Definition float_mul (x y : float64) : float64 := SFmul 53 1024 x y.

(** Builtin [int(x)] on a float: truncation towards zero; NaN raises
    [ValueError] and an infinity raises [OverflowError]. *)
Definition int_of_float (x : float64) : pyresult Z :=
  match x with
  | S754_zero _ => Ret 0%Z
  | S754_finite s m e =>
      let a := if (0 <=? e)%Z then Z.shiftl (Zpos m) e
               else Z.shiftr (Zpos m) (- e) in
      Ret (if s then (- a)%Z else a)
  | S754_infinity _ => Raise OverflowError
  | S754_nan => Raise (ValueError "cannot convert float NaN to integer")
  end.

(** A method on a receiver of type [St]. *)
Definition PyM (St A : Type) : Type := St -> St * pyresult A.

Definition ret {St A} (a : A) : PyM St A := fun s => (s, Ret a).

Definition raise {St A} (e : exn) : PyM St A := fun s => (s, Raise e).

Definition bind {St A B} (m : PyM St A) (k : A -> PyM St B) : PyM St B :=
  fun s =>
    match m s with
    | (s', Ret a) => k a s'
    | (s', Raise e) => (s', Raise e)
    end.

Definition get_self {St} : PyM St St := fun s => (s, Ret s).

(** The outcome of a computation that does not touch the receiver. *)
Definition of_result {St A} (r : pyresult A) : PyM St A := fun s => (s, r).

Definition modify_self {St} (f : St -> St) : PyM St unit :=
  fun s => (f s, Ret tt).

Declare Scope pym_scope.
Delimit Scope pym_scope with pym.
Notation "'letM' x ':=' m 'in' k" := (bind m (fun x => k))
  (at level 10, x name, m at level 100, k at level 200) : pym_scope.
Notation "'seqM' m 'in' k" := (bind m (fun _ => k))
  (at level 10, m at level 100, k at level 200) : pym_scope.

(** Did the call return? *)
Definition returns {St A} (r : St * pyresult A) : Prop :=
  match r with
  | (_, Ret _) => True
  | (_, Raise _) => False
  end.

(* ===================================================================== *)
(** * distance_estimator.py *)
(* ===================================================================== *)

Module DistanceEstimator.

(** [@dataclass CameraCalibration]. *)
Record CameraCalibration : Type := mkCameraCalibration {
  fx : Q;
  fy : Q;
  cx : Q;
  cy : Q;
  height : Q;
  pitch : Q;
  depth_scale : Q
}.

(** The dataclass defaults. *)
Definition default_calibration : CameraCalibration :=
  {| fx := 500; fy := 500; cx := 320; cy := 240;
     height := 1.5; pitch := 0; depth_scale := 10 |}.

Definition set_depth_scale (v : Q) (c : CameraCalibration) : CameraCalibration :=
  {| fx := fx c; fy := fy c; cx := cx c; cy := cy c;
     height := height c; pitch := pitch c; depth_scale := v |}.

(** The estimator object: its calibration and the three zone bounds. *)
Record t : Type := mkDistanceEstimator {
  calibration : CameraCalibration;
  zone_danger : Q;
  zone_warning : Q;
  zone_safe : Q
}.

(** [__init__(calibration=None)]. *)
Definition init (c : option CameraCalibration) : t :=
  {| calibration := default default_calibration c;
     zone_danger := 5; zone_warning := 15; zone_safe := 30 |}.

(** The hard-coded maximum distance, [100.0]. *)
Definition max_distance : Q := 100.

(** [_depth_to_distance(depth)].  The division is reached only when
    [depth >= 0.01], so it cannot divide by zero. *)
Definition _depth_to_distance (self : t) (depth : Q) : Q :=
  if Qltb depth 0.01 then 100
  else
    let distance := depth_scale (calibration self) / depth in
    py_min distance 100.

(** One element of [create_distance_map]:
    [np.clip(np.where(d > 0.01, depth_scale / d, 100.0), 0, 100)]. *)
Definition create_distance_map_at (self : t) (d : Q) : Q :=
  np_clip (if Qltb 0.01 d then depth_scale (calibration self) / d else 100) 0 100.

Definition create_distance_map (self : t) (depth_map : list (list Q)) : list (list Q) :=
  map (map (create_distance_map_at self)) depth_map.

Inductive zone : Type := danger | warning | safe.

(** [get_zone(distance)]. *)
Definition get_zone (self : t) (distance : efloat) : zone :=
  if ef_ltb distance (Fin (zone_danger self)) then danger
  else if ef_ltb distance (Fin (zone_warning self)) then warning
  else safe.

(** [calibrate_from_known_distance(depth_value, actual_distance)].  The
    body is one guarded assignment (and a [print] of the new scale); there
    is no [else] branch and no [raise]. *)
Definition calibrate_from_known_distance (depth_value actual_distance : Q)
  : PyM t unit :=
  (if Qltb 0.01 depth_value then
     modify_self (fun self =>
       {| calibration := set_depth_scale (actual_distance * depth_value)
                           (calibration self);
          zone_danger := zone_danger self;
          zone_warning := zone_warning self;
          zone_safe := zone_safe self |})
   else ret tt)%pym.

(** A normalised depth map: the rows of a two-dimensional array. *)
Definition depth_map : Type := list (list Q).

(** [depth_map.shape[:2]], as [(h, w)]. *)
Definition shape (m : depth_map) : Z * Z :=
  (Z.of_nat (length m), Z.of_nat (length (hd [] m))).

(** The sub-array [m[y1:y2, x1:x2]]. *)
Definition slice2 (m : depth_map) (y1 y2 x1 x2 : Z) : depth_map :=
  map (fun row => py_slice row x1 x2) (py_slice m y1 y2).

(** The elements of an array in row-major order. *)
Definition flatten (m : depth_map) : list Q := concat m.

(** A distance a method returns: a float that may be infinite, or NaN, for
    which [None] stands. *)
Definition distance_value : Type := option efloat.

(** [estimate_at_point(depth_map, x, y, window_size=5)]. *)
Definition estimate_at_point (self : t) (m : depth_map) (x y window_size : Z)
  : option Q :=
  let '(h, w) := shape m in
  let x := Z.max window_size (Z.min (w - window_size - 1) x) in
  let y := Z.max window_size (Z.min (h - window_size - 1) y) in
  let window :=
    slice2 m (y - window_size) (y + window_size + 1)
             (x - window_size) (x + window_size + 1) in
  option_map (_depth_to_distance self) (np_mean (flatten window)).

Definition as_distance (r : option Q) : distance_value := option_map Fin r.

(** [estimate_for_bbox(depth_map, x1, y1, x2, y2, method="bottom_center")]. *)
Definition estimate_for_bbox (self : t) (m : depth_map) (x1 y1 x2 y2 : Z)
    (method : string) : pyresult distance_value :=
  let '(h, w) := shape m in
  let x1 := Z.max 0 x1 in
  let x2 := Z.min w x2 in
  let y1 := Z.max 0 y1 in
  let y2 := Z.min h y2 in
  if (x2 <=? x1)%Z || (y2 <=? y1)%Z then Ret (Some PInf)
  else if String.eqb method "center" then
    let cx := ((x1 + x2) / 2)%Z in
    let cy := ((y1 + y2) / 2)%Z in
    Ret (as_distance (estimate_at_point self m cx cy 5))
  else if String.eqb method "bottom_center" then
    let cx := ((x1 + x2) / 2)%Z in
    let cy := (y2 - 5)%Z in
    Ret (as_distance (estimate_at_point self m cx cy 10))
  else if String.eqb method "min" then
    let roi := flatten (slice2 m y1 y2 x1 x2) in
    match np_max roi with
    | None => Ret (Some PInf)
    | Some max_depth => Ret (Some (Fin (_depth_to_distance self max_depth)))
    end
  else if String.eqb method "median" then
    let roi := flatten (slice2 m y1 y2 x1 x2) in
    match np_median roi with
    | None => Ret (Some PInf)
    | Some median_depth => Ret (Some (Fin (_depth_to_distance self median_depth)))
    end
  else Raise (ValueError ("Unknown method: " ++ method)).

(** [estimate_ground_distance(depth_map, y_ratio=0.9)].  The product
    [h * y_ratio] is a float product, rounded before [int] truncates it;
    the row index raises [IndexError] outside the array. *)
Definition estimate_ground_distance (self : t) (m : depth_map)
    (y_ratio : float64) : pyresult (list Q) :=
  let '(h, w) := shape m in
  match float_of_int h with
  | Raise e => Raise e
  | Ret fh =>
      match int_of_float (float_mul fh y_ratio) with
      | Raise e => Raise e
      | Ret y =>
          match py_index m y with
          | None => Raise IndexError
          | Some depth_line => Ret (map (_depth_to_distance self) depth_line)
          end
      end
  end.

(** [get_zone_color(distance)], as a BGR triple. *)
Definition get_zone_color (self : t) (distance : efloat) : Z * Z * Z :=
  match get_zone self distance with
  | danger => (0, 0, 255)
  | warning => (0, 165, 255)
  | safe => (0, 255, 0)
  end%Z.

(** [get_closest_object_distance(depth_map, roi=None)].  [np.argmax] of an
    empty region raises [ValueError]; the flat index is unravelled with the
    width of the region. *)
Definition get_closest_object_distance (self : t) (m : depth_map)
    (roi : option (Z * Z * Z * Z)) : pyresult (Q * (Z * Z)) :=
  let '(region, offset) :=
    match roi with
    | Some (x1, y1, x2, y2) => (slice2 m y1 y2 x1 x2, (x1, y1))
    | None => (m, (0, 0)%Z)
    end in
  match np_argmax (flatten region) with
  | None => Raise (ValueError "attempt to get argmax of an empty sequence")
  | Some (idx, max_depth) =>
      let width := length (hd [] region) in
      let y := Z.of_nat (idx / width) in
      let x := Z.of_nat (idx mod width) in
      Ret (_depth_to_distance self max_depth,
           (x + fst offset, y + snd offset)%Z)
  end.

End DistanceEstimator.

(* ===================================================================== *)
(** * collision_warning.py *)
(* ===================================================================== *)

Module CollisionWarning.

(** [class WarningLevel(Enum)].  It derives from [Enum], not [IntEnum]:
    members compare by identity and have no ordering of their own; the
    integer is reached through [.value]. *)
Inductive WarningLevel : Type := NONE | INFO | WARNING | DANGER | CRITICAL.

Definition value (l : WarningLevel) : Z :=
  match l with
  | NONE => 0 | INFO => 1 | WARNING => 2 | DANGER => 3 | CRITICAL => 4
  end%Z.

(** [a == b] and [a != b] on members. *)
Definition level_eqb (a b : WarningLevel) : bool := Z.eqb (value a) (value b).

(** [class WarningType(Enum)]. *)
Inductive WarningType : Type :=
| FORWARD_COLLISION | PEDESTRIAN | CYCLIST
| SIDE_COLLISION | REAR_COLLISION | LANE_DEPARTURE.

(** [@dataclass CollisionThreat].  A threat is only built for a detection
    whose distance passed the test [0 < distance <= DIST_SAFE], so its
    distance is finite; its TTC may be infinite. *)
Record CollisionThreat : Type := mkCollisionThreat {
  object_id : Z;
  object_class : string;
  distance : Q;
  relative_velocity : Q;
  ttc : efloat;
  lateral_offset : Q;
  warning_level : WarningLevel;
  warning_type : WarningType;
  confidence : Q
}.

(** [CollisionThreat.is_critical]. *)
Definition is_critical (th : CollisionThreat) : bool :=
  match warning_level th with
  | DANGER | CRITICAL => true
  | _ => false
  end.

(** [@dataclass WarningState]. *)
Record WarningState : Type := mkWarningState {
  timestamp : Q;
  active_threats : list CollisionThreat;
  highest_level : WarningLevel;
  primary_threat : option CollisionThreat;
  warning_message : string;
  audio_alert : bool;
  brake_assist_triggered : bool
}.

(** [WarningState(timestamp=timestamp)]: every other field at its default. *)
Definition new_state (ts : Q) : WarningState :=
  {| timestamp := ts; active_threats := []; highest_level := NONE;
     primary_threat := None; warning_message := EmptyString;
     audio_alert := false; brake_assist_triggered := false |}.

(** The value stored under ['bbox']: the key may be absent (then
    [obj.get] supplies [(0, 0, 0, 0)]), hold a falsy value ([None] or an
    empty tuple), or hold a box [(x1, y1, x2, y2)]. *)
Inductive bbox_field : Type :=
| BboxAbsent
| BboxFalsy
| Bbox (x1 y1 x2 y2 : Q).

(** A detection dictionary; [None] is an absent key. *)
Record Detection : Type := mkDetection {
  det_object_id : option Z;
  det_object_class : option string;
  det_distance : option efloat;
  det_bbox : bbox_field;
  det_confidence : option Q
}.

(** One tracking sample [(time, distance, lateral)]. *)
Definition sample : Type := (Q * Q * Q)%type.

(** The [CollisionWarning] object. *)
Record t : Type := mkCollisionWarning {
  ego_velocity : Q;
  min_confidence : Q;
  enable_audio : bool;
  object_history : gmap Z (list sample);
  history_window : Q;
  warning_cooldown : Q;
  class_priority : gmap string Q
}.

(** Class constants. *)
Definition TTC_CRITICAL : Q := 1.
Definition TTC_DANGER : Q := 2.
Definition TTC_WARNING : Q := 3.5.
Definition TTC_INFO : Q := 5.
Definition DIST_CRITICAL : Q := 3.
Definition DIST_DANGER : Q := 8.
Definition DIST_WARNING : Q := 15.
Definition DIST_SAFE : Q := 30.
Definition LATERAL_THRESHOLD : Q := 2.

(** [__init__(ego_velocity=10.0, min_confidence=0.5, enable_audio=True)]. *)
Definition init (ego min_conf : Q) (audio : bool) : t :=
  {| ego_velocity := ego;
     min_confidence := min_conf;
     enable_audio := audio;
     object_history := ∅;
     history_window := 1;
     warning_cooldown := 0.5;
     class_priority :=
       list_to_map
         [("person"%string, 1); ("bicycle"%string, 0.9);
          ("motorcycle"%string, 0.8); ("car"%string, 0.7);
          ("truck"%string, 0.7); ("bus"%string, 0.7)] |}.

Definition set_ego_velocity (v : Q) (self : t) : t :=
  {| ego_velocity := v;
     min_confidence := min_confidence self;
     enable_audio := enable_audio self;
     object_history := object_history self;
     history_window := history_window self;
     warning_cooldown := warning_cooldown self;
     class_priority := class_priority self |}.

Definition set_object_history (h : gmap Z (list sample)) (self : t) : t :=
  {| ego_velocity := ego_velocity self;
     min_confidence := min_confidence self;
     enable_audio := enable_audio self;
     object_history := h;
     history_window := history_window self;
     warning_cooldown := warning_cooldown self;
     class_priority := class_priority self |}.

(** [update_ego_velocity(velocity)]: [self.ego_velocity = max(0, velocity)]. *)
Definition update_ego_velocity (velocity : Q) : PyM t unit :=
  modify_self (set_ego_velocity (py_max 0 velocity)).

(** [_update_history(object_id, timestamp, distance, lateral)]: append the
    sample, then keep the samples newer than the window. *)
Definition _update_history (oid : Z) (ts dist lateral : Q) (self : t) : t :=
  let history := default [] (object_history self !! oid) ++ [(ts, dist, lateral)] in
  let cutoff := ts - history_window self in
  set_object_history
    (<[oid := List.filter (fun s : sample => Qltb cutoff (fst (fst s))) history]>
       (object_history self))
    self.

(** [_estimate_velocity(object_id)]: secant slope between the first and
    the last retained sample. *)
Definition _estimate_velocity (oid : Z) (self : t) : Q :=
  let history := default [] (object_history self !! oid) in
  if (length history <? 2)%nat then 0
  else
    match head history, last history with
    | Some (t1, d1, _), Some (t2, d2, _) =>
        let dt := t2 - t1 in
        if Qltb dt 0.01 then 0
        else (d2 - d1) / dt
    | _, _ => 0
    end.

(** [_calculate_ttc(distance, relative_velocity)]. *)
Definition _calculate_ttc (self : t) (dist rel_velocity : Q) : efloat :=
  let closing_velocity := ego_velocity self - rel_velocity in
  if Qle_bool closing_velocity 0 then PInf
  else
    let ttc := dist / closing_velocity in
    Fin (py_max 0 ttc).

(** [_determine_warning_level(distance, ttc, lateral_offset, object_class)].
    [priority] is looked up as in the source and, as in the source, not
    used afterwards. *)
Definition _determine_warning_level (self : t) (dist : Q) (ttc : efloat)
    (lateral : Q) (cls : string) : WarningLevel :=
  if Qltb LATERAL_THRESHOLD (Qabs lateral) then
    (if Qltb dist DIST_WARNING then INFO else NONE)
  else
    let priority := default 0.5 (class_priority self !! cls) in
    if ef_ltb ttc (Fin TTC_CRITICAL) then CRITICAL
    else if ef_ltb ttc (Fin TTC_DANGER) then DANGER
    else if ef_ltb ttc (Fin TTC_WARNING) then WARNING
    else if ef_ltb ttc (Fin TTC_INFO) then INFO
    else if Qltb dist DIST_CRITICAL then DANGER
    else if Qltb dist DIST_DANGER then WARNING
    else if Qltb dist DIST_WARNING then INFO
    else NONE.

(** [_determine_warning_type(object_class, lateral_offset)]. *)
Definition _determine_warning_type (cls : string) (lateral : Q) : WarningType :=
  if String.eqb cls "person" then PEDESTRIAN
  else if String.eqb cls "bicycle" || String.eqb cls "motorcycle" then CYCLIST
  else if Qltb 1.5 (Qabs lateral) then SIDE_COLLISION
  else FORWARD_COLLISION.

(** The sort key [(t.ttc, t.distance)] and Python's [<] on such tuples:
    the first components decide unless they are equal. *)
Definition sort_key (th : CollisionThreat) : efloat * Q := (ttc th, distance th).

Definition key_ltb (k1 k2 : efloat * Q) : bool :=
  if ef_eqb (fst k1) (fst k2) then Qltb (snd k1) (snd k2)
  else ef_ltb (fst k1) (fst k2).

(** [threats.sort(key=...)].  [list.sort] is a stable sort that compares
    keys with [<] only; it is modelled by stable insertion. *)
Fixpoint insert_threat (x : CollisionThreat) (l : list CollisionThreat)
  : list CollisionThreat :=
  match l with
  | [] => [x]
  | y :: l' =>
      if key_ltb (sort_key y) (sort_key x) then y :: insert_threat x l'
      else x :: y :: l'
  end.

Fixpoint sort_threats (l : list CollisionThreat) : list CollisionThreat :=
  match l with
  | [] => []
  | x :: l' => insert_threat x (sort_threats l')
  end.

(** [max(t.warning_level for t in threats)].  Builtin [max] keeps the
    first item and compares every further item with [>]; the members of
    a plain [Enum] do not support [>], so the first such comparison
    raises [TypeError].  On an empty iterable [max] raises [ValueError]. *)
Definition max_warning_level (ls : list WarningLevel) : pyresult WarningLevel :=
  match ls with
  | [] => Raise (ValueError "max() arg is an empty sequence")
  | [l] => Ret l
  | _ :: _ :: _ => Raise TypeError
  end.

Section Builtins.

(** [hash(str(obj))], the identifier of a detection without
    ['object_id']. *)
Variable py_hash : Detection -> Z.
(** [str.title]. *)
Variable str_title : string -> string.
(** The format specification [:.1f]. *)
Variable format_1f : efloat -> string.

(** [_generate_warning_message(threat)].  The emoji that prefixes each
    base message in the source is left out of the literal. *)
Definition _generate_warning_message (th : CollisionThreat) : string :=
  let base_msg :=
    match warning_level th with
    | CRITICAL => "BRAKE NOW!"
    | DANGER => "Collision risk!"
    | WARNING => "Caution ahead"
    | INFO => "Object detected"
    | NONE => ""
    end%string in
  let target :=
    match warning_type th with
    | PEDESTRIAN => "Pedestrian"%string
    | CYCLIST => "Cyclist"%string
    | _ => str_title (object_class th)
    end in
  (base_msg ++ " " ++ target ++ " at " ++ format_1f (Fin (distance th))
     ++ "m (TTC: " ++ format_1f (ttc th) ++ "s)")%string.

(** [_evaluate_threat(obj, frame_width, timestamp)].  [frame_width / 2]
    is a float division, and dividing by it raises [ZeroDivisionError]
    when [frame_width] is 0. *)
Definition _evaluate_threat (obj : Detection) (frame_width : Z) (ts : Q)
  : PyM t (option CollisionThreat) :=
  (let oid := default (py_hash obj) (det_object_id obj) in
   let cls := default "unknown"%string (det_object_class obj) in
   let conf := default 1 (det_confidence obj) in
   match default PInf (det_distance obj) with
   | PInf => ret None
   | Fin dist =>
       if Qle_bool dist 0 || Qltb DIST_SAFE dist then ret None
       else
         letM lateral :=
           match det_bbox obj with
           | BboxFalsy => ret 0
           | BboxAbsent =>
               if (frame_width =? 0)%Z then raise ZeroDivisionError
               else ret (((0 + 0) / 2 - inject_Z frame_width / 2)
                           / (inject_Z frame_width / 2) * 3)
           | Bbox x1 _ x2 _ =>
               let center_x := (x1 + x2) / 2 in
               if (frame_width =? 0)%Z then raise ZeroDivisionError
               else ret ((center_x - inject_Z frame_width / 2)
                           / (inject_Z frame_width / 2) * 3)
           end in
         seqM modify_self (_update_history oid ts dist lateral) in
         letM self := get_self in
         let rel := _estimate_velocity oid self in
         let ttc := _calculate_ttc self dist rel in
         let level := _determine_warning_level self dist ttc lateral cls in
         let type := _determine_warning_type cls lateral in
         ret (Some {| object_id := oid; object_class := cls;
                      distance := dist; relative_velocity := rel;
                      ttc := ttc; lateral_offset := lateral;
                      warning_level := level; warning_type := type;
                      confidence := conf |})
   end)%pym.

(** The [for obj in detected_objects] loop of [analyze]. *)
Fixpoint collect_threats (objs : list Detection) (frame_width : Z) (ts : Q)
    (threats : list CollisionThreat) : PyM t (list CollisionThreat) :=
  match objs with
  | [] => ret threats
  | obj :: rest =>
      (letM self := get_self in
       if Qltb (default 1 (det_confidence obj)) (min_confidence self) then
         collect_threats rest frame_width ts threats
       else
         letM threat := _evaluate_threat obj frame_width ts in
         match threat with
         | Some th =>
             if negb (level_eqb (warning_level th) NONE) then
               collect_threats rest frame_width ts (threats ++ [th])
             else collect_threats rest frame_width ts threats
         | None => collect_threats rest frame_width ts threats
         end)%pym
  end.

(** [analyze(detected_objects, frame_width, timestamp=None)].  [now] is
    what [time.time()] reads; it is used when [timestamp] is [None] or
    zero ([timestamp or time.time()]). *)
Definition analyze (detected_objects : list Detection) (frame_width : Z)
    (timestamp : option Q) (now : Q) : PyM t WarningState :=
  (let ts :=
     match timestamp with
     | Some v => if Qeq_bool v 0 then now else v
     | None => now
     end in
   letM threats := collect_threats detected_objects frame_width ts [] in
   let threats := sort_threats threats in
   match threats with
   | [] => ret (new_state ts)
   | first :: _ =>
       letM highest := of_result (max_warning_level (map warning_level threats)) in
       letM self := get_self in
       ret {| timestamp := ts;
              active_threats := threats;
              highest_level := highest;
              primary_threat := Some first;
              warning_message := _generate_warning_message first;
              audio_alert :=
                enable_audio self && (value WARNING <=? value highest)%Z;
              brake_assist_triggered := level_eqb highest CRITICAL |}
   end)%pym.

(** [clear_history()]. *)
Definition clear_history : PyM t unit :=
  modify_self (set_object_history ∅).

End Builtins.

End CollisionWarning.

(* ===================================================================== *)
(** * lane_keeping.py *)
(* ===================================================================== *)

Module LaneKeeping.

(** [class LaneDepartureStatus(Enum)]. *)
Inductive LaneDepartureStatus : Type :=
| CENTERED | DRIFTING_LEFT | DRIFTING_RIGHT
| DEPARTED_LEFT | DEPARTED_RIGHT | NO_LANE.

(** The coefficient vector [np.polyfit(y, x, 2)] returns, highest degree
    first: [x = pa * y^2 + pb * y + pc]. *)
Record Poly : Type := mkPoly { pa : Q; pb : Q; pc : Q }.

Definition poly_add (p q : Poly) : Poly :=
  {| pa := pa p + pa q; pb := pb p + pb q; pc := pc p + pc q |}.

Definition poly_div (p : Poly) (k : Q) : Poly :=
  {| pa := pa p / k; pb := pb p / k; pc := pc p / k |}.

Definition poly_zero : Poly := {| pa := 0; pb := 0; pc := 0 |}.

(** Coefficient-wise numeric equality. *)
Definition poly_eq (p q : Poly) : Prop :=
  pa p == pa q /\ pb p == pb q /\ pc p == pc q.

(** [np.polyval(p, y)], evaluated by Horner's rule. *)
Definition polyval (p : Poly) (y : Q) : Q :=
  ((0 * y + pa p) * y + pb p) * y + pc p.

(** [np.mean(history, axis=0)] on a non-empty history. *)
Definition poly_mean (history : list Poly) : Poly :=
  poly_div (fold_left poly_add history poly_zero)
           (inject_Z (Z.of_nat (length history))).

(** [@dataclass LaneState]. *)
Record LaneState : Type := mkLaneState {
  left_poly : option Poly;
  right_poly : option Poly;
  center_poly : option Poly;
  road_width : Q;
  center_offset : Q;
  curvature_radius : efloat;
  heading_angle : Q;
  departure_status : LaneDepartureStatus;
  confidence : Q;
  suggested_steering : Q
}.

(** [LaneState()]: the dataclass defaults. *)
Definition default_state : LaneState :=
  {| left_poly := None; right_poly := None; center_poly := None;
     road_width := 3.5; center_offset := 0; curvature_radius := PInf;
     heading_angle := 0; departure_status := NO_LANE; confidence := 0;
     suggested_steering := 0 |}.

(** A 3x3 perspective matrix. *)
Definition matrix : Type := list (list Q).

(** The pixel coordinates [(x, y)] one side's search returns: two arrays
    of the same length. *)
Definition pixels : Type := (list Z * list Z)%type.

(** The [LaneKeeping] object. *)
Record t : Type := mkLaneKeeping {
  roi_top_ratio : Q;
  history_size : Z;
  enable_smoothing : bool;
  left_history : list Poly;
  right_history : list Poly;
  ppm_bottom : Q;
  ppm_top : Q;
  M : option matrix;
  Minv : option matrix;
  warped_size : Z * Z
}.

(** Class constants. *)
Definition DRIFT_THRESHOLD : Q := 0.3.
Definition DEPARTURE_THRESHOLD : Q := 0.7.
Definition MIN_LANE_WIDTH : Q := 2.5.
Definition MAX_LANE_WIDTH : Q := 4.5.
Definition DEFAULT_LANE_WIDTH : Q := 3.5.

(** [__init__(roi_top_ratio=0.55, history_size=7, enable_smoothing=True)]. *)
Definition init (roi : Q) (hsize : Z) (smoothing : bool) : t :=
  {| roi_top_ratio := roi; history_size := hsize;
     enable_smoothing := smoothing;
     left_history := []; right_history := [];
     ppm_bottom := 100; ppm_top := 30;
     M := None; Minv := None;
     warped_size := (400, 600)%Z |}.

Definition set_matrices (m minv : matrix) (self : t) : t :=
  {| roi_top_ratio := roi_top_ratio self; history_size := history_size self;
     enable_smoothing := enable_smoothing self;
     left_history := left_history self; right_history := right_history self;
     ppm_bottom := ppm_bottom self; ppm_top := ppm_top self;
     M := Some m; Minv := Some minv;
     warped_size := warped_size self |}.

Definition set_left_history (h : list Poly) (self : t) : t :=
  {| roi_top_ratio := roi_top_ratio self; history_size := history_size self;
     enable_smoothing := enable_smoothing self;
     left_history := h; right_history := right_history self;
     ppm_bottom := ppm_bottom self; ppm_top := ppm_top self;
     M := M self; Minv := Minv self;
     warped_size := warped_size self |}.

Definition set_right_history (h : list Poly) (self : t) : t :=
  {| roi_top_ratio := roi_top_ratio self; history_size := history_size self;
     enable_smoothing := enable_smoothing self;
     left_history := left_history self; right_history := h;
     ppm_bottom := ppm_bottom self; ppm_top := ppm_top self;
     M := M self; Minv := Minv self;
     warped_size := warped_size self |}.

(** What the call [np.polyfit(y, x, degree)] does: it returns the
    coefficients, or raises one of the two exceptions that
    [_fit_polynomial] catches. *)
Inductive polyfit_outcome : Type :=
| Fitted (coeffs : Poly)
| RankWarning
| LinAlgError.

(** [_smooth_lane(poly, history)].  [history] is the object's own list,
    mutated in place: the result is the list after the call together with
    the returned polynomial.  [history.pop(0)] on an empty list raises
    [IndexError]. *)
Definition _smooth_lane (self : t) (poly : option Poly) (history : list Poly)
  : pyresult (list Poly * option Poly) :=
  let appended :=
    match poly with
    | Some p => history ++ [p]
    | None => history
    end in
  let popped :=
    if (history_size self <? Z.of_nat (length appended))%Z then
      match appended with
      | [] => Raise IndexError
      | _ :: rest => Ret rest
      end
    else Ret appended in
  match popped with
  | Raise e => Raise e
  | Ret [] => Ret ([], None)
  | Ret retained => Ret (retained, Some (poly_mean retained))
  end.

Section Numerics.

(** A camera frame, with [frame.shape[:2]]. *)
Variable Frame : Type.
Variable frame_shape : Frame -> Z * Z.
(** [cv2.getPerspectiveTransform(src, dst)]. *)
Variable getPerspectiveTransform : list (Q * Q) -> list (Q * Q) -> matrix.
(** [_extract_lane_pixels(cv2.warpPerspective(frame, M, warped_size))]:
    the colour and gradient thresholds and the two sliding-window
    searches, which run inside OpenCV and NumPy. *)
Variable extract_lane_pixels : Frame -> matrix -> Z * Z -> pixels * pixels.
(** [np.polyfit(y, x, 2)]. *)
Variable np_polyfit : list Z -> list Z -> polyfit_outcome.
(** [np.arctan(s) * 180 / np.pi] and [v ** 1.5]. *)
Variable arctan_degrees : Q -> Q.
Variable pow_1_5 : Q -> Q.

(** [_compute_perspective(w, h)]; [int(...)] truncates. *)
Definition _compute_perspective (w h : Z) : PyM t unit :=
  (letM self := get_self in
   let wq := inject_Z w in
   let hq := inject_Z h in
   let top_y := inject_Z (py_int (hq * roi_top_ratio self)) in
   let src := [(wq * 0.15, hq); (wq * 0.45, top_y);
               (wq * 0.55, top_y); (wq * 0.85, hq)] in
   let ww := inject_Z (fst (warped_size self)) in
   let wh := inject_Z (snd (warped_size self)) in
   let dst := [(100, wh); (100, 0); (ww - 100, 0); (ww - 100, wh)] in
   modify_self (set_matrices (getPerspectiveTransform src dst)
                             (getPerspectiveTransform dst src)))%pym.

(** [_fit_polynomial(pixels, degree=2)]. *)
Definition _fit_polynomial (px : pixels) : option Poly :=
  let (x, y) := px in
  if (length x <? 10)%nat then None
  else
    match np_polyfit y x with
    | Fitted coeffs => Some coeffs
    | RankWarning | LinAlgError => None
    end.

(** [_compute_curvature(poly, y_eval)]. *)
Definition _compute_curvature (self : t) (poly : Poly) (y_eval : Q) : efloat :=
  let d1 := 2 * pa poly * y_eval + pb poly in
  let d2 := 2 * pa poly in
  if Qltb (Qabs d2) (1 # 1000000) then PInf
  else
    let curvature := pow_1_5 (1 + d1 * d1) / Qabs d2 in
    let curvature_m := curvature / ppm_bottom self in
    Fin (py_min curvature_m 10000).

(** [_compute_heading(poly, y_eval)]. *)
Definition _compute_heading (poly : Poly) (y_eval : Q) : Q :=
  let slope := 2 * pa poly * y_eval + pb poly in
  arctan_degrees slope.

(** [_compute_steering(state)], from the two fields it reads. *)
Definition _compute_steering (offset heading : Q) : Q :=
  let steering := 2 * offset + 0.5 * heading in
  np_clip steering (-45) 45.

(** The departure classification at the end of [_compute_metrics]. *)
Definition classify_departure (offset : Q) : LaneDepartureStatus :=
  if Qltb DEPARTURE_THRESHOLD (Qabs offset) then
    (if Qltb 0 offset then DEPARTED_RIGHT else DEPARTED_LEFT)
  else if Qltb DRIFT_THRESHOLD (Qabs offset) then
    (if Qltb 0 offset then DRIFTING_RIGHT else DRIFTING_LEFT)
  else CENTERED.

(** What one side adds to the confidence: [0.5] when its polynomial is
    not [None]. *)
Definition side_confidence (p : option Poly) : Q :=
  match p with
  | Some _ => 0.5
  | None => 0
  end.

(** [_compute_metrics(left_poly, right_poly, img_width, img_height)].
    The two image dimensions are not read by the body. *)
Definition _compute_metrics (self : t) (left right : option Poly)
    (img_width img_height : Z) : LaneState :=
  let wh := inject_Z (snd (warped_size self)) in
  let ww := inject_Z (fst (warped_size self)) in
  let conf := 0 + side_confidence left + side_confidence right in
  if Qeq_bool conf 0 then
    {| left_poly := left; right_poly := right; center_poly := None;
       road_width := 3.5; center_offset := 0; curvature_radius := PInf;
       heading_angle := 0; departure_status := NO_LANE;
       confidence := conf; suggested_steering := 0 |}
  else
    let y_eval := wh - 1 in
    let '(offset, width, center, radius, heading) :=
      match left, right with
      | Some lp, Some rp =>
          let left_x := polyval lp y_eval in
          let right_x := polyval rp y_eval in
          let lane_center := (left_x + right_x) / 2 in
          let img_center := ww / 2 in
          let lane_width_px := right_x - left_x in
          let '(offset, width) :=
            if Qltb 50 lane_width_px then
              let meters_per_pixel := DEFAULT_LANE_WIDTH / lane_width_px in
              ((img_center - lane_center) * meters_per_pixel,
               lane_width_px * meters_per_pixel)
            else (0, 3.5) in
          let cp := poly_div (poly_add lp rp) 2 in
          (offset, width, Some cp,
           _compute_curvature self cp y_eval, _compute_heading cp y_eval)
      | Some lp, None =>
          let left_x := polyval lp y_eval in
          let estimated_center :=
            left_x + ppm_bottom self * DEFAULT_LANE_WIDTH / 2 in
          ((ww / 2 - estimated_center) / ppm_bottom self,
           3.5, None, PInf, 0)
      | None, Some rp =>
          let right_x := polyval rp y_eval in
          let estimated_center :=
            right_x - ppm_bottom self * DEFAULT_LANE_WIDTH / 2 in
          ((ww / 2 - estimated_center) / ppm_bottom self,
           3.5, None, PInf, 0)
      | None, None => (0, 3.5, None, PInf, 0)
      end in
    {| left_poly := left; right_poly := right; center_poly := center;
       road_width := width; center_offset := offset;
       curvature_radius := radius; heading_angle := heading;
       departure_status := classify_departure offset;
       confidence := conf;
       suggested_steering := _compute_steering offset heading |}.

(** The raw, pre-smoothing fit of one side in [detect]:
    [self._fit_polynomial(p) if len(p[0]) > 100 else None]. *)
Definition raw_fit (px : pixels) : option Poly :=
  if (100 <? length (fst px))%nat then _fit_polynomial px else None.

(** The smoothing step of [detect] for the two sides, left first. *)
Definition smooth_left (poly : option Poly) : PyM t (option Poly) :=
  fun self =>
    match _smooth_lane self poly (left_history self) with
    | Ret (h, p) => (set_left_history h self, Ret p)
    | Raise e => (self, Raise e)
    end.

Definition smooth_right (poly : option Poly) : PyM t (option Poly) :=
  fun self =>
    match _smooth_lane self poly (right_history self) with
    | Ret (h, p) => (set_right_history h self, Ret p)
    | Raise e => (self, Raise e)
    end.

(** The guard [if self.M is None: self._compute_perspective(w, h)]. *)
Definition ensure_perspective (w h : Z) : PyM t unit :=
  (letM self := get_self in
   match M self with
   | None => _compute_perspective w h
   | Some _ => ret tt
   end)%pym.

(** The pixels the two sliding-window searches return for a frame, once
    the perspective matrices are in place. *)
Definition lane_pixels (self : t) (frame : Frame) : pixels * pixels :=
  extract_lane_pixels frame (default [] (M self)) (warped_size self).

(** [detect(frame)]. *)
Definition detect (frame : Frame) : PyM t LaneState :=
  (let (h, w) := frame_shape frame in
   seqM ensure_perspective w h in
   letM self := get_self in
   let (left_pixels, right_pixels) := lane_pixels self frame in
   let left_raw := raw_fit left_pixels in
   let right_raw := raw_fit right_pixels in
   letM left_poly :=
     (if enable_smoothing self then smooth_left left_raw else ret left_raw) in
   letM right_poly :=
     (if enable_smoothing self then smooth_right right_raw else ret right_raw) in
   letM self' := get_self in
   ret (_compute_metrics self' left_poly right_poly w h))%pym.

End Numerics.

(** A binary mask: [mask_width] columns and the rows of 0/1 pixels, as the
    array [binary] of shape [(h, w)]. *)
Record mask : Type := mkMask {
  mask_width : nat;
  mask_rows : list (list bool)
}.

Definition mask_height (b : mask) : nat := length (mask_rows b).

(** The pixel at row [y], column [x]; outside the array it is not set. *)
Definition mask_at (b : mask) (y x : nat) : bool :=
  nth x (nth y (mask_rows b) []) false.

(** The columns of the set pixels of one row, from column [x] on. *)
Fixpoint set_columns (x : nat) (row : list bool) : list nat :=
  match row with
  | [] => []
  | px :: row' =>
      if px then x :: set_columns (S x) row' else set_columns (S x) row'
  end.

Fixpoint nonzero_from (y : nat) (rows : list (list bool)) : list (nat * nat) :=
  match rows with
  | [] => []
  | row :: rows' =>
      map (fun x => (y, x)) (set_columns 0 row) ++ nonzero_from (S y) rows'
  end.

(** [binary.nonzero()]: the [(row, column)] of every set pixel, in
    row-major order. *)
Definition nonzero (b : mask) : list (nat * nat) := nonzero_from 0 (mask_rows b).

(** [np.sum(binary[3*h//4:, :], axis=0)]: for each column, the number of
    set pixels in the bottom quarter of the rows. *)
Definition histogram (b : mask) : list nat :=
  let bottom := skipn (3 * mask_height b / 4) (mask_rows b) in
  map (fun x => length (List.filter (fun row => nth x row false) bottom))
      (seq 0 (mask_width b)).

(** [np.argmax] on counts: position and value of the first largest one. *)
Fixpoint count_argmax_from (best_i best i : nat) (l : list nat) : nat * nat :=
  match l with
  | [] => (best_i, best)
  | c :: l' =>
      if (best <? c)%nat then count_argmax_from i c (S i) l'
      else count_argmax_from best_i best (S i) l'
  end.

Definition count_argmax (l : list nat) : option (nat * nat) :=
  match l with
  | [] => None
  | c :: l' => Some (count_argmax_from 0 c 1 l')
  end.

(** The pixels of [nonzero] inside one window. *)
Definition in_window (y_low y_high x_low x_high : Z) (px : nat * nat) : bool :=
  ((y_low <=? Z.of_nat (fst px)) && (Z.of_nat (fst px) <? y_high)
   && (x_low <=? Z.of_nat (snd px)) && (Z.of_nat (snd px) <? x_high))%Z.

(** [int(np.mean(nonzerox[good_inds]))] on a non-empty selection. *)
Definition mean_column (good : list (nat * nat)) : Z :=
  (fold_right Z.add 0 (map (fun px => Z.of_nat (snd px)) good)
   / Z.of_nat (length good))%Z.

(** The [for window in range(n_windows)] loop of the search: the pixels
    selected in each window, bottom window first. *)
Fixpoint search_windows (nz : list (nat * nat)) (h w window_height margin
    min_pixels : Z) (windows : list nat) (current : Z)
  : list (list (nat * nat)) :=
  match windows with
  | [] => []
  | window :: rest =>
      let win_y_low := (h - (Z.of_nat window + 1) * window_height)%Z in
      let win_y_high := (h - Z.of_nat window * window_height)%Z in
      let win_x_low := Z.max 0 (current - margin) in
      let win_x_high := Z.min w (current + margin) in
      let good :=
        List.filter (in_window win_y_low win_y_high win_x_low win_x_high) nz in
      good ::
      search_windows nz h w window_height margin min_pixels rest
        (if (min_pixels <? Z.of_nat (length good))%Z then mean_column good
         else current)
  end.

(** [_sliding_window_search(binary, n_windows=9, margin=50, min_pixels=50,
    offset=0)].  [np.max] of an empty histogram raises [ValueError];
    [h // n_windows] raises [ZeroDivisionError] for [n_windows = 0]. *)
Definition _sliding_window_search (binary : mask)
    (n_windows margin min_pixels offset : Z) : pyresult pixels :=
  let h := Z.of_nat (mask_height binary) in
  let w := Z.of_nat (mask_width binary) in
  match count_argmax (histogram binary) with
  | None => Raise (ValueError "zero-size array to reduction operation maximum")
  | Some (base, peak) =>
      if (peak =? 0)%nat then Ret ([], [])
      else if (n_windows =? 0)%Z then Raise ZeroDivisionError
      else
        let window_height := (h / n_windows)%Z in
        let lane :=
          concat (search_windows (nonzero binary) h w window_height margin
                    min_pixels (seq 0 (Z.to_nat n_windows)) (Z.of_nat base)) in
        Ret (map (fun px => (Z.of_nat (snd px) + offset)%Z) lane,
             map (fun px => Z.of_nat (fst px)) lane)
  end.

(** The two halves [combined[:, :midpoint]] and [combined[:, midpoint:]]. *)
Definition left_half (combined : mask) : mask :=
  let midpoint := (mask_width combined / 2)%nat in
  {| mask_width := midpoint;
     mask_rows := map (firstn midpoint) (mask_rows combined) |}.

Definition right_half (combined : mask) : mask :=
  let midpoint := (mask_width combined / 2)%nat in
  {| mask_width := (mask_width combined - midpoint)%nat;
     mask_rows := map (skipn midpoint) (mask_rows combined) |}.

(** The end of [_extract_lane_pixels], from the combined mask on: one
    search per half, the right one shifted back by the midpoint. *)
Definition search_both_halves (combined : mask) : pyresult (pixels * pixels) :=
  let midpoint := Z.of_nat (mask_width combined / 2) in
  match _sliding_window_search (left_half combined) 9 50 50 0 with
  | Raise e => Raise e
  | Ret left_pixels =>
      match _sliding_window_search (right_half combined) 9 50 50 midpoint with
      | Raise e => Raise e
      | Ret right_pixels => Ret (left_pixels, right_pixels)
      end
  end.

End LaneKeeping.

(* ===================================================================== *)
(** * depth_adas_service.py *)
(* ===================================================================== *)

Module DepthADASService.

(** The fields of the service that [update_ego_velocity] touches, and the
    sub-engines it owns. *)
Record t : Type := mkDepthADASService {
  ego_velocity : Q;
  collision_warning : CollisionWarning.t;
  lane_keeping : LaneKeeping.t;
  distance_estimator : DistanceEstimator.t
}.

(** [__init__(ego_velocity=15.0, ...)]. *)
Definition init (ego : Q) : t :=
  {| ego_velocity := ego;
     collision_warning := CollisionWarning.init ego 0.5 true;
     lane_keeping := LaneKeeping.init 0.55 7 true;
     distance_estimator := DistanceEstimator.init None |}.

(** [update_ego_velocity(velocity)]: stores [max(0, velocity)] and
    forwards the unclamped argument to the collision engine. *)
Definition update_ego_velocity (velocity : Q) : PyM t unit :=
  fun self =>
    let ego := py_max 0 velocity in
    match CollisionWarning.update_ego_velocity velocity (collision_warning self) with
    | (cw, Ret _) =>
        ({| ego_velocity := ego; collision_warning := cw;
            lane_keeping := lane_keeping self;
            distance_estimator := distance_estimator self |}, Ret tt)
    | (cw, Raise e) =>
        ({| ego_velocity := ego; collision_warning := cw;
            lane_keeping := lane_keeping self;
            distance_estimator := distance_estimator self |}, Raise e)
    end.

End DepthADASService.


(* ===================================================================== *)
(** * Vocabulary of the statements *)
(* ===================================================================== *)

Module Vocabulary.
Import CollisionWarning.

(** Ascending order of sort keys [(ttc, distance)]: the TTC is smaller, or
    the TTCs are equal and the distance is not larger. *)
Definition key_le (k1 k2 : efloat * Q) : Prop :=
  ef_lt (fst k1) (fst k2) \/ (ef_eq (fst k1) (fst k2) /\ snd k1 <= snd k2).

Definition threat_le (a b : CollisionThreat) : Prop :=
  key_le (sort_key a) (sort_key b).

(** Two sort keys are numerically the same. *)
Definition key_eqb (k1 k2 : efloat * Q) : bool :=
  ef_eqb (fst k1) (fst k2) && Qeq_bool (snd k1) (snd k2).

(** The threats of a list that carry the sort key [k], in list order. *)
Definition with_key (k : efloat * Q) (l : list CollisionThreat)
  : list CollisionThreat :=
  List.filter (fun th => key_eqb (sort_key th) k) l.

(** Everything in the engine but the tracking history is unchanged. *)
Definition same_settings (s s' : t) : Prop :=
  ego_velocity s' = ego_velocity s /\
  min_confidence s' = min_confidence s /\
  enable_audio s' = enable_audio s /\
  history_window s' = history_window s /\
  warning_cooldown s' = warning_cooldown s /\
  class_priority s' = class_priority s.

(** The largest severity of a list of threats, by [.value]. *)
Definition max_value (l : list CollisionThreat) : Z :=
  fold_right (fun th acc => Z.max (value (warning_level th)) acc) 0%Z l.

(** A detection [analyze] passes over: its confidence is below the
    engine's minimum, or its distance is absent, infinite, not positive or
    beyond [DIST_SAFE]. *)
Definition ignored (s : t) (obj : Detection) : Prop :=
  default 1 (det_confidence obj) < min_confidence s \/
  match default PInf (det_distance obj) with
  | PInf => True
  | Fin d => d <= 0 \/ DIST_SAFE < d
  end.

(** A detection [analyze] evaluates. *)
Definition evaluated (s : t) (obj : Detection) : Prop :=
  min_confidence s <= default 1 (det_confidence obj) /\
  exists d, det_distance obj = Some (Fin d) /\ 0 < d /\ d <= DIST_SAFE.

(** What holds of every threat the engine reports. *)
Definition reported_threat (s : t) (th : CollisionThreat) : Prop :=
  warning_level th <> NONE /\
  0 < distance th /\ distance th <= DIST_SAFE /\
  min_confidence s <= confidence th /\
  ef_lt (Fin 0) (ttc th) /\
  warning_type th <> REAR_COLLISION /\ warning_type th <> LANE_DEPARTURE.

(** The time stamp [analyze] works with: the caller's, unless it is absent
    or zero. *)
Definition timestamp_used (stamp : option Q) (now : Q) : Q :=
  match stamp with
  | Some v => if Qeq_bool v 0 then now else v
  | None => now
  end.

(** The samples of a track, none if the object has no track. *)
Definition track_of (s : t) (oid : Z) : list sample :=
  default [] (object_history s !! oid).

(** Every row of a depth map has [w] columns. *)
Definition rectangular (w : nat) (m : DistanceEstimator.depth_map) : Prop :=
  Forall (fun row => length row = w) m.


(** The depth at column [x] of row [y]. *)
Definition depth_at (m : DistanceEstimator.depth_map) (x y : nat) : option Q :=
  match nth_error m y with
  | Some row => nth_error row x
  | None => None
  end.

(** The pixels [(x, y)] a search returned, paired up. *)
Definition found_pixels (px : LaneKeeping.pixels) : list (Z * Z) :=
  combine (fst px) (snd px).

(** The engine after [detect] has been called on each frame of a sequence
    in turn, as the per-frame driver does. *)
Definition lane_run {Frame : Type}
    (detect : Frame -> PyM LaneKeeping.t LaneKeeping.LaneState)
    (frames : list Frame) (self : LaneKeeping.t) : LaneKeeping.t :=
  fold_left (fun s frame => fst (detect frame s)) frames self.

(** A lane history holds no more polynomials than [history_size]. *)
Definition history_bounded (self : LaneKeeping.t) : Prop :=
  (Z.of_nat (length (LaneKeeping.left_history self))
     <= LaneKeeping.history_size self)%Z /\
  (Z.of_nat (length (LaneKeeping.right_history self))
     <= LaneKeeping.history_size self)%Z.

End Vocabulary.

(* ===================================================================== *)
(** * Concrete inputs *)
(* ===================================================================== *)

Module Scenario.
Import CollisionWarning.

(** Stand-ins for the three builtins; the detections below carry their own
    identifiers, so the hash is never consulted. *)
Definition hash0 (_ : Detection) : Z := 0%Z.
Definition title0 (s : string) : string := s.
Definition format0 (_ : efloat) : string := EmptyString.

(** The two detections of the module's own test ([__main__]). *)
Definition test_car : Detection :=
  {| det_object_id := Some 1%Z;
     det_object_class := Some "car"%string;
     det_distance := Some (Fin 8);
     det_bbox := Bbox 300 200 400 350;
     det_confidence := Some 0.9 |}.

Definition test_person : Detection :=
  {| det_object_id := Some 2%Z;
     det_object_class := Some "person"%string;
     det_distance := Some (Fin 5);
     det_bbox := Bbox 320 250 360 400;
     det_confidence := Some 0.85 |}.

Definition test_objects : list Detection := [test_car; test_person].

(** The test's car, seen at another distance. *)
Definition car_at (d : Q) : Detection :=
  {| det_object_id := Some 1%Z;
     det_object_class := Some "car"%string;
     det_distance := Some (Fin d);
     det_bbox := Bbox 300 200 400 350;
     det_confidence := Some 0.9 |}.

(** A car at the right edge of a 640-pixel frame. *)
Definition side_car (d : Q) : Detection :=
  {| det_object_id := Some 3%Z;
     det_object_class := Some "car"%string;
     det_distance := Some (Fin d);
     det_bbox := Bbox 600 200 640 350;
     det_confidence := Some 0.9 |}.

(** [CollisionWarning(ego_velocity=15.0)], as in the test. *)
Definition cws : t := init 15 0.5 true.

(** A lane marking that is one vertical column of [n] pixels at abscissa
    [x], rows [0] to [n - 1]. *)
Definition column_pixels (x : Z) (n : nat) : LaneKeeping.pixels :=
  (repeat x n, map Z.of_nat (seq 0 n)).

(** The least-squares parabola through a vertical column of pixels is the
    constant polynomial at the column's abscissa; the examples fit columns
    only. *)
Definition column_fit (y x : list Z) : LaneKeeping.polyfit_outcome :=
  LaneKeeping.Fitted
    {| LaneKeeping.pa := 0; LaneKeeping.pb := 0;
       LaneKeeping.pc := inject_Z (hd 0%Z x) |}.

(** A frame of the examples is given by what the two searches find in it;
    it is 640 pixels wide and 480 high. *)
Definition frame0 : Type := (LaneKeeping.pixels * LaneKeeping.pixels)%type.
Definition shape0 (_ : frame0) : Z * Z := (480, 640)%Z.
Definition transform0 (_ _ : list (Q * Q)) : LaneKeeping.matrix := [].
Definition extract0 (f : frame0) (_ : LaneKeeping.matrix) (_ : Z * Z)
  : LaneKeeping.pixels * LaneKeeping.pixels := f.
Definition arctan0 (_ : Q) : Q := 0.
Definition pow0 (v : Q) : Q := v.

(** [detect] under these stand-ins. *)
Definition detect0 : frame0 -> PyM LaneKeeping.t LaneKeeping.LaneState :=
  LaneKeeping.detect frame0 shape0 transform0 extract0 column_fit arctan0 pow0.

(** A mask of 12 rows and 4 columns with a marking in column 1 of every
    row, and the same marking in the top three rows only. *)
Definition stripe_mask : LaneKeeping.mask :=
  {| LaneKeeping.mask_width := 4;
     LaneKeeping.mask_rows := repeat [false; true; false; false] 12 |}.

Definition far_stripe_mask : LaneKeeping.mask :=
  {| LaneKeeping.mask_width := 4;
     LaneKeeping.mask_rows :=
       repeat [false; true; false; false] 3
       ++ repeat [false; false; false; false] 9 |}.

(** A mask of 12 rows and 8 columns with markings in columns 1 and 6. *)
Definition two_stripes_mask : LaneKeeping.mask :=
  {| LaneKeeping.mask_width := 8;
     LaneKeeping.mask_rows :=
       repeat [false; true; false; false; false; false; true; false] 12 |}.

(** [LaneKeeping()], and the same engine without smoothing. *)
Definition lka : LaneKeeping.t := LaneKeeping.init 0.55 7 true.
Definition lka_raw : LaneKeeping.t := LaneKeeping.init 0.55 7 false.

(** The float a decimal literal [n/d] denotes, for integers [n] and [d]
    that are floats themselves: the nearest float to the quotient. *)
Definition float_literal (n d : Z) : float64 :=
  SFdiv 53 1024 (binary_normalize 53 1024 n 0 false)
                (binary_normalize 53 1024 d 0 false).

(** The float [10.0]. *)
Definition ten : float64 := S754_finite false 5629499534213120 (-49).

(** A depth map of ten rows and two columns; row [i] holds [i/10] and
    [i/100]. *)
Definition ten_rows : list (list Q) :=
  [[0; 0]; [0.1; 0.01]; [0.2; 0.02]; [0.3; 0.03]; [0.4; 0.04];
   [0.5; 0.05]; [0.6; 0.06]; [0.7; 0.07]; [0.8; 0.08]; [0.9; 0.09]].

End Scenario.


(* ===================================================================== *)
(** * Facts about the numeric builtins *)
(* ===================================================================== *)

Lemma Qltb_lt (x y : Q) : Qltb x y = true <-> x < y.
Proof.
  unfold Qltb. rewrite negb_true_iff, <- not_true_iff_false, Qle_bool_iff.
  split; intros H; [apply Qnot_le_lt | apply Qlt_not_le]; exact H.
Qed.

Lemma Qltb_ge (x y : Q) : Qltb x y = false <-> y <= x.
Proof.
  unfold Qltb. rewrite negb_false_iff. apply Qle_bool_iff.
Qed.

Lemma Qle_bool_gt (x y : Q) : Qle_bool x y = false <-> y < x.
Proof.
  rewrite <- not_true_iff_false, Qle_bool_iff.
  split; intros H; [apply Qnot_le_lt | apply Qlt_not_le]; exact H.
Qed.

(** Case analysis on a float comparison, with the fact it decided. *)
Ltac case_Qltb x y :=
  let H := fresh "Hcmp" in
  destruct (Qltb x y) eqn:H;
  [apply Qltb_lt in H | apply Qltb_ge in H].

Ltac case_Qle_bool x y :=
  let H := fresh "Hcmp" in
  destruct (Qle_bool x y) eqn:H;
  [apply Qle_bool_iff in H | apply Qle_bool_gt in H].

Lemma py_max_spec (a b : Q) :
  (a < b /\ py_max a b = b) \/ (b <= a /\ py_max a b = a).
Proof. unfold py_max. case_Qltb a b; auto. Qed.

Lemma py_min_spec (a b : Q) :
  (b < a /\ py_min a b = b) \/ (a <= b /\ py_min a b = a).
Proof. unfold py_min. case_Qltb b a; auto. Qed.

Lemma py_max_Qmax (a b : Q) : py_max a b == Qmax a b.
Proof.
  destruct (py_max_spec a b) as [[H ->] | [H ->]].
  - symmetry. apply Q.max_r. lra.
  - symmetry. apply Q.max_l. exact H.
Qed.

Lemma py_min_Qmin (a b : Q) : py_min a b == Qmin a b.
Proof.
  destruct (py_min_spec a b) as [[H ->] | [H ->]].
  - symmetry. apply Q.min_r. lra.
  - symmetry. apply Q.min_l. exact H.
Qed.

Lemma py_max_0_nonneg (v : Q) : 0 <= py_max 0 v.
Proof. destruct (py_max_spec 0 v) as [[H ->] | [H ->]]; lra. Qed.

Lemma ef_eq_refl (x : efloat) : ef_eq x x.
Proof. destruct x; simpl; [reflexivity | exact I]. Qed.

Lemma ef_le_PInf (x : efloat) : ef_le x PInf.
Proof. destruct x; reflexivity. Qed.

Lemma ef_le_Fin (p q : Q) : ef_le (Fin p) (Fin q) <-> p <= q.
Proof. unfold ef_le; simpl. apply Qle_bool_iff. Qed.

Lemma ef_ltb_Fin (p q : Q) : ef_ltb (Fin p) (Fin q) = Qltb p q.
Proof. reflexivity. Qed.

(* ===================================================================== *)
(** * Distance estimator *)
(* ===================================================================== *)

Section DistanceEstimatorFacts.

Import DistanceEstimator.

(** C3.  For a depth below 0.01 the conversion returns the maximum
    distance 100; otherwise it returns [min(depth_scale / d, 100)]; and for
    a depth in [0.01, 1] under a positive [depth_scale] this is
    [depth_scale / d] clamped to the interval from 0 to the maximum
    distance. *)
Theorem depth_to_distance_law (self : t) (d : Q) :
  (d < 0.01 -> _depth_to_distance self d == max_distance) /\
  (0.01 <= d ->
     _depth_to_distance self d == Qmin (depth_scale (calibration self) / d) 100) /\
  (0 < depth_scale (calibration self) -> 0.01 <= d -> d <= 1 ->
     _depth_to_distance self d
       == np_clip (depth_scale (calibration self) / d) 0 max_distance).
Proof.
  unfold _depth_to_distance, max_distance.
  split; [| split].
  - intros Hd. apply Qltb_lt in Hd. rewrite Hd. reflexivity.
  - intros Hd. apply Qltb_ge in Hd. rewrite Hd. apply py_min_Qmin.
  - intros Hs Hd _. pose proof Hd as Hd'. apply Qltb_ge in Hd'. rewrite Hd'.
    rewrite py_min_Qmin. unfold np_clip.
    assert (Hq : 0 <= depth_scale (calibration self) / d).
    { apply Qle_shift_div_l; lra. }
    rewrite (Q.max_l _ 0 Hq). reflexivity.
Qed.

(** The law at three depths of the default estimator: below the cut-off,
    in the clamped range, and in the proportional range. *)
Lemma depth_to_distance_law_witness :
  _depth_to_distance (init None) 0.005 == 100 /\
  _depth_to_distance (init None) 0.05 == Qmin (10 / 0.05) 100 /\
  _depth_to_distance (init None) 0.5 == np_clip (10 / 0.5) 0 100.
Proof.
  split; [| split].
  - apply (proj1 (depth_to_distance_law (init None) 0.005)). reflexivity.
  - apply (proj1 (proj2 (depth_to_distance_law (init None) 0.05))).
    discriminate.
  - apply (proj2 (proj2 (depth_to_distance_law (init None) 0.5)));
      [reflexivity | discriminate | discriminate].
Defined.

(** The result of the conversion never exceeds the maximum distance. *)
Lemma depth_to_distance_le_max (self : t) (d : Q) :
  _depth_to_distance self d <= max_distance.
Proof.
  unfold _depth_to_distance, max_distance.
  case_Qltb d 0.01; [lra |].
  destruct (py_min_spec (depth_scale (calibration self) / d) 100)
    as [[H ->] | [H ->]]; lra.
Qed.

(** C8, as the code has it.  A depth value above 0.01 sets [depth_scale]
    to [actual_distance * depth_value]; a depth value of at most 0.01
    leaves the estimator unchanged; in both cases the call returns
    normally. *)
Theorem calibrate_from_known_distance_guarded (self : t) (depth_value actual : Q) :
  (0.01 < depth_value ->
     exists self',
       calibrate_from_known_distance depth_value actual self = (self', Ret tt) /\
       depth_scale (calibration self') = actual * depth_value) /\
  (depth_value <= 0.01 ->
     calibrate_from_known_distance depth_value actual self = (self, Ret tt)).
Proof.
  unfold calibrate_from_known_distance. split.
  - intros H. apply Qltb_lt in H. rewrite H.
    eexists. split; reflexivity.
  - intros H. apply Qltb_ge in H. rewrite H. reflexivity.
Qed.

Lemma calibrate_from_known_distance_guarded_witness :
  (exists self',
     calibrate_from_known_distance 0.5 20 (init None) = (self', Ret tt) /\
     depth_scale (calibration self') = 20 * 0.5) /\
  calibrate_from_known_distance 0.01 20 (init None) = (init None, Ret tt).
Proof.
  split.
  - apply (proj1 (calibrate_from_known_distance_guarded (init None) 0.5 20)).
    reflexivity.
  - apply (proj2 (calibrate_from_known_distance_guarded (init None) 0.01 20)).
    discriminate.
Defined.

(** C8 as stated fails: a calibration with depth value 0.005 raises
    nothing; it returns normally and the depth scale keeps its old value. *)
Lemma calibrate_invalid_depth_is_absorbed :
  0.005 <= 0.01 /\
  (forall e self',
     calibrate_from_known_distance 0.005 20 (init None) <> (self', Raise e)) /\
  calibrate_from_known_distance 0.005 20 (init None) = (init None, Ret tt) /\
  depth_scale (calibration (fst (calibrate_from_known_distance 0.005 20 (init None))))
    = 10.
Proof.
  split; [discriminate |].
  split; [intros e self' H; vm_compute in H; discriminate |].
  split; reflexivity.
Qed.

End DistanceEstimatorFacts.

(* ===================================================================== *)
(** * Collision warning: velocity, TTC and severity *)
(* ===================================================================== *)

Section CollisionWarningFacts.

Import CollisionWarning Vocabulary.

Variable py_hash : Detection -> Z.
Variable str_title : string -> string.
Variable format_1f : efloat -> string.

Lemma same_settings_refl (s : t) : same_settings s s.
Proof. repeat split. Qed.

Lemma same_settings_trans (s1 s2 s3 : t) :
  same_settings s1 s2 -> same_settings s2 s3 -> same_settings s1 s3.
Proof.
  unfold same_settings. intros (?&?&?&?&?&?) (?&?&?&?&?&?).
  repeat split; congruence.
Qed.

Lemma update_history_settings oid ts d l (s : t) :
  same_settings s (_update_history oid ts d l s).
Proof. repeat split. Qed.

(** What [_evaluate_threat] does, case by case: it raises without touching
    the engine, or drops the detection without touching the engine, or
    records one sample and builds the threat from the updated engine. *)
Lemma evaluate_threat_cases (obj : Detection) (fw : Z) (ts : Q) (s : t) :
  (exists e, _evaluate_threat py_hash obj fw ts s = (s, Raise e)) \/
  _evaluate_threat py_hash obj fw ts s = (s, Ret None) \/
  (exists dist lateral,
     let oid := default (py_hash obj) (det_object_id obj) in
     let cls := default "unknown"%string (det_object_class obj) in
     let s' := _update_history oid ts dist lateral s in
     let rel := _estimate_velocity oid s' in
     let ttc := _calculate_ttc s' dist rel in
     det_distance obj = Some (Fin dist) /\ 0 < dist /\ dist <= DIST_SAFE /\
     _evaluate_threat py_hash obj fw ts s =
       (s', Ret (Some {| object_id := oid; object_class := cls;
                         distance := dist; relative_velocity := rel;
                         ttc := ttc; lateral_offset := lateral;
                         warning_level :=
                           _determine_warning_level s' dist ttc lateral cls;
                         warning_type := _determine_warning_type cls lateral;
                         confidence := default 1 (det_confidence obj) |}))).
Proof.
  unfold _evaluate_threat.
  destruct (det_distance obj) as [[dist|]|] eqn:Hd; simpl; auto.
  case_Qle_bool dist 0; simpl; auto.
  case_Qltb DIST_SAFE dist; simpl; auto.
  destruct (det_bbox obj) as [| |x1 y1 x2 y2];
    [destruct (fw =? 0)%Z | | destruct (fw =? 0)%Z];
    unfold bind, raise, ret, modify_self, get_self; simpl; eauto;
    right; right; do 2 eexists; (split; [reflexivity|]);
    (split; [assumption|]); (split; [assumption|]); reflexivity.
Qed.

Lemma evaluate_threat_settings (obj : Detection) (fw : Z) (ts : Q) (s : t) :
  same_settings s (fst (_evaluate_threat py_hash obj fw ts s)).
Proof.
  destruct (evaluate_threat_cases obj fw ts s) as [[e ->] | [-> | H]];
    try apply same_settings_refl.
  destruct H as (dist & lateral & _ & _ & _ & ->).
  apply update_history_settings.
Qed.

Lemma collect_threats_settings (objs : list Detection) (fw : Z) (ts : Q) :
  forall (acc : list CollisionThreat) (s : t),
    same_settings s (fst (collect_threats py_hash objs fw ts acc s)).
Proof.
  induction objs as [|obj rest IH]; intros acc s; simpl.
  - apply same_settings_refl.
  - unfold bind at 1, get_self. simpl.
    destruct (Qltb _ _); [apply IH |].
    unfold bind at 1.
    pose proof (evaluate_threat_settings obj fw ts s) as Hs.
    destruct (_evaluate_threat py_hash obj fw ts s) as [s' [[th|]|e]];
      simpl in *; try exact Hs.
    + destruct (negb _);
        (eapply same_settings_trans; [exact Hs | apply IH]).
    + eapply same_settings_trans; [exact Hs | apply IH].
Qed.

Lemma analyze_settings (objs : list Detection) (fw : Z) (stamp : option Q)
    (now : Q) (s : t) :
  same_settings s (fst (analyze py_hash str_title format_1f objs fw stamp now s)).
Proof.
  unfold analyze.
  set (ts := match stamp with Some v => _ | None => _ end).
  unfold bind at 1.
  pose proof (collect_threats_settings objs fw ts [] s) as Hs.
  destruct (collect_threats py_hash objs fw ts [] s) as [s' [threats|e]];
    simpl in *; [| exact Hs].
  destruct (sort_threats threats) as [|first rest]; [exact Hs |].
  unfold bind, get_self, ret.
  destruct (max_warning_level _); simpl; exact Hs.
Qed.

(** C10.  [update_ego_velocity(v)] stores [max(0, v)], in the collision
    engine and in the service alike, so the stored velocity is never
    negative after a call; [analyze] leaves the stored velocity as it is,
    whether it returns or raises. *)
Theorem ego_velocity_clamped_and_kept (v : Q) (s : t) (svc : DepthADASService.t)
    (objs : list Detection) (fw : Z) (stamp : option Q) (now : Q) :
  let s' := fst (update_ego_velocity v s) in
  let svc' := fst (DepthADASService.update_ego_velocity v svc) in
  (ego_velocity s' == Qmax 0 v /\ 0 <= ego_velocity s' /\
   returns (update_ego_velocity v s)) /\
  (DepthADASService.ego_velocity svc' == Qmax 0 v /\
   ego_velocity (DepthADASService.collision_warning svc') == Qmax 0 v /\
   0 <= DepthADASService.ego_velocity svc' /\
   returns (DepthADASService.update_ego_velocity v svc)) /\
  ego_velocity (fst (analyze py_hash str_title format_1f objs fw stamp now s))
    = ego_velocity s.
Proof.
  simpl. repeat split.
  - apply py_max_Qmax.
  - apply py_max_0_nonneg.
  - apply py_max_Qmax.
  - apply py_max_Qmax.
  - apply py_max_0_nonneg.
  - apply analyze_settings.
Qed.

(** [_calculate_ttc] case by case.  With [closing = ego_velocity -
    relative_velocity]: the TTC is infinite when [closing <= 0]; it is
    [max(0, distance / closing)] when [closing > 0], which is
    [distance / closing] for every distance that is not negative; and for a
    fixed positive distance a larger closing velocity never gives a larger
    TTC. *)
Lemma calculate_ttc_law (s : t) (dist rel : Q) :
  let closing := ego_velocity s - rel in
  (closing <= 0 -> _calculate_ttc s dist rel = PInf) /\
  (0 < closing ->
     ef_eq (_calculate_ttc s dist rel) (Fin (Qmax 0 (dist / closing)))) /\
  (0 < closing -> 0 <= dist ->
     ef_eq (_calculate_ttc s dist rel) (Fin (dist / closing))) /\
  (forall (s2 : t) (rel2 : Q),
     0 < dist -> closing <= ego_velocity s2 - rel2 ->
     ef_le (_calculate_ttc s2 dist rel2) (_calculate_ttc s dist rel)).
Proof.
  unfold _calculate_ttc. cbv zeta.
  split; [| split; [| split]].
  - intros H. apply Qle_bool_iff in H. rewrite H. reflexivity.
  - intros H. apply Qle_bool_gt in H. rewrite H. simpl. apply py_max_Qmax.
  - intros H Hd. pose proof H as H'. apply Qle_bool_gt in H'. rewrite H'. simpl.
    rewrite py_max_Qmax. apply Q.max_r. apply Qle_shift_div_l; lra.
  - intros s2 rel2 Hd Hc.
    case_Qle_bool (ego_velocity s - rel) 0; [apply ef_le_PInf |].
    case_Qle_bool (ego_velocity s2 - rel2) 0; [lra |].
    apply ef_le_Fin. rewrite !py_max_Qmax.
    apply Q.max_le_compat_l.
    apply Qle_shift_div_l; [lra |].
    assert (E : dist / (ego_velocity s2 - rel2) * (ego_velocity s - rel)
                == dist * (ego_velocity s - rel) / (ego_velocity s2 - rel2))
      by (field; lra).
    rewrite E.
    apply Qle_shift_div_r; [lra |].
    apply Qmult_le_l; lra.
Qed.

End CollisionWarningFacts.

Section CollisionWarningScenarios.

Import CollisionWarning Vocabulary Scenario.

Variable py_hash : Detection -> Z.
Variable str_title : string -> string.
Variable format_1f : efloat -> string.

(** The clamp [max(0, ttc)] changes the quotient only at a negative
    distance, which [_evaluate_threat] never passes on: at ego velocity 15,
    relative velocity 5 and distance -8 the result would be 0. *)
Lemma calculate_ttc_clamps_negative_distance :
  0 < ego_velocity cws - 5 /\
  ef_eq (_calculate_ttc cws (-8) 5) (Fin 0) /\
  ~ ef_eq (_calculate_ttc cws (-8) 5) (Fin (-8 / (ego_velocity cws - 5))).
Proof.
  split; [reflexivity |].
  split; [reflexivity |].
  vm_compute. discriminate.
Qed.

(** Off the path the severity depends on the distance alone. *)
Lemma determine_warning_level_off_path (s : t) (dist lateral : Q)
    (ttc : efloat) (cls : string) :
  LATERAL_THRESHOLD < Qabs lateral ->
  _determine_warning_level s dist ttc lateral cls
    = if Qltb dist DIST_WARNING then INFO else NONE.
Proof.
  intros H. unfold _determine_warning_level.
  apply Qltb_lt in H. rewrite H. reflexivity.
Qed.

(** The severity of an evaluated detection is what
    [_determine_warning_level] gives for its own fields. *)
Lemma evaluate_threat_level (obj : Detection) (fw : Z) (ts : Q) (s s' : t)
    (th : CollisionThreat) :
  _evaluate_threat py_hash obj fw ts s = (s', Ret (Some th)) ->
  warning_level th
    = _determine_warning_level s' (distance th) (ttc th) (lateral_offset th)
        (object_class th) /\
  ttc th = _calculate_ttc s' (distance th) (relative_velocity th) /\
  det_distance obj = Some (Fin (distance th)) /\
  0 < distance th /\ distance th <= DIST_SAFE.
Proof.
  intros H.
  destruct (evaluate_threat_cases py_hash obj fw ts s)
    as [[e He] | [He | (dist & lateral & Hd & Hpos & Hsafe & He)]];
    rewrite He in H; try discriminate.
  injection H as <- <-. simpl. auto.
Qed.

(** C4.  With [closing_velocity = ego_velocity - relative_velocity], the
    TTC of every threat [_evaluate_threat] builds is
    [distance / closing_velocity] when the closing velocity is positive and
    +infinity when it is not.  The distance the engine hands to
    [_calculate_ttc] is positive, and at every distance that is not
    negative the computation returns these two values; for a fixed positive
    distance a larger closing velocity never gives a larger TTC. *)
Theorem ttc_is_distance_over_closing_velocity (obj : Detection) (fw : Z)
    (ts : Q) (s s' : t) (th : CollisionThreat) :
  _evaluate_threat py_hash obj fw ts s = (s', Ret (Some th)) ->
  let closing := ego_velocity s - relative_velocity th in
  0 < distance th /\
  (0 < closing -> ef_eq (ttc th) (Fin (distance th / closing))) /\
  (closing <= 0 -> ttc th = PInf) /\
  (forall (e : t) (dist rel : Q),
     0 <= dist ->
     (0 < ego_velocity e - rel ->
      ef_eq (_calculate_ttc e dist rel) (Fin (dist / (ego_velocity e - rel)))) /\
     (ego_velocity e - rel <= 0 -> _calculate_ttc e dist rel = PInf)) /\
  (forall (e e2 : t) (dist rel rel2 : Q),
     0 < dist ->
     ego_velocity e - rel <= ego_velocity e2 - rel2 ->
     ef_le (_calculate_ttc e2 dist rel2) (_calculate_ttc e dist rel)).
Proof.
  intros Hev closing.
  destruct (evaluate_threat_level obj fw ts s s' th Hev)
    as (_ & Httc & _ & Hpos & _).
  pose proof (evaluate_threat_settings py_hash obj fw ts s) as Hset.
  rewrite Hev in Hset. simpl in Hset. destruct Hset as (Hego & _).
  pose proof (calculate_ttc_law s' (distance th) (relative_velocity th))
    as (Hinf & _ & Hfin & _).
  cbv zeta in Hinf, Hfin. rewrite Hego in Hinf, Hfin. fold closing in Hinf, Hfin.
  rewrite <- Httc in Hinf, Hfin.
  split; [exact Hpos |].
  split; [intros Hc; apply Hfin; [exact Hc | lra] |].
  split; [exact Hinf |].
  split.
  - intros e dist rel Hd.
    pose proof (calculate_ttc_law e dist rel) as (H1 & _ & H3 & _).
    split; [intros Hc; apply H3; assumption | exact H1].
  - intros e e2 dist rel rel2 Hd Hc.
    pose proof (calculate_ttc_law e dist rel) as (_ & _ & _ & H4).
    apply H4; assumption.
Qed.

(** C2.  An evaluated detection whose lateral offset exceeds 2.0 m in
    absolute value is assigned INFO when its distance is below 15 m and
    NONE otherwise, whatever its TTC; it is never assigned WARNING, DANGER
    or CRITICAL. *)
Theorem off_path_severity_at_most_info (obj : Detection) (fw : Z) (ts : Q)
    (s s' : t) (th : CollisionThreat) :
  _evaluate_threat py_hash obj fw ts s = (s', Ret (Some th)) ->
  LATERAL_THRESHOLD < Qabs (lateral_offset th) ->
  (distance th < DIST_WARNING -> warning_level th = INFO) /\
  (DIST_WARNING <= distance th -> warning_level th = NONE) /\
  warning_level th <> WARNING /\
  warning_level th <> DANGER /\
  warning_level th <> CRITICAL /\
  (forall (ttc' : efloat) (cls' : string),
     _determine_warning_level s' (distance th) ttc' (lateral_offset th) cls'
       = warning_level th).
Proof.
  intros Hev Hlat.
  destruct (evaluate_threat_level obj fw ts s s' th Hev) as (Hlevel & _).
  pose proof (determine_warning_level_off_path s' (distance th)
                (lateral_offset th)) as Hoff.
  rewrite Hoff in Hlevel by exact Hlat.
  assert (Hany : forall ttc' cls',
             _determine_warning_level s' (distance th) ttc' (lateral_offset th) cls'
               = warning_level th).
  { intros ttc' cls'. rewrite Hlevel. apply Hoff. exact Hlat. }
  revert Hany. rewrite Hlevel. clear Hlevel. intros Hany.
  case_Qltb (distance th) DIST_WARNING;
    repeat split; try discriminate; try exact Hany;
    intros; try reflexivity; lra.
Qed.

End CollisionWarningScenarios.

(* ===================================================================== *)
(** * Collision warning: prioritisation *)
(* ===================================================================== *)

Section ThreatOrdering.

Import CollisionWarning Vocabulary.

Lemma ef_eqb_eq (x y : efloat) : ef_eqb x y = true <-> ef_eq x y.
Proof.
  destruct x, y; simpl; try apply Qeq_bool_iff; split;
    (discriminate || contradiction || trivial).
Qed.

Lemma ef_ltb_trichotomy (x y : efloat) :
  ef_eqb x y = false -> ef_ltb y x = false -> ef_ltb x y = true.
Proof.
  destruct x as [p|], y as [q|]; simpl; try discriminate; trivial.
  intros Hne Hge. apply Qltb_ge in Hge. apply Qltb_lt.
  apply not_true_iff_false in Hne. rewrite Qeq_bool_iff in Hne.
  destruct (Qlt_le_dec p q) as [Hlt | Hle]; [exact Hlt |].
  exfalso. apply Hne. apply Qle_antisym; assumption.
Qed.

Lemma key_ltb_false_le (k1 k2 : efloat * Q) :
  key_ltb k2 k1 = false -> key_le k1 k2.
Proof.
  unfold key_ltb, key_le, ef_lt.
  destruct (ef_eqb (fst k2) (fst k1)) eqn:He; intros H.
  - right. apply ef_eqb_eq in He. split.
    + destruct (fst k1), (fst k2); simpl in *;
        try contradiction; trivial. symmetry. exact He.
    + apply Qltb_ge. exact H.
  - left. apply ef_ltb_trichotomy; [| exact H].
    destruct (fst k1), (fst k2); simpl in *; trivial.
    rewrite <- He. apply eq_true_iff_eq.
    rewrite !Qeq_bool_iff. split; intros E; symmetry; exact E.
Qed.

Lemma key_ltb_true_le (k1 k2 : efloat * Q) :
  key_ltb k1 k2 = true -> key_le k1 k2.
Proof.
  unfold key_ltb, key_le, ef_lt.
  destruct (ef_eqb (fst k1) (fst k2)) eqn:He; intros H.
  - right. split; [apply ef_eqb_eq; exact He |].
    apply Qltb_lt in H. apply Qlt_le_weak. exact H.
  - left. exact H.
Qed.

Lemma insert_threat_HdRel (y x : CollisionThreat) (l : list CollisionThreat) :
  threat_le y x -> HdRel threat_le y l -> HdRel threat_le y (insert_threat x l).
Proof.
  intros Hyx Hyl. destruct l as [|z l']; simpl.
  - constructor. exact Hyx.
  - destruct (key_ltb (sort_key z) (sort_key x)).
    + constructor. inversion Hyl; assumption.
    + constructor. exact Hyx.
Qed.

Lemma insert_threat_Sorted (x : CollisionThreat) (l : list CollisionThreat) :
  Sorted threat_le l -> Sorted threat_le (insert_threat x l).
Proof.
  induction 1 as [|y l' Hs IH Hhd]; simpl.
  - repeat constructor.
  - destruct (key_ltb (sort_key y) (sort_key x)) eqn:Hlt.
    + constructor; [exact IH |].
      apply insert_threat_HdRel; [| exact Hhd].
      apply key_ltb_true_le. exact Hlt.
    + constructor; [constructor; assumption |].
      constructor. apply key_ltb_false_le. exact Hlt.
Qed.

(** The sort puts the threats in ascending order of [(ttc, distance)]. *)
Lemma sort_threats_Sorted (l : list CollisionThreat) :
  Sorted threat_le (sort_threats l).
Proof.
  induction l as [|x l IH]; simpl.
  - constructor.
  - apply insert_threat_Sorted. exact IH.
Qed.

Lemma insert_threat_Permutation (x : CollisionThreat) (l : list CollisionThreat) :
  Permutation (insert_threat x l) (x :: l).
Proof.
  induction l as [|y l IH]; simpl.
  - reflexivity.
  - destruct (key_ltb (sort_key y) (sort_key x)).
    + rewrite IH. apply perm_swap.
    + reflexivity.
Qed.

(** The sort neither drops nor invents a threat. *)
Lemma sort_threats_Permutation (l : list CollisionThreat) :
  Permutation (sort_threats l) l.
Proof.
  induction l as [|x l IH]; simpl.
  - reflexivity.
  - rewrite insert_threat_Permutation, IH. reflexivity.
Qed.

Lemma key_eqb_not_ltb (a b k : efloat * Q) :
  key_eqb a k = true -> key_eqb b k = true -> key_ltb a b = false.
Proof.
  unfold key_eqb, key_ltb.
  rewrite !andb_true_iff, !ef_eqb_eq, !Qeq_bool_iff.
  intros [Ha Hda] [Hb Hdb].
  assert (Hab : ef_eqb (fst a) (fst b) = true).
  { apply ef_eqb_eq.
    destruct (fst a), (fst b), (fst k); simpl in *;
      try contradiction; trivial.
    rewrite Ha, Hb. reflexivity. }
  rewrite Hab. apply Qltb_ge. rewrite Hda, Hdb. apply Qle_refl.
Qed.

Lemma insert_threat_with_key (k : efloat * Q) (x : CollisionThreat)
    (l : list CollisionThreat) :
  with_key k (insert_threat x l) = with_key k (x :: l).
Proof.
  unfold with_key. induction l as [|y l IH]; [reflexivity |].
  cbn [insert_threat].
  destruct (key_ltb (sort_key y) (sort_key x)) eqn:Hlt; [| reflexivity].
  cbn [List.filter] in *. rewrite IH.
  destruct (key_eqb (sort_key y) k) eqn:Hy; [| reflexivity].
  destruct (key_eqb (sort_key x) k) eqn:Hx; [| reflexivity].
  rewrite (key_eqb_not_ltb _ _ _ Hy Hx) in Hlt. discriminate.
Qed.

(** The sort is stable: threats with the same key keep their order. *)
Lemma sort_threats_stable (k : efloat * Q) (l : list CollisionThreat) :
  with_key k (sort_threats l) = with_key k l.
Proof.
  induction l as [|x l IH]; [reflexivity |].
  cbn [sort_threats]. rewrite insert_threat_with_key.
  unfold with_key in *. cbn [List.filter]. rewrite IH. reflexivity.
Qed.

Lemma sort_threats_length (l : list CollisionThreat) :
  length (sort_threats l) = length l.
Proof. apply Permutation_length, sort_threats_Permutation. Qed.

(** [max] over the severities returns only for a single threat. *)
Lemma max_warning_level_returns (ls : list WarningLevel) (l : WarningLevel) :
  max_warning_level ls = Ret l <-> ls = [l].
Proof.
  destruct ls as [|a [|b ls]]; simpl; split; intros H;
    try discriminate; congruence.
Qed.

Lemma max_warning_level_two (a b : WarningLevel) (ls : list WarningLevel) :
  max_warning_level (a :: b :: ls) = Raise TypeError.
Proof. reflexivity. Qed.

Variable py_hash : Detection -> Z.
Variable str_title : string -> string.
Variable format_1f : efloat -> string.

(** The time stamp [analyze] works with. *)
Let stamp_of (stamp : option Q) (now : Q) : Q :=
  match stamp with
  | Some v => if Qeq_bool v 0 then now else v
  | None => now
  end.

(** As soon as two detections survive as threats, [analyze] raises
    [TypeError] at the computation of [highest_level]. *)
Lemma analyze_two_threats_raise (objs : list Detection) (fw : Z)
    (stamp : option Q) (now : Q) (s s' : t) (threats : list CollisionThreat) :
  collect_threats py_hash objs fw (stamp_of stamp now) [] s = (s', Ret threats) ->
  (2 <= length threats)%nat ->
  analyze py_hash str_title format_1f objs fw stamp now s = (s', Raise TypeError).
Proof.
  intros Hc Hlen. unfold analyze. fold (stamp_of stamp now).
  unfold bind at 1. rewrite Hc.
  rewrite <- sort_threats_length in Hlen.
  destruct (sort_threats threats) as [|a [|b rest]]; simpl in Hlen; try lia.
  reflexivity.
Qed.

(** Whenever [analyze] does return, the state holds at most one threat;
    the list is then trivially in order and its only element carries the
    highest level. *)
Lemma analyze_returned_state (objs : list Detection) (fw : Z)
    (stamp : option Q) (now : Q) (s s' : t) (st : WarningState) :
  analyze py_hash str_title format_1f objs fw stamp now s = (s', Ret st) ->
  (length (active_threats st) <= 1)%nat /\
  Sorted threat_le (active_threats st) /\
  (forall th, head (active_threats st) = Some th ->
              warning_level th = highest_level st).
Proof.
  unfold analyze. fold (stamp_of stamp now). unfold bind at 1.
  destruct (collect_threats _ _ _ _ _ _) as [s1 [threats|e]]; [| discriminate].
  pose proof (sort_threats_Sorted threats) as Hsorted.
  destruct (sort_threats threats) as [|a [|b rest]]; simpl.
  - intros H. injection H as _ <-. simpl.
    split; [lia |]. split; [constructor |]. discriminate.
  - unfold bind, get_self, ret. simpl. intros H. injection H as _ <-. simpl.
    split; [lia |]. split; [exact Hsorted |]. congruence.
  - unfold bind. simpl. discriminate.
Qed.

(** C1, at the detections of the module's own test: a car at 8 m and a
    person at 5 m, frame width 640, ego velocity 15.  Both detections are
    threats, and the call does not return a [WarningState]: it raises
    [TypeError]. *)
Theorem analyze_raises_on_test_objects :
  snd (analyze py_hash str_title format_1f Scenario.test_objects 640 None 1000
         Scenario.cws)
    = Raise TypeError /\
  (exists s' threats,
     collect_threats py_hash Scenario.test_objects 640 1000 [] Scenario.cws
       = (s', Ret threats) /\
     map object_class threats = ["car"%string; "person"%string] /\
     map warning_level threats = [CRITICAL; CRITICAL]).
Proof.
  split; [vm_compute; reflexivity |].
  eexists. eexists. split; [vm_compute; reflexivity |].
  split; reflexivity.
Qed.

End ThreatOrdering.

(* ===================================================================== *)
(** * Collision warning: the scenarios of the specification *)
(* ===================================================================== *)

Section CarScenario.

Import CollisionWarning Vocabulary Scenario.

(** C4 at the car of the module's own test, first seen 8 m ahead at ego
    velocity 15: its relative velocity is 0, the closing velocity 15 and
    the TTC 8/15 s. *)
Lemma ttc_is_distance_over_closing_velocity_witness :
  match _evaluate_threat hash0 test_car 640 100 cws with
  | (_, Ret (Some th)) =>
      distance th == 8 /\
      ego_velocity cws - relative_velocity th == 15 /\
      ef_eq (ttc th)
        (Fin (distance th / (ego_velocity cws - relative_velocity th)))
  | _ => False
  end.
Proof.
  destruct (_evaluate_threat hash0 test_car 640 100 cws)
    as [s' [[th|]|e]] eqn:E;
    pose proof E as E0; vm_compute in E0; try discriminate E0.
  injection E0 as Hs Hth. subst s' th.
  split; [reflexivity |]. split; [reflexivity |].
  refine (proj1 (proj2 (ttc_is_distance_over_closing_velocity hash0 test_car
                          640 100 cws _ _ E)) _).
  reflexivity.
Defined.

(** C2 at a car seen at the right edge of a 640-pixel frame, 8 m away:
    its lateral offset is 2.8125 m and its severity is INFO, although its
    TTC of 8/15 s is below the CRITICAL threshold. *)
Lemma off_path_severity_at_most_info_witness :
  match _evaluate_threat hash0 (side_car 8) 640 100 cws with
  | (_, Ret (Some th)) =>
      LATERAL_THRESHOLD < Qabs (lateral_offset th) /\
      ef_lt (ttc th) (Fin TTC_CRITICAL) /\
      warning_level th = INFO
  | _ => False
  end.
Proof.
  destruct (_evaluate_threat hash0 (side_car 8) 640 100 cws)
    as [s' [[th|]|e]] eqn:E;
    pose proof E as E0; vm_compute in E0; try discriminate E0.
  injection E0 as Hs Hth. subst s' th.
  assert (Hlat : LATERAL_THRESHOLD < Qabs 2.8125) by reflexivity.
  split; [reflexivity |]. split; [reflexivity |].
  refine (proj1 (off_path_severity_at_most_info hash0 (side_car 8) 640 100 cws
                   _ _ E _) _); reflexivity.
Defined.

Variable py_hash : Detection -> Z.
Variable str_title : string -> string.
Variable format_1f : efloat -> string.

(** C5, as the code has it.  At ego velocity 15 a car at 8 m whose
    estimated relative velocity is +5 m/s (the tracked distance grows by
    5 m/s) has closing velocity 10 and TTC 0.8 s and, on the path, severity
    CRITICAL.  Two runs of [analyze] half a second apart show it end to
    end: a car tracked from 5.5 m to 8 m gets relative velocity +5,
    TTC 0.8 s, CRITICAL and brake assist; a car tracked from 10.5 m to
    8 m, which approaches at 5 m/s, gets relative velocity -5, closing
    velocity 20 and TTC 0.4 s, again CRITICAL with brake assist. *)
Theorem car_at_8m_scenario :
  (forall (s : t) (dist rel lateral : Q) (cls : string),
     ego_velocity s == 15 -> dist == 8 -> rel == 5 ->
     Qabs lateral <= LATERAL_THRESHOLD ->
     ego_velocity s - rel == 10 /\
     ef_eq (_calculate_ttc s dist rel) (Fin 0.8) /\
     _determine_warning_level s dist (_calculate_ttc s dist rel) lateral cls
       = CRITICAL) /\
  (let s1 := fst (analyze py_hash str_title format_1f [car_at 5.5] 640
                    (Some 10) 0 cws) in
   match analyze py_hash str_title format_1f [car_at 8] 640 (Some 10.5) 0 s1 with
   | (s2, Ret st) =>
       match active_threats st with
       | [th] =>
           distance th == 8 /\ relative_velocity th == 5 /\
           ego_velocity s2 - relative_velocity th == 10 /\
           ef_eq (ttc th) (Fin 0.8) /\ warning_level th = CRITICAL /\
           highest_level st = CRITICAL /\ brake_assist_triggered st = true
       | _ => False
       end
   | _ => False
   end) /\
  (let s1 := fst (analyze py_hash str_title format_1f [car_at 10.5] 640
                    (Some 10) 0 cws) in
   match analyze py_hash str_title format_1f [car_at 8] 640 (Some 10.5) 0 s1 with
   | (s2, Ret st) =>
       match active_threats st with
       | [th] =>
           distance th == 8 /\ relative_velocity th == -5 /\
           ego_velocity s2 - relative_velocity th == 20 /\
           ef_eq (ttc th) (Fin 0.4) /\ warning_level th = CRITICAL /\
           highest_level st = CRITICAL /\ brake_assist_triggered st = true
       | _ => False
       end
   | _ => False
   end).
Proof.
  split; [| split].
  - intros s dist rel lateral cls He Hd Hr Hlat.
    assert (Hc : ego_velocity s - rel == 10) by lra.
    assert (Hq : dist / (ego_velocity s - rel) == 0.8).
    { rewrite Hd, Hc. reflexivity. }
    assert (Httc : exists q, _calculate_ttc s dist rel = Fin q /\ q == 0.8).
    { unfold _calculate_ttc.
      case_Qle_bool (ego_velocity s - rel) 0; [lra |].
      eexists. split; [reflexivity |].
      destruct (py_max_spec 0 (dist / (ego_velocity s - rel)))
        as [[_ ->] | [H ->]]; [exact Hq | lra]. }
    destruct Httc as (q & -> & Hq8).
    split; [exact Hc |]. split; [exact Hq8 |].
    unfold _determine_warning_level.
    apply Qltb_ge in Hlat. rewrite Hlat.
    assert (Hlt : ef_ltb (Fin q) (Fin TTC_CRITICAL) = true).
    { simpl. apply Qltb_lt. unfold TTC_CRITICAL. lra. }
    rewrite Hlt. reflexivity.
  - vm_compute. repeat split; reflexivity.
  - vm_compute. repeat split; reflexivity.
Qed.

End CarScenario.

Section CarScenarioInstances.

Import CollisionWarning Vocabulary Scenario.

(** The scenario at the engine of the test, [CollisionWarning(15.0)], and
    the lateral offset 0.28125 m of the test's car. *)
Lemma car_at_8m_scenario_witness :
  ego_velocity cws - 5 == 10 /\
  ef_eq (_calculate_ttc cws 8 5) (Fin 0.8) /\
  _determine_warning_level cws 8 (_calculate_ttc cws 8 5) 0.28125 "car"
    = CRITICAL.
Proof.
  apply (proj1 (car_at_8m_scenario hash0 title0 format0) cws 8 5 0.28125 "car"%string);
    try reflexivity.
  discriminate.
Defined.

(** C5 as stated fails: a car at 8 m that closes at 5 m/s (tracked from
    10.5 m to 8 m in half a second) has relative velocity -5 m/s under the
    engine's sign convention, so its closing velocity is 20 m/s, not 10,
    and its TTC is 0.4 s, not 0.8 s. *)
Lemma closing_car_has_ttc_0_4 :
  let s1 := fst (analyze hash0 title0 format0 [car_at 10.5] 640 (Some 10) 0 cws) in
  match analyze hash0 title0 format0 [car_at 8] 640 (Some 10.5) 0 s1 with
  | (s2, Ret st) =>
      match active_threats st with
      | [th] =>
          object_class th = "car"%string /\ distance th == 8 /\
          relative_velocity th == -5 /\
          ~ ego_velocity s2 - relative_velocity th == 10 /\
          ~ ef_eq (ttc th) (Fin 0.8)
      | _ => False
      end
  | _ => False
  end.
Proof.
  vm_compute. repeat split; try reflexivity; discriminate.
Qed.

(** The order of the sort is not the order of severity: of a car 5 m away
    at the edge of the frame and a car 25 m away on the path, the first
    has the smaller TTC and stands first, with severity INFO, while the
    second is DANGER.  [analyze] itself raises [TypeError] on these two
    threats. *)
Lemma first_threat_need_not_be_most_severe :
  match collect_threats hash0 [car_at 25; side_car 5] 640 100 [] cws with
  | (_, Ret threats) =>
      map warning_level (sort_threats threats) = [INFO; DANGER] /\
      max_value threats = value DANGER /\
      snd (analyze hash0 title0 format0 [car_at 25; side_car 5] 640 (Some 100) 0 cws)
        = Raise TypeError
  | _ => False
  end.
Proof. vm_compute. repeat split. Qed.

End CarScenarioInstances.

(* ===================================================================== *)
(** * Lane keeping *)
(* ===================================================================== *)

Section LaneKeepingFacts.

Import LaneKeeping Vocabulary.

Variable Frame : Type.
Variable frame_shape : Frame -> Z * Z.
Variable getPerspectiveTransform : list (Q * Q) -> list (Q * Q) -> matrix.
Variable extract_lane_pixels : Frame -> matrix -> Z * Z -> pixels * pixels.
Variable np_polyfit : list Z -> list Z -> polyfit_outcome.
Variable arctan_degrees : Q -> Q.
Variable pow_1_5 : Q -> Q.

Local Abbreviation detect :=
  (detect Frame frame_shape getPerspectiveTransform extract_lane_pixels
          np_polyfit arctan_degrees pow_1_5).
Local Abbreviation lane_pixels := (lane_pixels Frame extract_lane_pixels).
Local Abbreviation ensure_perspective := (ensure_perspective getPerspectiveTransform).
Local Abbreviation _compute_metrics := (_compute_metrics arctan_degrees pow_1_5).
Local Abbreviation raw_fit := (raw_fit np_polyfit).

(** Setting up the perspective matrices returns and touches nothing else. *)
Lemma ensure_perspective_spec (w h : Z) (self : t) :
  exists self1,
    ensure_perspective w h self = (self1, Ret tt) /\
    left_history self1 = left_history self /\
    right_history self1 = right_history self /\
    history_size self1 = history_size self /\
    enable_smoothing self1 = enable_smoothing self /\
    warped_size self1 = warped_size self /\
    ppm_bottom self1 = ppm_bottom self.
Proof.
  unfold LaneKeeping.ensure_perspective, _compute_perspective,
    bind, get_self, modify_self, ret.
  simpl.
  destruct (M self); eexists; (split; [reflexivity |]); repeat split.
Qed.

(** With a history size that is not negative, smoothing returns, and it
    returns the mean of the history it retains. *)
Lemma smooth_lane_returns (self : t) (poly : option Poly) (history : list Poly) :
  (0 <= history_size self)%Z ->
  exists retained,
    _smooth_lane self poly history
      = Ret (retained,
             match retained with
             | [] => None
             | _ :: _ => Some (poly_mean retained)
             end) /\
    ((Z.of_nat (length history) <= history_size self)%Z ->
     (Z.of_nat (length retained) <= history_size self)%Z).
Proof.
  intros Hsize. unfold _smooth_lane.
  set (appended := match poly with Some p => history ++ [p] | None => history end).
  assert (Hlen : (length appended <= S (length history))%nat).
  { subst appended. destruct poly; [rewrite length_app; simpl |]; lia. }
  destruct (history_size self <? Z.of_nat (length appended))%Z eqn:Hcmp.
  - apply Z.ltb_lt in Hcmp.
    destruct appended as [|p rest]; [simpl in Hcmp; lia |].
    exists rest. split; [destruct rest; reflexivity |].
    simpl in Hlen. lia.
  - apply Z.ltb_ge in Hcmp.
    exists appended. split; [destruct appended; reflexivity |]. lia.
Qed.

(** A side without a fit this frame keeps its history, and the mean of
    that history is what smoothing returns. *)
Lemma smooth_lane_none (self : t) (history : list Poly) :
  history <> [] ->
  (Z.of_nat (length history) <= history_size self)%Z ->
  _smooth_lane self None history = Ret (history, Some (poly_mean history)).
Proof.
  intros Hne Hlen. unfold _smooth_lane.
  apply Z.ltb_ge in Hlen. rewrite Hlen.
  destruct history; [contradiction | reflexivity].
Qed.

(** [detect], step by step, for given outcomes of the two smoothing
    calls. *)
Lemma detect_smoothed (frame : Frame) (self self1 : t) (h w : Z)
    (hl hr : list Poly) (pl pr : option Poly) :
  frame_shape frame = (h, w) ->
  ensure_perspective w h self = (self1, Ret tt) ->
  enable_smoothing self1 = true ->
  _smooth_lane self1 (raw_fit (fst (lane_pixels self1 frame))) (left_history self1)
    = Ret (hl, pl) ->
  _smooth_lane self1 (raw_fit (snd (lane_pixels self1 frame))) (right_history self1)
    = Ret (hr, pr) ->
  detect frame self
    = (set_right_history hr (set_left_history hl self1),
       Ret (_compute_metrics (set_right_history hr (set_left_history hl self1))
              pl pr w h)).
Proof.
  intros Hshape Hpersp Hsm Hl Hr.
  unfold LaneKeeping.detect. rewrite Hshape.
  unfold bind at 1. rewrite Hpersp.
  unfold bind at 1, get_self.
  destruct (lane_pixels self1 frame) as [lpx rpx]. simpl in Hl, Hr.
  rewrite Hsm.
  unfold bind at 1, smooth_left. rewrite Hl.
  unfold bind at 1, smooth_right. simpl.
  unfold _smooth_lane in *. simpl. rewrite Hr.
  reflexivity.
Qed.

(** [detect] without smoothing reports the raw fits. *)
Lemma detect_unsmoothed (frame : Frame) (self self1 : t) (h w : Z) :
  frame_shape frame = (h, w) ->
  ensure_perspective w h self = (self1, Ret tt) ->
  enable_smoothing self1 = false ->
  detect frame self
    = (self1,
       Ret (_compute_metrics self1 (raw_fit (fst (lane_pixels self1 frame)))
              (raw_fit (snd (lane_pixels self1 frame))) w h)).
Proof.
  intros Hshape Hpersp Hsm.
  unfold LaneKeeping.detect. rewrite Hshape.
  unfold bind at 1. rewrite Hpersp.
  unfold bind at 1, get_self.
  destruct (lane_pixels self1 frame) as [lpx rpx].
  rewrite Hsm. reflexivity.
Qed.

(** Lane detection does not raise when the history size is not negative. *)
Lemma detect_returns (frame : Frame) (self : t) :
  (0 <= history_size self)%Z -> returns (detect frame self).
Proof.
  intros Hsize.
  destruct (frame_shape frame) as [h w] eqn:Hshape.
  destruct (ensure_perspective_spec w h self)
    as (self1 & Hpersp & _ & _ & Hhs & _).
  destruct (enable_smoothing self1) eqn:Hsm.
  - rewrite <- Hhs in Hsize.
    destruct (smooth_lane_returns self1
                (raw_fit (fst (lane_pixels self1 frame)))
                (left_history self1) Hsize) as (hl & Hl & _).
    destruct (smooth_lane_returns self1
                (raw_fit (snd (lane_pixels self1 frame)))
                (right_history self1) Hsize) as (hr & Hr & _).
    rewrite (detect_smoothed frame self self1 h w _ _ _ _ Hshape Hpersp Hsm Hl Hr).
    exact I.
  - rewrite (detect_unsmoothed frame self self1 h w Hshape Hpersp Hsm).
    exact I.
Qed.

(** The bound on the two histories holds initially and is kept by
    [detect]. *)
Lemma init_history_bounded (roi : Q) (hsize : Z) (smoothing : bool) :
  (0 <= hsize)%Z -> history_bounded (init roi hsize smoothing).
Proof. intros H. split; exact H. Qed.

Lemma detect_history_bounded (frame : Frame) (self : t) :
  history_bounded self -> history_bounded (fst (detect frame self)).
Proof.
  intros [HbL HbR].
  assert (Hsize : (0 <= history_size self)%Z) by lia.
  destruct (frame_shape frame) as [h w] eqn:Hshape.
  destruct (ensure_perspective_spec w h self)
    as (self1 & Hpersp & HL & HR & Hhs & _).
  rewrite <- HL, <- Hhs in HbL. rewrite <- HR, <- Hhs in HbR.
  rewrite <- Hhs in Hsize.
  destruct (enable_smoothing self1) eqn:Hsm.
  - destruct (smooth_lane_returns self1
                (raw_fit (fst (lane_pixels self1 frame)))
                (left_history self1) Hsize) as (hl & Hl & Hbl).
    destruct (smooth_lane_returns self1
                (raw_fit (snd (lane_pixels self1 frame)))
                (right_history self1) Hsize) as (hr & Hr & Hbr).
    rewrite (detect_smoothed frame self self1 h w _ _ _ _ Hshape Hpersp Hsm Hl Hr).
    split; simpl; auto.
  - rewrite (detect_unsmoothed frame self self1 h w Hshape Hpersp Hsm).
    split; assumption.
Qed.

(** The polynomial of a side is the parabola [x = a y^2 + b y + c]. *)
Lemma polyval_parabola (p : Poly) (y : Q) :
  polyval p y == pa p * y * y + pb p * y + pc p.
Proof. unfold polyval. ring. Qed.

(** C6, as the code has it.  In [detect] a side with more than 100
    matched pixels is handed to the least-squares fit, and its raw fit is
    the fitted parabola (or [None] when the fit raises one of the two
    exceptions that are caught); a side with 100 matched pixels or fewer,
    so in particular one with fewer than 10, has raw fit [None].  With a
    history size that is not negative [detect] returns in every case. *)
Theorem raw_fit_needs_more_than_100_pixels (px : pixels) (frame : Frame) (self : t) :
  ((100 < length (fst px))%nat ->
     raw_fit px =
       match np_polyfit (snd px) (fst px) with
       | Fitted coeffs => Some coeffs
       | RankWarning | LinAlgError => None
       end) /\
  ((length (fst px) <= 100)%nat -> raw_fit px = None) /\
  ((length (fst px) < 10)%nat -> raw_fit px = None) /\
  ((0 <= history_size self)%Z -> returns (detect frame self)).
Proof.
  unfold LaneKeeping.raw_fit, _fit_polynomial.
  split; [| split; [| split]].
  - intros H. destruct px as [x y]. simpl in *.
    assert (H100 : (100 <? length x)%nat = true) by (apply Nat.ltb_lt; lia).
    assert (H10 : (length x <? 10)%nat = false) by (apply Nat.ltb_ge; lia).
    rewrite H100, H10. reflexivity.
  - intros H.
    assert (H100 : (100 <? length (fst px))%nat = false) by (apply Nat.ltb_ge; lia).
    rewrite H100. reflexivity.
  - intros H.
    assert (H100 : (100 <? length (fst px))%nat = false) by (apply Nat.ltb_ge; lia).
    rewrite H100. reflexivity.
  - apply detect_returns.
Qed.

(** C7.  With the left polynomial alone, the lane centre is estimated at
    [left_x] plus half the default lane width of 3.5 m in pixels, and the
    centre offset is the distance from the canvas centre to that estimate
    divided by the pixels-per-metre factor; with the right polynomial
    alone the half width is subtracted. *)
Theorem single_side_center_offset (self : t) (p : Poly) (w h : Z) :
  let ww := inject_Z (fst (warped_size self)) in
  let x_bottom := polyval p (inject_Z (snd (warped_size self)) - 1) in
  let half_lane_px := DEFAULT_LANE_WIDTH / 2 * ppm_bottom self in
  center_offset (_compute_metrics self (Some p) None w h)
    == (ww / 2 - (x_bottom + half_lane_px)) / ppm_bottom self /\
  center_offset (_compute_metrics self None (Some p) w h)
    == (ww / 2 - (x_bottom - half_lane_px)) / ppm_bottom self.
Proof.
  unfold LaneKeeping._compute_metrics, DEFAULT_LANE_WIDTH. simpl.
  split; unfold Qdiv; ring.
Qed.

End LaneKeepingFacts.

Section LaneSmoothing.

Import LaneKeeping Vocabulary.

Variable Frame : Type.
Variable frame_shape : Frame -> Z * Z.
Variable getPerspectiveTransform : list (Q * Q) -> list (Q * Q) -> matrix.
Variable extract_lane_pixels : Frame -> matrix -> Z * Z -> pixels * pixels.
Variable np_polyfit : list Z -> list Z -> polyfit_outcome.
Variable arctan_degrees : Q -> Q.
Variable pow_1_5 : Q -> Q.

Local Abbreviation detect :=
  (detect Frame frame_shape getPerspectiveTransform extract_lane_pixels
          np_polyfit arctan_degrees pow_1_5).
Local Abbreviation lane_pixels := (lane_pixels Frame extract_lane_pixels).
Local Abbreviation ensure_perspective := (ensure_perspective getPerspectiveTransform).
Local Abbreviation _compute_metrics := (_compute_metrics arctan_degrees pow_1_5).
Local Abbreviation raw_fit := (raw_fit np_polyfit).

(** The confidence of a computed state is the sum of what its two sides
    contribute. *)
Lemma compute_metrics_confidence (self : t) (l r : option Poly) (w h : Z) :
  confidence (_compute_metrics self l r w h)
    = 0 + side_confidence l + side_confidence r /\
  left_poly (_compute_metrics self l r w h) = l /\
  right_poly (_compute_metrics self l r w h) = r.
Proof.
  unfold LaneKeeping._compute_metrics.
  destruct l as [lp|], r as [rp|]; try ((split; [| split]); reflexivity).
  cbn [side_confidence].
  change (Qeq_bool (0 + 0.5 + 0.5) 0) with false. cbv iota.
  destruct (Qltb 50 _); (split; [| split]); reflexivity.
Qed.

(** C9.  With smoothing enabled and the histories within their bound: if
    a side has no fit this frame but its history is not empty, [detect]
    reports the mean of that history for the side, leaves the history as
    it was, and the side adds 0.5 to the confidence; so when both sides
    have no fit and both histories are not empty the confidence is 1. *)
Theorem smoothing_reports_history_mean (frame : Frame) (self : t) :
  enable_smoothing self = true ->
  history_bounded self ->
  let pxs :=
    lane_pixels (fst (ensure_perspective (snd (frame_shape frame))
                        (fst (frame_shape frame)) self)) frame in
  exists self' st,
    detect frame self = (self', Ret st) /\
    confidence st
      = 0 + side_confidence (left_poly st) + side_confidence (right_poly st) /\
    (raw_fit (fst pxs) = None -> left_history self <> [] ->
       left_poly st = Some (poly_mean (left_history self)) /\
       left_history self' = left_history self /\
       side_confidence (left_poly st) = 0.5) /\
    (raw_fit (snd pxs) = None -> right_history self <> [] ->
       right_poly st = Some (poly_mean (right_history self)) /\
       right_history self' = right_history self /\
       side_confidence (right_poly st) = 0.5) /\
    (raw_fit (fst pxs) = None -> raw_fit (snd pxs) = None ->
     left_history self <> [] -> right_history self <> [] ->
       confidence st == 1).
Proof.
  intros Hsm [HbL HbR].
  assert (Hsize : (0 <= history_size self)%Z) by lia.
  destruct (frame_shape frame) as [h w] eqn:Hshape. simpl.
  destruct (ensure_perspective_spec getPerspectiveTransform w h self)
    as (self1 & Hpersp & HL & HR & Hhs & Hen & _).
  rewrite Hpersp. simpl.
  rewrite <- HL, <- Hhs in HbL. rewrite <- HR, <- Hhs in HbR.
  rewrite <- Hhs in Hsize. rewrite <- Hen in Hsm. rewrite <- HL, <- HR.
  destruct (smooth_lane_returns self1
              (raw_fit (fst (lane_pixels self1 frame)))
              (left_history self1) Hsize) as (hl & Hl & _).
  destruct (smooth_lane_returns self1
              (raw_fit (snd (lane_pixels self1 frame)))
              (right_history self1) Hsize) as (hr & Hr & _).
  pose proof (detect_smoothed Frame frame_shape getPerspectiveTransform
                extract_lane_pixels np_polyfit arctan_degrees pow_1_5
                frame self self1 h w _ _ _ _ Hshape Hpersp Hsm Hl Hr) as Hdet.
  do 2 eexists. split; [exact Hdet |].
  match goal with
  | |- context [_compute_metrics ?s ?l ?r w h] =>
      destruct (compute_metrics_confidence s l r w h) as (Hc & Hlp & Hrp)
  end.
  rewrite Hc, Hlp, Hrp.
  assert (HleftNone :
    raw_fit (fst (lane_pixels self1 frame)) = None -> left_history self1 <> [] ->
    hl = left_history self1 /\
    match hl with [] => None | _ :: _ => Some (poly_mean hl) end
      = Some (poly_mean (left_history self1))).
  { intros Hraw Hne. rewrite Hraw in Hl.
    rewrite (smooth_lane_none self1 _ Hne HbL) in Hl.
    injection Hl as Hh Hp. subst hl.
    split; [reflexivity | symmetry; exact Hp]. }
  assert (HrightNone :
    raw_fit (snd (lane_pixels self1 frame)) = None -> right_history self1 <> [] ->
    hr = right_history self1 /\
    match hr with [] => None | _ :: _ => Some (poly_mean hr) end
      = Some (poly_mean (right_history self1))).
  { intros Hraw Hne. rewrite Hraw in Hr.
    rewrite (smooth_lane_none self1 _ Hne HbR) in Hr.
    injection Hr as Hh Hp. subst hr.
    split; [reflexivity | symmetry; exact Hp]. }
  split; [reflexivity |].
  split; [| split].
  - intros Hraw Hne. destruct (HleftNone Hraw Hne) as [-> ->].
    repeat split.
  - intros Hraw Hne. destruct (HrightNone Hraw Hne) as [-> ->].
    repeat split.
  - intros HrawL HrawR HneL HneR.
    destruct (HleftNone HrawL HneL) as [_ ->].
    destruct (HrightNone HrawR HneR) as [_ ->].
    reflexivity.
Qed.

End LaneSmoothing.

Section LaneScenarios.

Import LaneKeeping Vocabulary Scenario.

(** C6 at three sides found in a frame: a column of 150 pixels is fitted,
    a column of 100 pixels and one of 5 pixels are not, and [detect]
    returns. *)
Lemma raw_fit_needs_more_than_100_pixels_witness :
  raw_fit column_fit (column_pixels 150 150)
    = Some {| pa := 0; pb := 0; pc := 150 |} /\
  raw_fit column_fit (column_pixels 150 100) = None /\
  raw_fit column_fit (column_pixels 150 5) = None /\
  returns (detect0 (column_pixels 150 150, column_pixels 250 5) lka).
Proof.
  split; [| split; [| split]].
  - apply (proj1 (raw_fit_needs_more_than_100_pixels frame0 shape0 transform0
                    extract0 column_fit arctan0 pow0 (column_pixels 150 150)
                    (column_pixels 150 150, column_pixels 250 5) lka)).
    vm_compute. lia.
  - apply (proj1 (proj2 (raw_fit_needs_more_than_100_pixels frame0 shape0
                    transform0 extract0 column_fit arctan0 pow0
                    (column_pixels 150 100)
                    (column_pixels 150 150, column_pixels 250 5) lka))).
    vm_compute. lia.
  - apply (proj1 (proj2 (proj2 (raw_fit_needs_more_than_100_pixels frame0 shape0
                    transform0 extract0 column_fit arctan0 pow0
                    (column_pixels 150 5)
                    (column_pixels 150 150, column_pixels 250 5) lka)))).
    vm_compute. lia.
  - apply (proj2 (proj2 (proj2 (raw_fit_needs_more_than_100_pixels frame0 shape0
                    transform0 extract0 column_fit arctan0 pow0
                    (column_pixels 150 5)
                    (column_pixels 150 150, column_pixels 250 5) lka)))).
    vm_compute. discriminate.
Defined.

(** C6 as stated fails between the two thresholds: a side with 50 matched
    pixels has at least 10, and [_fit_polynomial] alone would fit it, yet
    its raw fit in [detect] is [None] and the frame reports no lane. *)
Lemma fifty_pixels_are_not_fitted :
  let side := column_pixels 150 50 in
  (10 <= length (fst side))%nat /\
  _fit_polynomial column_fit side = Some {| pa := 0; pb := 0; pc := 150 |} /\
  raw_fit column_fit side = None /\
  match detect0 (side, side) lka_raw with
  | (_, Ret st) =>
      left_poly st = None /\ right_poly st = None /\
      departure_status st = NO_LANE
  | _ => False
  end.
Proof.
  split; [vm_compute; lia |].
  split; [reflexivity |].
  split; [reflexivity |].
  vm_compute. repeat split.
Qed.

(** C7 at the scenario of the specification: only the left marking is
    seen, at [left_x = 150] on the 400-pixel canvas.  The centre is
    estimated at 150 + 175 = 325 pixels and the offset is
    (200 - 325) / 100 = -1.25 m, a departure to the left. *)
Lemma left_only_at_150 :
  let st := _compute_metrics arctan0 pow0 lka
              (Some {| pa := 0; pb := 0; pc := 150 |}) None 640 480 in
  center_offset st == -1.25 /\
  confidence st == 0.5 /\
  departure_status st = DEPARTED_LEFT.
Proof. vm_compute. repeat split. Qed.

(** An engine whose two histories hold one polynomial each, as left by an
    earlier frame in which both markings were fitted. *)
Lemma detect_fills_both_histories :
  let self := fst (detect0 (column_pixels 150 150, column_pixels 250 150) lka) in
  left_history self = [{| pa := 0; pb := 0; pc := 150 |}] /\
  right_history self = [{| pa := 0; pb := 0; pc := 250 |}] /\
  history_bounded self.
Proof. vm_compute. repeat split; discriminate. Qed.

(** C9 at two consecutive frames: both markings are fitted in the first;
    the second has no pixels at all, and still reports both polynomials
    with confidence 1. *)
Lemma smoothing_reports_history_mean_witness :
  let self := fst (detect0 (column_pixels 150 150, column_pixels 250 150) lka) in
  exists self' st,
    detect0 (([], []), ([], [])) self = (self', Ret st) /\
    left_poly st = Some (poly_mean (left_history self)) /\
    right_poly st = Some (poly_mean (right_history self)) /\
    left_history self' = left_history self /\
    confidence st == 1.
Proof.
  intros self.
  assert (Hsm : enable_smoothing self = true) by reflexivity.
  assert (Hb : history_bounded self) by (vm_compute; split; discriminate).
  destruct (smoothing_reports_history_mean frame0 shape0 transform0 extract0
              column_fit arctan0 pow0 (([], []), ([], [])) self Hsm Hb)
    as (self' & st & Hdet & _ & Hleft & Hright & Hboth).
  assert (HrawL : raw_fit column_fit ([], []) = None) by reflexivity.
  assert (HneL : left_history self <> []) by (vm_compute; discriminate).
  assert (HneR : right_history self <> []) by (vm_compute; discriminate).
  exists self', st.
  split; [exact Hdet |].
  split; [apply (Hleft HrawL HneL) |].
  split; [apply (Hright HrawL HneR) |].
  split; [apply (Hleft HrawL HneL) |].
  apply (Hboth HrawL HrawL HneL HneR).
Defined.

End LaneScenarios.

(* ===================================================================== *)
(** * Distance estimator: conversion law, calibration, depth maps *)
(* ===================================================================== *)

Section DepthConversionFacts.

Import DistanceEstimator.

Lemma Qltb_proper (a a' b b' : Q) : a == a' -> b == b' -> Qltb a b = Qltb a' b'.
Proof. intros Ha Hb. unfold Qltb. rewrite Ha, Hb. reflexivity. Qed.

Lemma py_min_proper (a a' b : Q) : a == a' -> py_min a b == py_min a' b.
Proof.
  intros Ha. unfold py_min. rewrite (Qltb_proper b b a a') by (reflexivity || exact Ha).
  destruct (Qltb b a'); [reflexivity | exact Ha].
Qed.

(** The conversion depends on the numeric value of the depth only. *)
Lemma depth_to_distance_proper (self : t) (d d' : Q) :
  d == d' -> _depth_to_distance self d == _depth_to_distance self d'.
Proof.
  intros Hd. unfold _depth_to_distance.
  rewrite (Qltb_proper d d' 0.01 0.01) by (reflexivity || exact Hd).
  destruct (Qltb d' 0.01); [reflexivity |].
  apply py_min_proper. rewrite Hd. reflexivity.
Qed.

(** X1.  With a depth scale that is not negative, every converted distance
    lies between 0 and 100 m, whatever the depth value (negative depths and
    depths above 1 included). *)
Theorem depth_to_distance_range (self : t) (d : Q) :
  0 <= depth_scale (calibration self) ->
  0 <= _depth_to_distance self d /\ _depth_to_distance self d <= 100.
Proof.
  intros Hs. unfold _depth_to_distance.
  case_Qltb d 0.01; [lra |].
  assert (Hq : 0 <= depth_scale (calibration self) / d).
  { apply Qle_shift_div_l; lra. }
  destruct (py_min_spec (depth_scale (calibration self) / d) 100)
    as [[H ->] | [H ->]]; lra.
Qed.

Lemma depth_to_distance_range_witness :
  0 <= _depth_to_distance (init None) 2.5 /\
  _depth_to_distance (init None) 2.5 <= 100.
Proof. apply depth_to_distance_range. discriminate. Defined.

(** A larger depth never converts to a larger distance. *)
Lemma conversion_antitone (self : t) (d1 d2 : Q) :
  0 <= depth_scale (calibration self) ->
  d1 <= d2 ->
  _depth_to_distance self d2 <= _depth_to_distance self d1.
Proof.
  intros Hs Hd. unfold _depth_to_distance.
  case_Qltb d1 0.01.
  - case_Qltb d2 0.01; [lra |].
    destruct (py_min_spec (depth_scale (calibration self) / d2) 100)
      as [[H ->] | [H ->]]; lra.
  - case_Qltb d2 0.01; [lra |].
    rewrite !py_min_Qmin. apply Q.min_le_compat_r.
    apply Qle_shift_div_l; [lra |].
    assert (E : depth_scale (calibration self) / d2 * d1
                == depth_scale (calibration self) * d1 / d2) by (field; lra).
    rewrite E. apply Qle_shift_div_r; [lra |].
    nra.
Qed.

(** X2.  With a depth scale that is not negative the conversion is
    antitone: a larger normalised depth never converts to a larger
    distance. *)
Theorem depth_to_distance_antitone (self : t) (d1 d2 : Q) :
  0 <= depth_scale (calibration self) ->
  d1 <= d2 ->
  _depth_to_distance self d2 <= _depth_to_distance self d1.
Proof.
  intros Hs Hd. apply conversion_antitone; assumption.
Qed.

Lemma depth_to_distance_antitone_witness :
  _depth_to_distance (init None) 0.5 <= _depth_to_distance (init None) 0.2.
Proof. apply depth_to_distance_antitone; discriminate. Defined.

(** X4.  The vectorised conversion of [create_distance_map] and the scalar
    conversion agree at every depth other than 0.01 when the depth scale is
    not negative.  At depth 0.01 itself they take different branches: the
    map reports 100 and the scalar conversion [min(100 * depth_scale, 100)],
    so the two differ exactly when the depth scale is below 1. *)
Theorem distance_map_agrees_off_threshold (self : t) (d : Q) :
  0 <= depth_scale (calibration self) ->
  (~ d == 0.01 -> create_distance_map_at self d == _depth_to_distance self d) /\
  (d == 0.01 ->
     create_distance_map_at self d == 100 /\
     _depth_to_distance self d == Qmin (100 * depth_scale (calibration self)) 100).
Proof.
  intros Hs. unfold create_distance_map_at, _depth_to_distance, np_clip. split.
  - intros Hne. case_Qltb 0.01 d.
    + assert (Hge : Qltb d 0.01 = false) by (apply Qltb_ge; lra).
      rewrite Hge, py_min_Qmin.
      assert (Hq : 0 <= depth_scale (calibration self) / d).
      { apply Qle_shift_div_l; lra. }
      rewrite (Q.max_l _ 0 Hq). reflexivity.
    + assert (Hlt : Qltb d 0.01 = true).
      { apply Qltb_lt. destruct (Qlt_le_dec d 0.01) as [H | H]; [exact H |].
        exfalso. apply Hne. apply Qle_antisym; assumption. }
      rewrite Hlt. reflexivity.
  - intros He. split.
    + assert (Hge : Qltb 0.01 d = false) by (apply Qltb_ge; lra).
      rewrite Hge. reflexivity.
    + assert (Hge : Qltb d 0.01 = false) by (apply Qltb_ge; lra).
      rewrite Hge, py_min_Qmin.
      assert (E : depth_scale (calibration self) / d
                  == 100 * depth_scale (calibration self)).
      { rewrite He. field. }
      rewrite E. reflexivity.
Qed.

Lemma distance_map_agrees_off_threshold_witness :
  create_distance_map_at (init None) 0.5 == _depth_to_distance (init None) 0.5 /\
  create_distance_map_at (init None) 0.01 == 100.
Proof.
  destruct (distance_map_agrees_off_threshold (init None) 0.5) as [H _];
    [discriminate |].
  destruct (distance_map_agrees_off_threshold (init None) 0.01) as [_ H'];
    [discriminate |].
  split; [apply H; discriminate | apply H'; reflexivity].
Defined.

End DepthConversionFacts.

Section DepthMapFacts.

Import DistanceEstimator Vocabulary.

Lemma Forall_firstn {A} (P : A -> Prop) (n : nat) (l : list A) :
  Forall P l -> Forall P (firstn n l).
Proof.
  intros H. revert n. induction H; intros [|n]; simpl; constructor; auto.
Qed.

Lemma Forall_skipn {A} (P : A -> Prop) (n : nat) (l : list A) :
  Forall P l -> Forall P (skipn n l).
Proof.
  intros H. revert n. induction H; intros [|n]; simpl; auto.
Qed.

Lemma py_slice_Forall {A} (P : A -> Prop) (l : list A) (a b : Z) :
  Forall P l -> Forall P (py_slice l a b).
Proof. intros H. unfold py_slice. apply Forall_firstn, Forall_skipn, H. Qed.

(** The length of a slice whose bounds are not negative. *)
Lemma py_slice_length {A} (l : list A) (a b : Z) :
  (0 <= a)%Z -> (0 <= b)%Z ->
  Z.of_nat (length (py_slice l a b))
    = Z.max 0 (Z.min (Z.of_nat (length l)) b - Z.min (Z.of_nat (length l)) a).
Proof.
  intros Ha Hb. unfold py_slice, slice_bound.
  assert (Ea : (a <? 0)%Z = false) by (apply Z.ltb_ge; lia).
  assert (Eb : (b <? 0)%Z = false) by (apply Z.ltb_ge; lia).
  rewrite Ea, Eb.
  rewrite List.length_firstn, List.length_skipn. lia.
Qed.



Lemma concat_Forall {A} (P : A -> Prop) (m : list (list A)) :
  Forall (Forall P) m -> Forall P (concat m).
Proof.
  induction 1; simpl; [constructor |].
  apply Forall_app. split; assumption.
Qed.


(** A window of a rectangular map with a row and a column in range holds
    at least one depth. *)
Lemma slice2_nonempty (w : nat) (m : depth_map) (y1 y2 x1 x2 : Z) :
  rectangular w m ->
  (0 <= y1 < y2)%Z -> (y1 < Z.of_nat (length m))%Z ->
  (0 <= x1 < x2)%Z -> (x1 < Z.of_nat w)%Z ->
  flatten (slice2 m y1 y2 x1 x2) <> [].
Proof.
  intros Hrect Hy Hyh Hx Hxw.
  unfold flatten, slice2.
  pose proof (py_slice_length m y1 y2 ltac:(lia) ltac:(lia)) as Hlen.
  pose proof (py_slice_Forall _ m y1 y2 Hrect) as Hrows.
  destruct (py_slice m y1 y2) as [|row rows]; [simpl in Hlen; lia |].
  pose proof (Forall_inv Hrows) as Hrow. simpl in Hrow.
  pose proof (py_slice_length row x1 x2 ltac:(lia) ltac:(lia)) as Hlen'.
  rewrite Hrow in Hlen'.
  simpl. destruct (py_slice row x1 x2); [simpl in Hlen'; lia | discriminate].
Qed.



End DepthMapFacts.

Section BoundingBoxFacts.

Import DistanceEstimator Vocabulary.

(** X6.  A bounding box that is empty once clipped to the image gives an
    infinite distance under every method string, a misspelt one included:
    the method is looked at only for a box that is not empty, and only
    then does an unknown method raise [ValueError]. *)
Theorem estimate_for_bbox_empty_or_unknown (self : t) (m : depth_map)
    (x1 y1 x2 y2 : Z) (method : string) :
  let h := fst (shape m) in
  let w := snd (shape m) in
  ((Z.min w x2 <= Z.max 0 x1 \/ Z.min h y2 <= Z.max 0 y1)%Z ->
     estimate_for_bbox self m x1 y1 x2 y2 method = Ret (Some PInf)) /\
  ((Z.max 0 x1 < Z.min w x2)%Z -> (Z.max 0 y1 < Z.min h y2)%Z ->
   ~ In method ["center"; "bottom_center"; "min"; "median"]%string ->
     estimate_for_bbox self m x1 y1 x2 y2 method
       = Raise (ValueError ("Unknown method: " ++ method))).
Proof.
  unfold estimate_for_bbox, shape. cbn [fst snd]. split.
  - intros H.
    assert (E : ((Z.min (Z.of_nat (length (hd [] m))) x2 <=? Z.max 0 x1)
                 || (Z.min (Z.of_nat (length m)) y2 <=? Z.max 0 y1))%Z = true).
    { apply orb_true_iff. destruct H; [left | right]; apply Z.leb_le; assumption. }
    rewrite E. reflexivity.
  - intros Hx Hy Hm.
    assert (E : ((Z.min (Z.of_nat (length (hd [] m))) x2 <=? Z.max 0 x1)
                 || (Z.min (Z.of_nat (length m)) y2 <=? Z.max 0 y1))%Z = false).
    { apply orb_false_iff. split; apply Z.leb_gt; assumption. }
    rewrite E.
    repeat match goal with
    | |- context [String.eqb method ?k] =>
        destruct (String.eqb_spec method k) as [-> |];
        [exfalso; apply Hm; simpl; tauto |]
    end.
    reflexivity.
Qed.

Lemma estimate_for_bbox_empty_or_unknown_witness :
  estimate_for_bbox (init None) [[0.5; 0.5]; [0.5; 0.5]] 5 0 9 2 "nearest"
    = Ret (Some PInf) /\
  estimate_for_bbox (init None) [[0.5; 0.5]; [0.5; 0.5]] 0 0 2 2 "nearest"
    = Raise (ValueError "Unknown method: nearest").
Proof.
  split.
  - apply (proj1 (estimate_for_bbox_empty_or_unknown (init None)
                    [[0.5; 0.5]; [0.5; 0.5]] 5 0 9 2 "nearest")).
    left. vm_compute. discriminate.
  - apply (proj2 (estimate_for_bbox_empty_or_unknown (init None)
                    [[0.5; 0.5]; [0.5; 0.5]] 0 0 2 2 "nearest")).
    + reflexivity.
    + reflexivity.
    + simpl. intros [H | [H | [H | [H | []]]]]; discriminate H.
Defined.

Lemma argmax_from_spec (l : list Q) :
  forall (bi : nat) (b : Q) (k : nat),
    let r := argmax_from bi b k l in
    b <= snd r /\
    Forall (fun q => q <= snd r) l /\
    ((fst r = bi /\ snd r = b) \/
     (k <= fst r /\ nth_error l (fst r - k) = Some (snd r))%nat).
Proof.
  induction l as [|x l IH]; intros bi b k; simpl.
  - split; [apply Qle_refl |]. split; [constructor | left; auto].
  - case_Qltb b x.
    + destruct (IH k x (S k)) as (Hb & Hall & Hpos).
      split; [lra |]. split; [constructor; assumption |].
      right. destruct Hpos as [[-> ->] | [Hk Hn]].
      * split; [lia |]. rewrite Nat.sub_diag. reflexivity.
      * split; [lia |].
        replace (fst (argmax_from k x (S k) l) - k)%nat
          with (S (fst (argmax_from k x (S k) l) - S k)) by lia.
        exact Hn.
    + destruct (IH bi b (S k)) as (Hb & Hall & Hpos).
      split; [exact Hb |]. split; [constructor; [lra | assumption] |].
      destruct Hpos as [[Hi Hv] | [Hk Hn]]; [left; auto |].
      right. split; [lia |].
      replace (fst (argmax_from bi b (S k) l) - k)%nat
        with (S (fst (argmax_from bi b (S k) l) - S k)) by lia.
      exact Hn.
Qed.

(** [np.argmax] returns the position of an element that no other element
    exceeds. *)
Lemma np_argmax_spec (l : list Q) :
  l <> [] ->
  exists i v,
    np_argmax l = Some (i, v) /\ nth_error l i = Some v /\
    Forall (fun q => q <= v) l.
Proof.
  intros Hne. destruct l as [|x l]; [contradiction |].
  pose proof (argmax_from_spec l 0 x 1) as (Hb & Hall & Hpos).
  simpl in *.
  destruct (argmax_from 0 x 1 l) as [i v] eqn:E. simpl in *.
  exists i, v. split; [reflexivity |].
  split; [| constructor; assumption].
  destruct Hpos as [[-> ->] | [Hk Hn]]; [reflexivity |].
  destruct i as [|i]; [lia |]. simpl.
  replace (S i - 1)%nat with i in Hn by lia. exact Hn.
Qed.

(** X7.  Method ["min"] on a box that is not empty returns the distance of
    the largest depth found in the clipped box; with a depth scale that is
    not negative no depth of the box converts to a smaller distance. *)
Theorem estimate_for_bbox_min_is_closest (self : t) (m : depth_map) (w : nat)
    (x1 y1 x2 y2 : Z) :
  rectangular w m -> m <> [] ->
  let h := Z.of_nat (length m) in
  let roi := flatten (slice2 m (Z.max 0 y1) (Z.min h y2)
                        (Z.max 0 x1) (Z.min (Z.of_nat w) x2)) in
  (Z.max 0 x1 < Z.min (Z.of_nat w) x2)%Z ->
  (Z.max 0 y1 < Z.min h y2)%Z ->
  exists max_depth,
    estimate_for_bbox self m x1 y1 x2 y2 "min"
      = Ret (Some (Fin (_depth_to_distance self max_depth))) /\
    In max_depth roi /\
    (forall q, In q roi ->
       q <= max_depth /\
       (0 <= depth_scale (calibration self) ->
        _depth_to_distance self max_depth <= _depth_to_distance self q)).
Proof.
  intros Hrect Hne h roi Hx Hy.
  assert (Hfirst : length (hd [] m) = w).
  { destruct m as [|row m']; [contradiction |]. exact (Forall_inv Hrect). }
  unfold estimate_for_bbox, shape. rewrite Hfirst. fold h.
  assert (E : ((Z.min (Z.of_nat w) x2 <=? Z.max 0 x1)
               || (Z.min h y2 <=? Z.max 0 y1))%Z = false).
  { apply orb_false_iff. split; apply Z.leb_gt; assumption. }
  rewrite E. cbn [String.eqb Ascii.eqb Bool.eqb].
  fold roi.
  assert (Hroi : roi <> []).
  { apply (slice2_nonempty w); auto; lia. }
  destruct (np_argmax_spec roi Hroi) as (i & v & Harg & Hnth & Hall).
  unfold np_max. rewrite Harg. simpl.
  exists v. split; [reflexivity |].
  split; [eapply nth_error_In; exact Hnth |].
  intros q Hq. rewrite List.Forall_forall in Hall.
  split; [apply Hall; exact Hq |].
  intros Hs. apply conversion_antitone; [exact Hs | apply Hall; exact Hq].
Qed.

Lemma estimate_for_bbox_min_is_closest_witness :
  exists max_depth,
    estimate_for_bbox (init None) [[0.1; 0.5]; [0.25; 0.2]] (-4) 0 9 2 "min"
      = Ret (Some (Fin (_depth_to_distance (init None) max_depth))) /\
    In max_depth [0.1; 0.5; 0.25; 0.2] /\
    (forall q, In q [0.1; 0.5; 0.25; 0.2] ->
       q <= max_depth /\
       (0 <= depth_scale (calibration (init None)) ->
        _depth_to_distance (init None) max_depth
          <= _depth_to_distance (init None) q)).
Proof.
  apply (estimate_for_bbox_min_is_closest (init None)
           [[0.1; 0.5]; [0.25; 0.2]] 2 (-4) 0 9 2);
    try reflexivity; try discriminate.
  repeat constructor.
Defined.

End BoundingBoxFacts.

Section ClosestPointFacts.

Import DistanceEstimator Vocabulary.

(** In a rectangular array the flat index [idx] is column [idx mod w] of
    row [idx / w]. *)
Lemma nth_error_concat_rectangular (w : nat) (m : depth_map) :
  (0 < w)%nat -> rectangular w m ->
  forall idx, nth_error (concat m) idx = depth_at m (idx mod w) (idx / w).
Proof.
  intros Hw Hrect. unfold depth_at.
  induction Hrect as [|row m' Hrow _ IH]; intros idx.
  - simpl. rewrite !nth_error_nil. reflexivity.
  - simpl. destruct (Nat.lt_ge_cases idx w) as [Hlt | Hge].
    + rewrite Nat.div_small, Nat.mod_small by assumption. simpl.
      apply nth_error_app1. lia.
    + rewrite nth_error_app2 by lia. rewrite Hrow, IH.
      assert (Hd : (idx / w = S ((idx - w) / w))%nat).
      { replace idx with ((idx - w) + 1 * w)%nat at 1 by lia.
        rewrite Nat.div_add by lia. lia. }
      assert (Hm : (idx mod w = (idx - w) mod w)%nat).
      { replace idx with ((idx - w) + 1 * w)%nat at 1 by lia.
        apply Nat.Div0.mod_add. }
      rewrite Hd, Hm. reflexivity.
Qed.

Lemma depth_at_In (m : depth_map) (x y : nat) (q : Q) :
  depth_at m x y = Some q -> In q (flatten m).
Proof.
  unfold depth_at, flatten. intros H.
  destruct (nth_error m y) as [row|] eqn:Hrow; [| discriminate].
  apply in_concat. exists row. split; eapply nth_error_In; eassumption.
Qed.

(** X8.  Without a region of interest, on a rectangular non-empty depth
    map, the closest-point search returns the coordinates [(x, y)] of a
    pixel inside the image whose depth no other pixel exceeds, together
    with the conversion of that depth; with a depth scale that is not
    negative no pixel converts to a smaller distance.  On a map without
    pixels it raises [ValueError]. *)
Theorem closest_point_is_deepest (self : t) (m : depth_map) (w : nat) :
  (flatten m = [] ->
     get_closest_object_distance self m None
       = Raise (ValueError "attempt to get argmax of an empty sequence")) /\
  ((0 < w)%nat -> m <> [] -> rectangular w m ->
   exists (x y : nat) (d : Q),
     get_closest_object_distance self m None
       = Ret (_depth_to_distance self d, (Z.of_nat x, Z.of_nat y)) /\
     (x < w)%nat /\ (y < length m)%nat /\
     depth_at m x y = Some d /\
     (forall x' y' q, depth_at m x' y' = Some q ->
        q <= d /\
        (0 <= depth_scale (calibration self) ->
         _depth_to_distance self d <= _depth_to_distance self q))).
Proof.
  unfold get_closest_object_distance. split.
  - intros ->. reflexivity.
  - intros Hw Hne Hrect.
    assert (Hfirst : length (hd [] m) = w).
    { destruct m as [|row m']; [contradiction |]. exact (Forall_inv Hrect). }
    assert (Hflat : flatten m <> []).
    { destruct m as [|row m']; [contradiction |].
      pose proof (Forall_inv Hrect) as Hrow. simpl in Hrow.
      destruct row; [simpl in Hrow; lia | discriminate]. }
    destruct (np_argmax_spec (flatten m) Hflat) as (i & d & Harg & Hnth & Hall).
    rewrite Harg, Hfirst. cbn [fst snd]. rewrite !Z.add_0_r.
    unfold flatten in Hnth.
    rewrite (nth_error_concat_rectangular w m Hw Hrect) in Hnth.
    exists (i mod w)%nat, (i / w)%nat, d.
    split; [reflexivity |].
    split; [apply Nat.mod_upper_bound; lia |].
    split.
    { unfold depth_at in Hnth.
      destruct (nth_error m (i / w)) eqn:Hrow; [| discriminate].
      apply nth_error_Some. congruence. }
    split; [exact Hnth |].
    intros x' y' q Hq. apply depth_at_In in Hq.
    rewrite List.Forall_forall in Hall.
    split; [apply Hall; exact Hq |].
    intros Hs. apply conversion_antitone; [exact Hs | apply Hall; exact Hq].
Qed.

Lemma closest_point_is_deepest_witness :
  get_closest_object_distance (init None) [] None
    = Raise (ValueError "attempt to get argmax of an empty sequence") /\
  exists (x y : nat) (d : Q),
    get_closest_object_distance (init None) [[0.1; 0.5]; [0.25; 0.5]] None
      = Ret (_depth_to_distance (init None) d, (Z.of_nat x, Z.of_nat y)) /\
    depth_at [[0.1; 0.5]; [0.25; 0.5]] x y = Some d.
Proof.
  split.
  - apply (proj1 (closest_point_is_deepest (init None) [] 0)). reflexivity.
  - destruct (proj2 (closest_point_is_deepest (init None)
                       [[0.1; 0.5]; [0.25; 0.5]] 2))
      as (x & y & d & H & _ & _ & Hd & _);
      [lia | discriminate | repeat constructor |].
    exists x, y, d. split; assumption.
Defined.

(** X9.  The ground profile reads row [int(h * y_ratio)] of the map, the
    product being the rounded float product.  A row index from [h] on, or
    below [-h], raises [IndexError]; an index in [0, h) returns the
    conversions of that row, one per column; a negative index from [-h] on
    counts rows from the bottom.  A NaN ratio raises [ValueError]. *)
Theorem ground_distance_row (self : t) (m : depth_map) (y_ratio : float64)
    (fh : float64) :
  let h := Z.of_nat (length m) in
  float_of_int h = Ret fh ->
  (forall y : Z,
     int_of_float (float_mul fh y_ratio) = Ret y ->
     ((y < - h \/ h <= y)%Z ->
      estimate_ground_distance self m y_ratio = Raise IndexError) /\
     ((0 <= y < h)%Z ->
      exists row,
        nth_error m (Z.to_nat y) = Some row /\
        estimate_ground_distance self m y_ratio
          = Ret (map (_depth_to_distance self) row)) /\
     ((- h <= y < 0)%Z ->
      exists row,
        nth_error m (Z.to_nat (h + y)) = Some row /\
        estimate_ground_distance self m y_ratio
          = Ret (map (_depth_to_distance self) row))) /\
  (y_ratio = S754_nan ->
   estimate_ground_distance self m y_ratio
     = Raise (ValueError "cannot convert float NaN to integer")) /\
  (forall rows : list Q,
     estimate_ground_distance self m y_ratio = Ret rows ->
     exists row, In row m /\ rows = map (_depth_to_distance self) row).
Proof.
  intros h Hfh. unfold estimate_ground_distance, shape. fold h. rewrite Hfh.
  split; [| split].
  - intros y Hy. rewrite Hy. unfold py_index. fold h.
    split; [| split].
    + intros Hout.
      assert (E : (y <? - h)%Z || (h <=? y)%Z = true).
      { apply orb_true_iff. destruct Hout as [Hlo | Hhi];
          [left; apply Z.ltb_lt | right; apply Z.leb_le]; assumption. }
      rewrite E. reflexivity.
    + intros [Hy0 Hy1].
      assert (E1 : (y <? - h)%Z = false) by (apply Z.ltb_ge; lia).
      assert (E2 : (h <=? y)%Z = false) by (apply Z.leb_gt; lia).
      assert (E3 : (y <? 0)%Z = false) by (apply Z.ltb_ge; lia).
      rewrite E1, E2, E3. simpl.
      destruct (nth_error m (Z.to_nat y)) as [row|] eqn:Hrow.
      * exists row. split; reflexivity.
      * apply nth_error_None in Hrow. subst h. lia.
    + intros [Hy0 Hy1].
      assert (E1 : (y <? - h)%Z = false) by (apply Z.ltb_ge; lia).
      assert (E2 : (h <=? y)%Z = false) by (apply Z.leb_gt; lia).
      assert (E3 : (y <? 0)%Z = true) by (apply Z.ltb_lt; lia).
      rewrite E1, E2, E3. simpl.
      destruct (nth_error m (Z.to_nat (h + y))) as [row|] eqn:Hrow.
      * exists row. split; reflexivity.
      * apply nth_error_None in Hrow. subst h. lia.
  - intros ->.
    assert (E : float_mul fh S754_nan = S754_nan) by (destruct fh; reflexivity).
    rewrite E. reflexivity.
  - intros rows Hret.
    destruct (int_of_float (float_mul fh y_ratio)) as [y|e]; [| discriminate].
    destruct (py_index m y) as [row|] eqn:Hrow; [| discriminate].
    injection Hret as <-. exists row. split; [| reflexivity].
    unfold py_index in Hrow.
    destruct ((y <? - Z.of_nat (length m))%Z || (Z.of_nat (length m) <=? y)%Z);
      [discriminate |].
    eapply nth_error_In. exact Hrow.
Qed.

(** On a map of ten rows the ratio [0.7] reads row 7: the float product
    [10 * 0.7] is [7.0], although the float [0.7] lies below 7/10.  The
    ratio [1.0] indexes past the last row. *)
Lemma ground_distance_row_witness :
  float_of_int 10 = Ret Scenario.ten /\
  int_of_float (float_mul Scenario.ten (Scenario.float_literal 7 10)) = Ret 7%Z /\
  estimate_ground_distance (init None) Scenario.ten_rows (Scenario.float_literal 7 10)
    = Ret (map (_depth_to_distance (init None)) [0.7; 0.07]) /\
  estimate_ground_distance (init None) Scenario.ten_rows (Scenario.float_literal 1 1)
    = Raise IndexError.
Proof.
  assert (Hfh : float_of_int (Z.of_nat (length Scenario.ten_rows)) = Ret Scenario.ten)
    by reflexivity.
  split; [reflexivity |]. split; [reflexivity |].
  split.
  - destruct (proj1 (proj2 (proj1 (ground_distance_row (init None) Scenario.ten_rows
                (Scenario.float_literal 7 10) Scenario.ten Hfh) 7%Z eq_refl)))
      as (row & Hrow & Hret); [simpl; lia |].
    vm_compute in Hrow. injection Hrow as <-. exact Hret.
  - apply (proj1 (proj1 (ground_distance_row (init None) Scenario.ten_rows
              (Scenario.float_literal 1 1) Scenario.ten Hfh) 10%Z eq_refl)).
    simpl. lia.
Defined.

End ClosestPointFacts.

(* ===================================================================== *)
(** * Collision warning: tracks and velocity *)
(* ===================================================================== *)

Section TrackFacts.

Import CollisionWarning Vocabulary.

Lemma filter_keeps_all {A} (f : A -> bool) (l : list A) :
  Forall (fun x => f x = true) l -> List.filter f l = l.
Proof.
  induction 1 as [|x l Hx _ IH]; simpl; [reflexivity |].
  rewrite Hx, IH. reflexivity.
Qed.

Lemma filter_drops_all {A} (f : A -> bool) (l : list A) :
  Forall (fun x => f x = false) l -> List.filter f l = [].
Proof.
  induction 1 as [|x l Hx _ IH]; simpl; [reflexivity |].
  rewrite Hx, IH. reflexivity.
Qed.

Lemma filter_all_true {A} (f : A -> bool) (l : list A) :
  Forall (fun x => f x = true) (List.filter f l).
Proof.
  apply List.Forall_forall. intros x Hx. apply List.filter_In in Hx. tauto.
Qed.

(** The track of an object after [_update_history]. *)
Lemma update_history_lookup (oid : Z) (ts dist lateral : Q) (s : t) :
  track_of (_update_history oid ts dist lateral s) oid
    = List.filter (fun sm : sample => Qltb (ts - history_window s) (fst (fst sm)))
        (track_of s oid ++ [(ts, dist, lateral)]).
Proof.
  unfold track_of, _update_history. simpl.
  rewrite lookup_insert_eq. reflexivity.
Qed.

(** X10.  Recording a sample touches the track of that object only; every
    sample the track then holds is newer than the window's cut-off; and,
    for a positive window, the new sample is its last one. *)
Theorem update_history_prunes_one_track (oid : Z) (ts dist lateral : Q) (s : t) :
  let s' := _update_history oid ts dist lateral s in
  (forall other, other <> oid ->
     object_history s' !! other = object_history s !! other) /\
  Forall (fun sm : sample => ts - history_window s < fst (fst sm))
    (track_of s' oid) /\
  (0 < history_window s -> last (track_of s' oid) = Some (ts, dist, lateral)).
Proof.
  cbv zeta. split; [| split].
  - intros other Hne. unfold _update_history. simpl.
    apply lookup_insert_ne. congruence.
  - rewrite update_history_lookup.
    eapply Forall_impl; [apply filter_all_true |].
    intros sm H. apply Qltb_lt. exact H.
  - intros Hw. rewrite update_history_lookup, List.filter_app. simpl.
    assert (E : Qltb (ts - history_window s) ts = true) by (apply Qltb_lt; lra).
    rewrite E. apply last_snoc.
Qed.

Lemma update_history_prunes_one_track_witness :
  last (track_of (_update_history 1 10.5 8 0
                    (_update_history 1 10 5.5 0 Scenario.cws)) 1)
    = Some (10.5, 8, 0).
Proof.
  apply (proj2 (proj2 (update_history_prunes_one_track 1 10.5 8 0
                         (_update_history 1 10 5.5 0 Scenario.cws)))).
  reflexivity.
Defined.

(** The velocity estimate in terms of the object's track. *)
Lemma estimate_velocity_track (oid : Z) (s : t) :
  _estimate_velocity oid s
    = if (length (track_of s oid) <? 2)%nat then 0
      else
        match head (track_of s oid), last (track_of s oid) with
        | Some (t1, d1, _), Some (t2, d2, _) =>
            if Qltb (t2 - t1) 0.01 then 0 else (d2 - d1) / (t2 - t1)
        | _, _ => 0
        end.
Proof. reflexivity. Qed.

(** The velocity estimate on a track of fewer than two samples. *)
Lemma estimate_velocity_short (oid : Z) (s : t) :
  (length (track_of s oid) < 2)%nat -> _estimate_velocity oid s = 0.
Proof.
  intros H. rewrite estimate_velocity_track.
  apply Nat.ltb_lt in H. rewrite H. reflexivity.
Qed.

(** X11.  Secant velocity.  When an object already has a track whose
    samples all lie inside the window, recording a new sample and
    estimating gives the slope between the oldest sample and the new one,
    and 0 when the two are less than 0.01 s apart; an object that came
    closer over at least 0.01 s gets a negative velocity. *)
Theorem velocity_is_secant_to_oldest (oid : Z) (ts dist lateral : Q) (s : t)
    (t1 d1 l1 : Q) (rest : list sample) :
  track_of s oid = (t1, d1, l1) :: rest ->
  Forall (fun sm : sample => ts - history_window s < fst (fst sm))
    ((t1, d1, l1) :: rest) ->
  0 < history_window s ->
  let v := _estimate_velocity oid (_update_history oid ts dist lateral s) in
  (ts - t1 < 0.01 -> v = 0) /\
  (0.01 <= ts - t1 -> v = (dist - d1) / (ts - t1)) /\
  (0.01 <= ts - t1 -> dist < d1 -> v < 0).
Proof.
  intros Htrack Hin Hw.
  assert (Hnew : track_of (_update_history oid ts dist lateral s) oid
                 = (t1, d1, l1) :: rest ++ [(ts, dist, lateral)]).
  { rewrite update_history_lookup, Htrack.
    change (((t1, d1, l1) :: rest) ++ [(ts, dist, lateral)])
      with ((t1, d1, l1) :: rest ++ [(ts, dist, lateral)]).
    rewrite app_comm_cons.
    apply filter_keeps_all. apply Forall_app. split.
    - eapply Forall_impl; [exact Hin |]. intros sm H. apply Qltb_lt. exact H.
    - constructor; [| constructor]. apply Qltb_lt. simpl. lra. }
  cbv zeta. rewrite estimate_velocity_track, Hnew.
  assert (Hlen : forall (A : Type) (x y : A) (l : list A),
             (length (x :: l ++ [y]) <? 2)%nat = false).
  { intros A x y l. apply Nat.ltb_ge. simpl. rewrite length_app. simpl. lia. }
  rewrite Hlen. cbn [head].
  rewrite app_comm_cons, last_snoc.
  split; [| split].
  - intros H. apply Qltb_lt in H. rewrite H. reflexivity.
  - intros H. apply Qltb_ge in H. rewrite H. reflexivity.
  - intros H Hd. pose proof H as H'. apply Qltb_ge in H'. rewrite H'.
    apply Qlt_shift_div_r; lra.
Qed.

Lemma velocity_is_secant_to_oldest_witness :
  let s := _update_history 1 10 10.5 0 Scenario.cws in
  _estimate_velocity 1 (_update_history 1 10.5 8 0 s) = (8 - 10.5) / (10.5 - 10).
Proof.
  apply (proj1 (proj2 (velocity_is_secant_to_oldest 1 10.5 8 0
                         (_update_history 1 10 10.5 0 Scenario.cws)
                         10 10.5 0 [] eq_refl
                         ltac:(repeat constructor) eq_refl))).
  discriminate.
Defined.

(** X12.  A stale track restarts.  When every sample of an object's track
    is at least one window old (or the object has no track), recording a
    new sample leaves that sample alone in the track and the velocity
    estimate is 0. *)
Theorem stale_track_restarts (oid : Z) (ts dist lateral : Q) (s : t) :
  Forall (fun sm : sample => fst (fst sm) <= ts - history_window s)
    (track_of s oid) ->
  0 < history_window s ->
  track_of (_update_history oid ts dist lateral s) oid = [(ts, dist, lateral)] /\
  _estimate_velocity oid (_update_history oid ts dist lateral s) = 0.
Proof.
  intros Hold Hw.
  assert (Hnew : track_of (_update_history oid ts dist lateral s) oid
                 = [(ts, dist, lateral)]).
  { rewrite update_history_lookup, List.filter_app.
    rewrite filter_drops_all.
    - simpl. assert (E : Qltb (ts - history_window s) ts = true)
        by (apply Qltb_lt; lra).
      rewrite E. reflexivity.
    - eapply Forall_impl; [exact Hold |]. intros sm H. apply Qltb_ge. exact H. }
  split; [exact Hnew |].
  apply estimate_velocity_short. rewrite Hnew. simpl. lia.
Qed.

Lemma stale_track_restarts_witness :
  let s := _update_history 1 10 10.5 0 Scenario.cws in
  track_of (_update_history 1 11 8 0 s) 1 = [(11, 8, 0)] /\
  _estimate_velocity 1 (_update_history 1 11 8 0 s) = 0.
Proof.
  apply (stale_track_restarts 1 11 8 0 (_update_history 1 10 10.5 0 Scenario.cws)).
  - repeat constructor. discriminate.
  - reflexivity.
Defined.

End TrackFacts.

(* ===================================================================== *)
(** * Collision warning: which detections count *)
(* ===================================================================== *)

Section DetectionFacts.

Import CollisionWarning Vocabulary.

Variable py_hash : Detection -> Z.
Variable str_title : string -> string.
Variable format_1f : efloat -> string.

Local Abbreviation _evaluate_threat := (_evaluate_threat py_hash).
Local Abbreviation collect_threats := (collect_threats py_hash).
Local Abbreviation analyze := (analyze py_hash str_title format_1f).

(** A detection without a usable distance is dropped before anything is
    computed or recorded. *)
Lemma evaluate_threat_out_of_range (obj : Detection) (fw : Z) (ts : Q) (s : t) :
  match default PInf (det_distance obj) with
  | PInf => True
  | Fin d => d <= 0 \/ DIST_SAFE < d
  end ->
  _evaluate_threat obj fw ts s = (s, Ret None).
Proof.
  unfold CollisionWarning._evaluate_threat.
  destruct (default PInf (det_distance obj)) as [d|]; [| reflexivity].
  intros [H | H].
  - apply Qle_bool_iff in H. rewrite H. reflexivity.
  - apply Qltb_lt in H. rewrite H, orb_true_r. reflexivity.
Qed.

(** One turn of the loop. *)
Lemma collect_threats_cons (obj : Detection) (rest : list Detection)
    (fw : Z) (ts : Q) (acc : list CollisionThreat) (s : t) :
  collect_threats (obj :: rest) fw ts acc s
    = if Qltb (default 1 (det_confidence obj)) (min_confidence s) then
        collect_threats rest fw ts acc s
      else
        match _evaluate_threat obj fw ts s with
        | (s1, Ret (Some th)) =>
            if negb (level_eqb (warning_level th) NONE) then
              collect_threats rest fw ts (acc ++ [th]) s1
            else collect_threats rest fw ts acc s1
        | (s1, Ret None) => collect_threats rest fw ts acc s1
        | (s1, Raise e) => (s1, Raise e)
        end.
Proof.
  simpl. unfold bind, get_self.
  destruct (Qltb _ _); [reflexivity |].
  destruct (CollisionWarning._evaluate_threat py_hash obj fw ts s)
    as [s1 [[th|]|e]]; try reflexivity.
  destruct (negb _); reflexivity.
Qed.

Lemma collect_threats_ignored (obj : Detection) (rest : list Detection)
    (fw : Z) (ts : Q) (acc : list CollisionThreat) (s : t) :
  ignored s obj ->
  collect_threats (obj :: rest) fw ts acc s = collect_threats rest fw ts acc s.
Proof.
  intros Hig. rewrite collect_threats_cons.
  case_Qltb (default 1 (det_confidence obj)) (min_confidence s); [reflexivity |].
  destruct Hig as [Hconf | Hdist]; [lra |].
  rewrite (evaluate_threat_out_of_range obj fw ts s Hdist).
  reflexivity.
Qed.

(** The loop over a concatenation is the loop over the first part followed
    by the loop over the second. *)
Lemma collect_threats_app (pre post : list Detection) (fw : Z) (ts : Q) :
  forall (acc : list CollisionThreat) (s : t),
    collect_threats (pre ++ post) fw ts acc s
      = match collect_threats pre fw ts acc s with
        | (s', Ret acc') => collect_threats post fw ts acc' s'
        | (s', Raise e) => (s', Raise e)
        end.
Proof.
  induction pre as [|obj pre IH]; intros acc s.
  - simpl. reflexivity.
  - change ((obj :: pre) ++ post) with (obj :: pre ++ post).
    rewrite !collect_threats_cons.
    destruct (Qltb _ _); [apply IH |].
    destruct (CollisionWarning._evaluate_threat py_hash obj fw ts s)
      as [s1 [[th|]|e]]; try apply IH; [| reflexivity].
    destruct (negb _); apply IH.
Qed.

(** X13.  A detection that [analyze] passes over (confidence below the
    minimum, or distance absent, infinite, not positive or above 30 m) is
    invisible wherever it stands in the list: the outcome, the warning
    state and the tracking history are those of the list without it. *)
Theorem ignored_detection_is_invisible (pre post : list Detection)
    (obj : Detection) (fw : Z) (stamp : option Q) (now : Q) (s : t) :
  ignored s obj ->
  analyze (pre ++ obj :: post) fw stamp now s
    = analyze (pre ++ post) fw stamp now s.
Proof.
  intros Hig. unfold CollisionWarning.analyze.
  fold (timestamp_used stamp now).
  assert (E : collect_threats (pre ++ obj :: post) fw (timestamp_used stamp now) [] s
              = collect_threats (pre ++ post) fw (timestamp_used stamp now) [] s).
  { rewrite !collect_threats_app.
    pose proof (collect_threats_settings py_hash pre fw
                  (timestamp_used stamp now) [] s) as Hs.
    destruct (collect_threats pre fw (timestamp_used stamp now) [] s)
      as [s1 [acc1|e]]; [| reflexivity].
    apply collect_threats_ignored.
    destruct Hs as (_ & Hmin & _). simpl in Hmin.
    unfold ignored in *. rewrite Hmin. exact Hig. }
  unfold bind. rewrite E. reflexivity.
Qed.


(** X14.  With a frame width of 0, the first detection that is evaluated
    and carries a bounding box (or none at all, so that the default box is
    used) makes [analyze] raise [ZeroDivisionError], before anything is
    recorded. *)
Theorem zero_frame_width_raises (obj : Detection) (objs : list Detection)
    (stamp : option Q) (now : Q) (s : t) :
  evaluated s obj ->
  det_bbox obj <> BboxFalsy ->
  analyze (obj :: objs) 0 stamp now s = (s, Raise ZeroDivisionError).
Proof.
  intros [Hconf (d & Hd & Hpos & Hsafe)] Hbox.
  unfold CollisionWarning.analyze. fold (timestamp_used stamp now).
  assert (E : Qltb (default 1 (det_confidence obj)) (min_confidence s) = false)
    by (apply Qltb_ge; exact Hconf).
  assert (Hev : _evaluate_threat obj 0 (timestamp_used stamp now) s
                = (s, Raise ZeroDivisionError)).
  { unfold CollisionWarning._evaluate_threat. rewrite Hd. simpl.
    assert (E1 : Qle_bool d 0 = false) by (apply Qle_bool_gt; exact Hpos).
    assert (E2 : Qltb DIST_SAFE d = false) by (apply Qltb_ge; exact Hsafe).
    rewrite E1, E2. simpl.
    destruct (det_bbox obj); [reflexivity | contradiction | reflexivity]. }
  unfold bind at 1. rewrite collect_threats_cons, E, Hev. reflexivity.
Qed.


End DetectionFacts.

Section DetectionInstances.

Import CollisionWarning Vocabulary.

Lemma ignored_detection_is_invisible_witness :
  CollisionWarning.analyze Scenario.hash0 Scenario.title0 Scenario.format0
    ([Scenario.test_car] ++ Scenario.car_at 45 :: []) 640 (Some 10) 0 Scenario.cws
  = CollisionWarning.analyze Scenario.hash0 Scenario.title0 Scenario.format0
      ([Scenario.test_car] ++ []) 640 (Some 10) 0 Scenario.cws.
Proof.
  apply (ignored_detection_is_invisible Scenario.hash0 Scenario.title0
           Scenario.format0 [Scenario.test_car] [] (Scenario.car_at 45)).
  right. simpl. right. reflexivity.
Defined.

Lemma zero_frame_width_raises_witness :
  CollisionWarning.analyze Scenario.hash0 Scenario.title0 Scenario.format0
    (Scenario.test_car :: [Scenario.test_person]) 0 None 10 Scenario.cws
  = (Scenario.cws, Raise ZeroDivisionError).
Proof.
  apply (zero_frame_width_raises Scenario.hash0 Scenario.title0 Scenario.format0).
  - split; [discriminate |]. exists 8. split; [reflexivity |].
    split; [reflexivity | discriminate].
  - discriminate.
Defined.

End DetectionInstances.

(* ===================================================================== *)
(** * Collision warning: what a reported threat looks like *)
(* ===================================================================== *)

Section ThreatFacts.

Import CollisionWarning Vocabulary.

Variable py_hash : Detection -> Z.
Variable str_title : string -> string.
Variable format_1f : efloat -> string.

Local Abbreviation _evaluate_threat := (_evaluate_threat py_hash).
Local Abbreviation collect_threats := (collect_threats py_hash).
Local Abbreviation analyze := (analyze py_hash str_title format_1f).

Lemma filter_length_le {A} (f : A -> bool) (l : list A) :
  (length (List.filter f l) <= length l)%nat.
Proof.
  induction l as [|x l IH]; simpl; [lia |].
  destruct (f x); simpl; lia.
Qed.

(** The TTC of an object that is not known to move. *)
Lemma calculate_ttc_at_rest (s : t) (dist : Q) :
  0 < dist ->
  (0 < ego_velocity s ->
     ef_eq (_calculate_ttc s dist 0) (Fin (dist / ego_velocity s))) /\
  (ego_velocity s <= 0 -> _calculate_ttc s dist 0 = PInf).
Proof.
  intros Hd. unfold _calculate_ttc. split; intros He.
  - assert (E : Qle_bool (ego_velocity s - 0) 0 = false)
      by (apply Qle_bool_gt; lra).
    rewrite E. simpl. rewrite py_max_Qmax.
    assert (Eq : dist / (ego_velocity s - 0) == dist / ego_velocity s).
    { assert (E0 : ego_velocity s - 0 == ego_velocity s) by ring.
      rewrite E0. reflexivity. }
    rewrite Eq. apply Q.max_r. apply Qle_shift_div_l; lra.
  - assert (E : Qle_bool (ego_velocity s - 0) 0 = true)
      by (apply Qle_bool_iff; lra).
    rewrite E. reflexivity.
Qed.

(** X15.  First sighting.  A detection evaluated for an object that has no
    samples on record gets relative velocity 0, so its TTC is its distance
    divided by the ego velocity, and infinite when the ego vehicle stands
    still. *)
Theorem first_sighting_uses_ego_velocity (obj : Detection) (fw : Z) (ts : Q)
    (s s' : t) (th : CollisionThreat) :
  track_of s (default (py_hash obj) (det_object_id obj)) = [] ->
  _evaluate_threat obj fw ts s = (s', Ret (Some th)) ->
  relative_velocity th = 0 /\
  (0 < ego_velocity s ->
     ef_eq (ttc th) (Fin (distance th / ego_velocity s))) /\
  (ego_velocity s <= 0 -> ttc th = PInf).
Proof.
  intros Htrack Hev.
  destruct (evaluate_threat_cases py_hash obj fw ts s)
    as [[e He] | [He | (dist & lateral & Hd & Hpos & Hsafe & He)]];
    rewrite He in Hev; try discriminate.
  injection Hev as <- <-. cbn [relative_velocity ttc distance].
  set (oid := default (py_hash obj) (det_object_id obj)) in *.
  assert (Hrel : _estimate_velocity oid (_update_history oid ts dist lateral s) = 0).
  { apply estimate_velocity_short.
    rewrite update_history_lookup, Htrack. simpl.
    destruct (Qltb _ _); simpl; lia. }
  rewrite Hrel. split; [reflexivity |].
  apply (calculate_ttc_at_rest (_update_history oid ts dist lateral s) dist Hpos).
Qed.

(** The severity does not depend on the engine it is computed in. *)
Lemma determine_warning_level_any_engine (s1 s2 : t) (dist : Q) (ttc : efloat)
    (lateral : Q) (cls : string) :
  _determine_warning_level s1 dist ttc lateral cls
    = _determine_warning_level s2 dist ttc lateral cls.
Proof. reflexivity. Qed.

(** CRITICAL is the severity of an object on the path with a TTC below one
    second, and of nothing else. *)
Lemma critical_iff (s : t) (dist : Q) (ttc : efloat) (lateral : Q) (cls : string) :
  _determine_warning_level s dist ttc lateral cls = CRITICAL <->
  Qabs lateral <= LATERAL_THRESHOLD /\ ef_lt ttc (Fin TTC_CRITICAL).
Proof.
  unfold _determine_warning_level, ef_lt.
  case_Qltb LATERAL_THRESHOLD (Qabs lateral).
  - split.
    + destruct (Qltb dist DIST_WARNING); discriminate.
    + intros [H _]. lra.
  - destruct (ef_ltb ttc (Fin TTC_CRITICAL)); [tauto |].
    split; [| intros [_ H]; discriminate].
    repeat match goal with
    | |- context [if ?c then _ else _] => destruct c
    end; discriminate.
Qed.

Lemma determine_warning_type_range (cls : string) (lateral : Q) :
  _determine_warning_type cls lateral <> REAR_COLLISION /\
  _determine_warning_type cls lateral <> LANE_DEPARTURE.
Proof.
  unfold _determine_warning_type.
  repeat match goal with
  | |- context [if ?c then _ else _] => destruct c
  end; split; discriminate.
Qed.

Lemma calculate_ttc_positive (s : t) (dist rel : Q) :
  0 < dist -> ef_lt (Fin 0) (_calculate_ttc s dist rel).
Proof.
  intros Hd. unfold _calculate_ttc, ef_lt.
  case_Qle_bool (ego_velocity s - rel) 0; [reflexivity |].
  simpl. apply Qltb_lt.
  assert (Hq : 0 < dist / (ego_velocity s - rel)).
  { apply Qlt_shift_div_l; lra. }
  destruct (py_max_spec 0 (dist / (ego_velocity s - rel)))
    as [[_ ->] | [H ->]]; lra.
Qed.

(** What the loop collects, given what holds of every threat it may add. *)
Lemma collect_threats_Forall (P : CollisionThreat -> Prop) (s0 : t)
    (fw : Z) (ts : Q) :
  (forall obj s1 s1' th,
     same_settings s0 s1 ->
     min_confidence s1 <= default 1 (det_confidence obj) ->
     _evaluate_threat obj fw ts s1 = (s1', Ret (Some th)) ->
     warning_level th <> NONE ->
     P th) ->
  forall objs acc s s' threats,
    same_settings s0 s ->
    Forall P acc ->
    collect_threats objs fw ts acc s = (s', Ret threats) ->
    Forall P threats.
Proof.
  intros HP. induction objs as [|obj rest IH]; intros acc s s' threats Hs Hacc.
  - simpl. unfold ret. intros H. injection H as _ <-. exact Hacc.
  - rewrite (collect_threats_cons py_hash).
    case_Qltb (default 1 (det_confidence obj)) (min_confidence s);
      [apply IH; assumption |].
    pose proof (evaluate_threat_settings py_hash obj fw ts s) as Hs1.
    destruct (CollisionWarning._evaluate_threat py_hash obj fw ts s)
      as [s1 [[th|]|e]] eqn:Hev; simpl in Hs1.
    + destruct (level_eqb (warning_level th) NONE) eqn:Hlv; simpl.
      * apply IH; [eapply same_settings_trans; eassumption | exact Hacc].
      * apply IH; [eapply same_settings_trans; eassumption |].
        apply Forall_app. split; [exact Hacc |].
        constructor; [| constructor].
        apply (HP obj s s1 th Hs Hcmp Hev).
        intros E. rewrite E in Hlv. discriminate.
    + apply IH; [eapply same_settings_trans; eassumption | exact Hacc].
    + discriminate.
Qed.

(** What [analyze] returns, in terms of the loop. *)
Lemma analyze_inversion (objs : list Detection) (fw : Z) (stamp : option Q)
    (now : Q) (s s' : t) (st : WarningState) :
  analyze objs fw stamp now s = (s', Ret st) ->
  exists threats,
    collect_threats objs fw (timestamp_used stamp now) [] s = (s', Ret threats) /\
    ((sort_threats threats = [] /\ st = new_state (timestamp_used stamp now)) \/
     (exists th,
        sort_threats threats = [th] /\
        st = {| timestamp := timestamp_used stamp now;
                active_threats := [th];
                highest_level := warning_level th;
                primary_threat := Some th;
                warning_message :=
                  _generate_warning_message str_title format_1f th;
                audio_alert :=
                  enable_audio s'
                  && (value WARNING <=? value (warning_level th))%Z;
                brake_assist_triggered :=
                  level_eqb (warning_level th) CRITICAL |})).
Proof.
  unfold CollisionWarning.analyze. fold (timestamp_used stamp now).
  unfold bind at 1.
  destruct (collect_threats objs fw (timestamp_used stamp now) [] s)
    as [s1 [threats|e]]; [| discriminate].
  destruct (sort_threats threats) as [|a [|b rest]] eqn:Hsort.
  - unfold ret. intros H. injection H as <- <-.
    exists threats. split; [reflexivity |]. left. split; [exact Hsort | reflexivity].
  - unfold bind, of_result, get_self, ret. simpl.
    intros H. injection H as <- <-.
    exists threats. split; [reflexivity |]. right. exists a.
    split; [exact Hsort | reflexivity].
  - unfold bind, of_result. simpl. discriminate.
Qed.

Lemma Permutation_Forall_threats (P : CollisionThreat -> Prop)
    (l : list CollisionThreat) :
  Forall P l -> Forall P (sort_threats l).
Proof.
  intros H. apply List.Forall_forall. intros x Hx.
  rewrite List.Forall_forall in H. apply H.
  eapply Permutation_in; [apply sort_threats_Permutation | exact Hx].
Qed.

(** X16.  Every threat in a warning state that [analyze] returns has a
    severity other than NONE, a distance in (0, 30] m, a confidence of at
    least the engine's minimum, a TTC above 0 (possibly infinite), and a
    warning type other than REAR_COLLISION and LANE_DEPARTURE, which the
    engine never produces. *)
Theorem reported_threats_are_well_formed (objs : list Detection) (fw : Z)
    (stamp : option Q) (now : Q) (s s' : t) (st : WarningState) :
  analyze objs fw stamp now s = (s', Ret st) ->
  Forall (reported_threat s) (active_threats st).
Proof.
  intros Han.
  destruct (analyze_inversion objs fw stamp now s s' st Han)
    as (threats & Hcol & Hst).
  assert (Hall : Forall (reported_threat s) threats).
  { apply (collect_threats_Forall (reported_threat s) s fw
             (timestamp_used stamp now)) with (objs := objs) (acc := [])
             (s := s) (s' := s');
      [| apply same_settings_refl | constructor | exact Hcol].
    intros obj s1 s1' th (_ & Hmin & _) Hconf Hev Hlevel.
    destruct (evaluate_threat_cases py_hash obj fw (timestamp_used stamp now) s1)
      as [[e He] | [He | (dist & lateral & Hd & Hpos & Hsafe & He)]];
      rewrite He in Hev; try discriminate.
    injection Hev as _ <-. unfold reported_threat. simpl in *.
    split; [exact Hlevel |]. split; [exact Hpos |]. split; [exact Hsafe |].
    split; [rewrite <- Hmin; exact Hconf |].
    split; [apply calculate_ttc_positive; exact Hpos |].
    apply determine_warning_type_range. }
  apply Permutation_Forall_threats in Hall.
  destruct Hst as [[Hsort ->] | (th & Hsort & ->)]; simpl.
  - constructor.
  - rewrite Hsort in Hall. exact Hall.
Qed.

(** X17.  Brake assist is triggered only for a threat on the path whose
    TTC is below one second: in a returned state with brake assist set,
    the primary threat is CRITICAL, lies within 2 m of the centre line and
    has a TTC under 1 s, whatever its distance, and the audio alert is set
    exactly when audio is enabled. *)
Theorem brake_assist_needs_short_ttc (objs : list Detection) (fw : Z)
    (stamp : option Q) (now : Q) (s s' : t) (st : WarningState) :
  analyze objs fw stamp now s = (s', Ret st) ->
  brake_assist_triggered st = true ->
  exists th,
    primary_threat st = Some th /\ active_threats st = [th] /\
    warning_level th = CRITICAL /\
    Qabs (lateral_offset th) <= LATERAL_THRESHOLD /\
    ef_lt (ttc th) (Fin TTC_CRITICAL) /\
    audio_alert st = enable_audio s.
Proof.
  intros Han Hbrake.
  destruct (analyze_inversion objs fw stamp now s s' st Han)
    as (threats & Hcol & Hst).
  pose proof (collect_threats_settings py_hash objs fw
                (timestamp_used stamp now) [] s) as Hset.
  rewrite Hcol in Hset. destruct Hset as (_ & _ & Haudio & _). simpl in Haudio.
  assert (Hall : Forall (fun th =>
              warning_level th
                = _determine_warning_level s (distance th) (ttc th)
                    (lateral_offset th) (object_class th)) threats).
  { apply (collect_threats_Forall _ s fw (timestamp_used stamp now))
      with (objs := objs) (acc := []) (s := s) (s' := s');
      [| apply same_settings_refl | constructor | exact Hcol].
    intros obj s1 s1' th _ _ Hev _.
    destruct (evaluate_threat_level py_hash obj fw _ s1 s1' th Hev) as (H & _).
    exact H. }
  apply Permutation_Forall_threats in Hall.
  destruct Hst as [[Hsort ->] | (th & Hsort & ->)]; simpl in *; [discriminate |].
  rewrite Hsort in Hall. apply Forall_inv in Hall.
  assert (Hcrit : warning_level th = CRITICAL).
  { destruct (warning_level th); try discriminate. reflexivity. }
  exists th. split; [reflexivity |]. split; [reflexivity |].
  split; [exact Hcrit |].
  rewrite Hcrit in Hall. symmetry in Hall. apply critical_iff in Hall.
  destruct Hall as [Hlat Httc].
  split; [exact Hlat |]. split; [exact Httc |].
  rewrite Haudio, Hcrit. simpl. apply andb_true_r.
Qed.

End ThreatFacts.

Section SeverityFacts.

Import CollisionWarning Vocabulary.

Variable py_hash : Detection -> Z.
Variable str_title : string -> string.
Variable format_1f : efloat -> string.

Local Abbreviation _evaluate_threat := (_evaluate_threat py_hash).
Local Abbreviation collect_threats := (collect_threats py_hash).
Local Abbreviation analyze := (analyze py_hash str_title format_1f).

Lemma ef_ltb_false_le (x y : efloat) : ef_ltb x y = false <-> ef_le y x.
Proof.
  unfold ef_le. destruct x as [p|], y as [q|]; simpl; try tauto.
  - rewrite Qltb_ge, Qle_bool_iff. tauto.
  - split; discriminate.
Qed.

Lemma ef_le_trans_ltb (a b : Q) (x : efloat) :
  a <= b -> ef_le (Fin b) x -> ef_ltb x (Fin a) = false.
Proof.
  intros Hab H. apply ef_ltb_false_le.
  destruct x as [q|]; [| reflexivity].
  apply ef_le_Fin in H. apply ef_le_Fin. lra.
Qed.

(** X18.  On the path the TTC tiers take precedence over the distance
    tiers, so the severity is not monotone in the TTC: for an object closer
    than 3 m, a TTC from 3.5 s up to 5 s gives INFO, while any TTC of 5 s or
    more, infinite included, gives DANGER. *)
Theorem slower_closing_can_raise_severity (s : t) (dist lateral : Q)
    (cls : string) (ttc1 ttc2 : efloat) :
  Qabs lateral <= LATERAL_THRESHOLD ->
  dist < DIST_CRITICAL ->
  ef_le (Fin TTC_WARNING) ttc1 -> ef_lt ttc1 (Fin TTC_INFO) ->
  ef_le (Fin TTC_INFO) ttc2 ->
  _determine_warning_level s dist ttc1 lateral cls = INFO /\
  _determine_warning_level s dist ttc2 lateral cls = DANGER.
Proof.
  intros Hlat Hd H1lo H1hi H2.
  unfold _determine_warning_level.
  apply Qltb_ge in Hlat. rewrite Hlat.
  split.
  - rewrite (ef_le_trans_ltb TTC_CRITICAL TTC_WARNING ttc1) by (discriminate || exact H1lo).
    rewrite (ef_le_trans_ltb TTC_DANGER TTC_WARNING ttc1) by (discriminate || exact H1lo).
    rewrite (ef_le_trans_ltb TTC_WARNING TTC_WARNING ttc1) by (discriminate || exact H1lo).
    unfold ef_lt in H1hi. rewrite H1hi. reflexivity.
  - rewrite (ef_le_trans_ltb TTC_CRITICAL TTC_INFO ttc2) by (discriminate || exact H2).
    rewrite (ef_le_trans_ltb TTC_DANGER TTC_INFO ttc2) by (discriminate || exact H2).
    rewrite (ef_le_trans_ltb TTC_WARNING TTC_INFO ttc2) by (discriminate || exact H2).
    rewrite (ef_le_trans_ltb TTC_INFO TTC_INFO ttc2) by (discriminate || exact H2).
    apply Qltb_lt in Hd. rewrite Hd. reflexivity.
Qed.

Lemma evaluate_threat_returns (obj : Detection) (fw : Z) (ts : Q) (s : t) :
  (fw <> 0)%Z ->
  exists s1 r, _evaluate_threat obj fw ts s = (s1, Ret r).
Proof.
  intros Hfw. apply Z.eqb_neq in Hfw.
  unfold CollisionWarning._evaluate_threat.
  destruct (default PInf (det_distance obj)) as [d|]; [| do 2 eexists; reflexivity].
  destruct (Qle_bool d 0 || Qltb DIST_SAFE d); [do 2 eexists; reflexivity |].
  rewrite Hfw.
  destruct (det_bbox obj); do 2 eexists; reflexivity.
Qed.

(** X19.  With a frame width other than 0, [analyze] on a single detection
    always returns.  The state is either the quiet one (no threat, level
    NONE, no alert) or holds that one threat as primary threat, with its
    severity as highest level, the audio alert set exactly when audio is
    enabled and the severity is WARNING or above, and brake assist set
    exactly when the severity is CRITICAL. *)
Theorem single_detection_returns (obj : Detection) (fw : Z) (stamp : option Q)
    (now : Q) (s : t) :
  (fw <> 0)%Z ->
  exists s' st,
    analyze [obj] fw stamp now s = (s', Ret st) /\
    (st = new_state (timestamp_used stamp now) \/
     exists th,
       active_threats st = [th] /\ primary_threat st = Some th /\
       highest_level st = warning_level th /\
       warning_level th <> NONE /\
       audio_alert st
         = enable_audio s && (value WARNING <=? value (warning_level th))%Z /\
       brake_assist_triggered st = level_eqb (warning_level th) CRITICAL).
Proof.
  intros Hfw.
  unfold CollisionWarning.analyze. fold (timestamp_used stamp now).
  unfold bind at 1. rewrite (collect_threats_cons py_hash).
  destruct (Qltb _ _).
  { simpl. do 2 eexists. split; [reflexivity | left; reflexivity]. }
  destruct (evaluate_threat_returns obj fw (timestamp_used stamp now) s Hfw)
    as (s1 & r & Hev).
  pose proof (evaluate_threat_settings py_hash obj fw
                (timestamp_used stamp now) s) as Hset.
  rewrite Hev in *. simpl in Hset. destruct Hset as (_ & _ & Haudio & _).
  destruct r as [th|];
    [| simpl; do 2 eexists; split; [reflexivity | left; reflexivity]].
  destruct (level_eqb (warning_level th) NONE) eqn:Hlv; simpl.
  { do 2 eexists. split; [reflexivity | left; reflexivity]. }
  unfold bind, of_result, get_self, ret. simpl.
  do 2 eexists. split; [reflexivity |]. right. exists th. simpl.
  repeat split; try reflexivity.
  - intros E. rewrite E in Hlv. discriminate.
  - rewrite Haudio. reflexivity.
Qed.

End SeverityFacts.

Section ThreatInstances.

Import CollisionWarning Vocabulary Scenario.

Lemma first_sighting_uses_ego_velocity_witness :
  match CollisionWarning._evaluate_threat hash0 test_car 640 10 cws with
  | (_, Ret (Some th)) =>
      relative_velocity th = 0 /\ ef_eq (ttc th) (Fin (distance th / 15))
  | _ => False
  end.
Proof.
  destruct (CollisionWarning._evaluate_threat hash0 test_car 640 10 cws)
    as [s' [[th|]|e]] eqn:E;
    pose proof E as E0; vm_compute in E0; try discriminate E0.
  destruct (first_sighting_uses_ego_velocity hash0 test_car 640 10 cws s' th
              eq_refl E) as (Hrel & Httc & _).
  split; [exact Hrel | apply Httc; reflexivity].
Defined.

Lemma reported_threats_are_well_formed_witness :
  match CollisionWarning.analyze hash0 title0 format0 [test_car] 640 (Some 10) 0 cws with
  | (_, Ret st) => Forall (reported_threat cws) (active_threats st)
  | _ => False
  end.
Proof.
  destruct (CollisionWarning.analyze hash0 title0 format0 [test_car] 640
              (Some 10) 0 cws) as [s' [st|e]] eqn:E.
  - exact (reported_threats_are_well_formed hash0 title0 format0 [test_car] 640
             (Some 10) 0 cws s' st E).
  - vm_compute in E. discriminate E.
Defined.

Lemma brake_assist_needs_short_ttc_witness :
  match CollisionWarning.analyze hash0 title0 format0 [test_car] 640 (Some 10) 0 cws with
  | (_, Ret st) =>
      exists th,
        primary_threat st = Some th /\ active_threats st = [th] /\
        warning_level th = CRITICAL /\
        Qabs (lateral_offset th) <= LATERAL_THRESHOLD /\
        ef_lt (ttc th) (Fin TTC_CRITICAL) /\
        audio_alert st = enable_audio cws
  | _ => False
  end.
Proof.
  destruct (CollisionWarning.analyze hash0 title0 format0 [test_car] 640
              (Some 10) 0 cws) as [s' [st|e]] eqn:E;
    pose proof E as E0; vm_compute in E0; try discriminate E0.
  injection E0 as Hs Hst.
  apply (brake_assist_needs_short_ttc hash0 title0 format0 [test_car] 640
           (Some 10) 0 cws s' st E).
  rewrite <- Hst. reflexivity.
Defined.

(** An object 2 m ahead on the path: INFO at a TTC of 4 s, DANGER at a TTC
    of 10 s. *)
Lemma slower_closing_can_raise_severity_witness :
  _determine_warning_level cws 2 (Fin 4) 0 "car" = INFO /\
  _determine_warning_level cws 2 (Fin 10) 0 "car" = DANGER.
Proof.
  apply slower_closing_can_raise_severity;
    solve [reflexivity | discriminate].
Defined.

Lemma single_detection_returns_witness :
  exists s' st,
    CollisionWarning.analyze hash0 title0 format0 [test_person] 640 None 10 cws
      = (s', Ret st) /\
    (st = new_state (timestamp_used None 10) \/
     exists th,
       active_threats st = [th] /\ primary_threat st = Some th /\
       highest_level st = warning_level th /\
       warning_level th <> NONE /\
       audio_alert st
         = enable_audio cws && (value WARNING <=? value (warning_level th))%Z /\
       brake_assist_triggered st = level_eqb (warning_level th) CRITICAL).
Proof.
  apply (single_detection_returns hash0 title0 format0 test_person 640 None 10 cws).
  discriminate.
Defined.

End ThreatInstances.

(* ===================================================================== *)
(** * Lane keeping: metrics *)
(* ===================================================================== *)

Section LaneMetricsFacts.

Import LaneKeeping Vocabulary.

Variable arctan_degrees : Q -> Q.
Variable pow_1_5 : Q -> Q.

Local Abbreviation _compute_metrics := (_compute_metrics arctan_degrees pow_1_5).

(** The metrics when both polynomials are present, by the width of the
    lane at the bottom row. *)
Lemma compute_metrics_both (self : t) (lp rp : Poly) (w h : Z) :
  let y_eval := inject_Z (snd (warped_size self)) - 1 in
  let ww := inject_Z (fst (warped_size self)) in
  let left_x := polyval lp y_eval in
  let right_x := polyval rp y_eval in
  let st := _compute_metrics self (Some lp) (Some rp) w h in
  (50 < right_x - left_x ->
     center_offset st
       = (ww / 2 - (left_x + right_x) / 2) * (DEFAULT_LANE_WIDTH / (right_x - left_x)) /\
     road_width st
       = (right_x - left_x) * (DEFAULT_LANE_WIDTH / (right_x - left_x))) /\
  (right_x - left_x <= 50 -> center_offset st = 0 /\ road_width st = 3.5) /\
  departure_status st = classify_departure (center_offset st) /\
  suggested_steering st
    = _compute_steering (center_offset st) (heading_angle st) /\
  confidence st = 0 + 0.5 + 0.5.
Proof.
  cbv zeta. unfold LaneKeeping._compute_metrics. cbn [side_confidence].
  change (Qeq_bool (0 + 0.5 + 0.5) 0) with false. cbv iota.
  set (lx := polyval lp _). set (rx := polyval rp _).
  case_Qltb 50 (rx - lx); cbn [center_offset road_width departure_status
    suggested_steering heading_angle confidence].
  - split; [intros _; split; reflexivity |].
    split; [intros H; lra |]. repeat split.
  - split; [intros H; lra |].
    split; [intros _; split; reflexivity |]. repeat split.
Qed.

(** X21.  Two markings less than 51 pixels apart at the bottom row, or in
    the wrong order, are not trusted for the offset but still count as a
    detected lane: the offset stays 0, the status is CENTERED and the
    confidence is 1. *)
Theorem narrow_lane_reads_centered (self : t) (lp rp : Poly) (w h : Z) :
  let y_eval := inject_Z (snd (warped_size self)) - 1 in
  polyval rp y_eval - polyval lp y_eval <= 50 ->
  let st := _compute_metrics self (Some lp) (Some rp) w h in
  center_offset st = 0 /\ departure_status st = CENTERED /\ confidence st == 1.
Proof.
  intros y_eval Hnarrow st.
  pose proof (compute_metrics_both self lp rp w h) as H. cbv zeta in H.
  destruct H as (_ & Hn & Hdep & _ & Hconf).
  destruct (Hn Hnarrow) as [Hoff _].
  subst st. rewrite Hdep, Hoff, Hconf. repeat split.
Qed.

Lemma np_clip_bounds (x lo hi : Q) :
  lo <= hi -> lo <= np_clip x lo hi /\ np_clip x lo hi <= hi.
Proof.
  intros H. unfold np_clip. split.
  - apply Q.min_glb; [apply Q.le_max_r | exact H].
  - apply Q.le_min_r.
Qed.

(** The departure classification never answers NO_LANE. *)
Lemma classify_departure_not_no_lane (o : Q) : classify_departure o <> NO_LANE.
Proof.
  unfold classify_departure.
  repeat match goal with
  | |- context [if ?c then _ else _] => destruct c
  end; discriminate.
Qed.

(** NO_LANE is reported only when neither polynomial is present. *)
Lemma no_lane_only_without_polys (self : t) (left right : option Poly) (w h : Z) :
  departure_status (_compute_metrics self left right w h) = NO_LANE ->
  left = None /\ right = None.
Proof.
  destruct left as [lp|], right as [rp|]; intros E.
  - pose proof (compute_metrics_both self lp rp w h) as H. cbv zeta in H.
    destruct H as (_ & _ & Hdep & _). rewrite Hdep in E.
    exfalso. eapply classify_departure_not_no_lane. exact E.
  - exfalso. eapply classify_departure_not_no_lane. exact E.
  - exfalso. eapply classify_departure_not_no_lane. exact E.
  - split; reflexivity.
Qed.

(** X22.  In every lane state the suggested steering angle lies within
    45 degrees either way, the confidence is 0, 0.5 or 1, and the status
    is NO_LANE exactly when neither polynomial is present. *)
Theorem lane_state_ranges (self : t) (left right : option Poly) (w h : Z) :
  let st := _compute_metrics self left right w h in
  (-45 <= suggested_steering st /\ suggested_steering st <= 45) /\
  (confidence st == 0 \/ confidence st == 0.5 \/ confidence st == 1) /\
  (departure_status st = NO_LANE <-> left = None /\ right = None).
Proof.
  cbv zeta.
  assert (Hclass : forall o, classify_departure o <> NO_LANE).
  { intros o. unfold classify_departure.
    repeat match goal with
    | |- context [if ?c then _ else _] => destruct c
    end; discriminate. }
  assert (Hsteer : forall o a, -45 <= _compute_steering o a /\ _compute_steering o a <= 45).
  { intros o a. apply np_clip_bounds. discriminate. }
  destruct left as [lp|], right as [rp|].
  - pose proof (compute_metrics_both self lp rp w h) as H. cbv zeta in H.
    destruct H as (_ & _ & Hdep & Hst & Hconf).
    rewrite Hdep, Hst, Hconf.
    split; [apply Hsteer |]. split; [right; right; reflexivity |].
    split; [intros E; exfalso; eapply Hclass; exact E | intros [E _]; discriminate].
  - split; [apply Hsteer |]. split; [right; left; reflexivity |].
    split; [intros E; exfalso; eapply Hclass; exact E | intros [E _]; discriminate].
  - split; [apply Hsteer |]. split; [right; left; reflexivity |].
    split; [intros E; exfalso; eapply Hclass; exact E | intros [_ E]; discriminate].
  - split; [split; discriminate |]. split; [left; reflexivity |].
    split; [intros _; split; reflexivity | reflexivity].
Qed.

Lemma classify_departure_centered (o : Q) : o == 0 -> classify_departure o = CENTERED.
Proof.
  intros Ho. unfold classify_departure.
  assert (Ha : Qabs o == 0) by (rewrite Ho; reflexivity).
  assert (E1 : Qltb DEPARTURE_THRESHOLD (Qabs o) = false).
  { apply Qltb_ge. rewrite Ha. discriminate. }
  assert (E2 : Qltb DRIFT_THRESHOLD (Qabs o) = false).
  { apply Qltb_ge. rewrite Ha. discriminate. }
  rewrite E1, E2. reflexivity.
Qed.

(** X23.  With both markings present and more than 50 pixels apart at the
    bottom row, the centre offset is positive exactly when the middle of
    the lane lies left of the middle of the canvas, and a lane whose
    middle is the middle of the canvas gives offset 0 and status
    CENTERED. *)
Theorem offset_sign_follows_lane_centre (self : t) (lp rp : Poly) (w h : Z) :
  let y_eval := inject_Z (snd (warped_size self)) - 1 in
  let ww := inject_Z (fst (warped_size self)) in
  let left_x := polyval lp y_eval in
  let right_x := polyval rp y_eval in
  50 < right_x - left_x ->
  let st := _compute_metrics self (Some lp) (Some rp) w h in
  (0 < center_offset st <-> (left_x + right_x) / 2 < ww / 2) /\
  (left_x + right_x == ww ->
     center_offset st == 0 /\ departure_status st = CENTERED).
Proof.
  intros y_eval ww left_x right_x Hwide st.
  pose proof (compute_metrics_both self lp rp w h) as H. cbv zeta in H.
  destruct H as (Hw & _ & Hdep & _).
  fold y_eval ww left_x right_x in Hw.
  destruct (Hw Hwide) as [Hoff _].
  assert (Hmpp : 0 < DEFAULT_LANE_WIDTH / (right_x - left_x)).
  { apply Qlt_shift_div_l; [lra |]. unfold DEFAULT_LANE_WIDTH. lra. }
  subst st. rewrite Hdep, Hoff.
  set (mpp := DEFAULT_LANE_WIDTH / (right_x - left_x)) in *.
  split.
  - split; intros Hs; nra.
  - intros Hc.
    assert (E : (ww / 2 - (left_x + right_x) / 2) * mpp == 0).
    { rewrite Hc. field. }
    split; [exact E | apply classify_departure_centered; exact E].
Qed.

End LaneMetricsFacts.

Section LaneMetricsInstances.

Import LaneKeeping Vocabulary Scenario.

(** Two markings at 190 and 210 pixels: 20 pixels apart. *)
Lemma narrow_lane_reads_centered_witness :
  let st := LaneKeeping._compute_metrics arctan0 pow0 lka
              (Some {| pa := 0; pb := 0; pc := 190 |})
              (Some {| pa := 0; pb := 0; pc := 210 |}) 640 480 in
  center_offset st = 0 /\ departure_status st = CENTERED /\ confidence st == 1.
Proof.
  apply (narrow_lane_reads_centered arctan0 pow0 lka
           {| pa := 0; pb := 0; pc := 190 |} {| pa := 0; pb := 0; pc := 210 |}).
  vm_compute. discriminate.
Defined.

(** The scenario of the specification: markings at 100 and 300 pixels on
    the 400-pixel canvas. *)
Lemma offset_sign_follows_lane_centre_witness :
  let st := LaneKeeping._compute_metrics arctan0 pow0 lka
              (Some {| pa := 0; pb := 0; pc := 100 |})
              (Some {| pa := 0; pb := 0; pc := 300 |}) 640 480 in
  center_offset st == 0 /\ departure_status st = CENTERED.
Proof.
  apply (proj2 (offset_sign_follows_lane_centre arctan0 pow0 lka
                  {| pa := 0; pb := 0; pc := 100 |}
                  {| pa := 0; pb := 0; pc := 300 |} 640 480 eq_refl)).
  reflexivity.
Defined.

End LaneMetricsInstances.

(* ===================================================================== *)
(** * Lane keeping: the history of fits *)
(* ===================================================================== *)

Section LaneHistoryFacts.

Import LaneKeeping Vocabulary.

(** Appending a fit to a history, below and at capacity. *)
Lemma smooth_lane_push (self : t) (p : Poly) (history : list Poly) :
  ((Z.of_nat (length history) < history_size self)%Z ->
     _smooth_lane self (Some p) history
       = Ret (history ++ [p], Some (poly_mean (history ++ [p])))) /\
  (forall oldest rest,
     history = oldest :: rest ->
     Z.of_nat (length history) = history_size self ->
     _smooth_lane self (Some p) history
       = Ret (rest ++ [p], Some (poly_mean (rest ++ [p])))).
Proof.
  unfold _smooth_lane. split.
  - intros Hlen.
    assert (E : (history_size self <? Z.of_nat (length (history ++ [p])))%Z = false).
    { apply Z.ltb_ge. rewrite length_app. simpl. lia. }
    rewrite E. destruct history; reflexivity.
  - intros oldest rest -> Hlen.
    assert (E : (history_size self <? Z.of_nat (length ((oldest :: rest) ++ [p])))%Z = true).
    { apply Z.ltb_lt. rewrite length_app. simpl in *. lia. }
    rewrite E. simpl. destruct rest; reflexivity.
Qed.

(** X24.  The history is a bounded queue.  Below capacity a new fit is
    appended; at capacity the oldest fit is dropped as the new one is
    appended; in both cases the reported polynomial is the mean of the
    queue after the update. *)
Theorem smooth_lane_is_bounded_queue (self : t) (p : Poly) (history : list Poly) :
  ((Z.of_nat (length history) < history_size self)%Z ->
     _smooth_lane self (Some p) history
       = Ret (history ++ [p], Some (poly_mean (history ++ [p])))) /\
  (forall oldest rest,
     history = oldest :: rest ->
     Z.of_nat (length history) = history_size self ->
     _smooth_lane self (Some p) history
       = Ret (rest ++ [p], Some (poly_mean (rest ++ [p])))).
Proof.
  split.
  - intros Hlen. apply (proj1 (smooth_lane_push self p history) Hlen).
  - intros oldest rest Hh Hlen.
    apply (proj2 (smooth_lane_push self p history) oldest rest Hh Hlen).
Qed.

Lemma smooth_lane_is_bounded_queue_witness :
  let p1 := {| pa := 0; pb := 0; pc := 1 |} in
  let p2 := {| pa := 0; pb := 0; pc := 2 |} in
  let p3 := {| pa := 0; pb := 0; pc := 3 |} in
  let self := init 0.55 2 true in
  _smooth_lane self (Some p2) [p1] = Ret ([p1; p2], Some (poly_mean [p1; p2])) /\
  _smooth_lane self (Some p3) [p1; p2] = Ret ([p2; p3], Some (poly_mean [p2; p3])).
Proof.
  cbv zeta. split.
  - apply (proj1 (smooth_lane_is_bounded_queue (init 0.55 2 true)
                    {| pa := 0; pb := 0; pc := 2 |}
                    [{| pa := 0; pb := 0; pc := 1 |}])).
    reflexivity.
  - apply (proj2 (smooth_lane_is_bounded_queue (init 0.55 2 true)
                    {| pa := 0; pb := 0; pc := 3 |}
                    [{| pa := 0; pb := 0; pc := 1 |};
                     {| pa := 0; pb := 0; pc := 2 |}])
             {| pa := 0; pb := 0; pc := 1 |} [{| pa := 0; pb := 0; pc := 2 |}]);
      reflexivity.
Defined.

End LaneHistoryFacts.

Section LaneRunFacts.

Import LaneKeeping Vocabulary.

Variable Frame : Type.
Variable frame_shape : Frame -> Z * Z.
Variable getPerspectiveTransform : list (Q * Q) -> list (Q * Q) -> matrix.
Variable extract_lane_pixels : Frame -> matrix -> Z * Z -> pixels * pixels.
Variable np_polyfit : list Z -> list Z -> polyfit_outcome.
Variable arctan_degrees : Q -> Q.
Variable pow_1_5 : Q -> Q.

Local Abbreviation detect :=
  (detect Frame frame_shape getPerspectiveTransform extract_lane_pixels
          np_polyfit arctan_degrees pow_1_5).
Local Abbreviation lane_pixels := (lane_pixels Frame extract_lane_pixels).
Local Abbreviation ensure_perspective := (ensure_perspective getPerspectiveTransform).
Local Abbreviation _compute_metrics := (_compute_metrics arctan_degrees pow_1_5).
Local Abbreviation raw_fit := (raw_fit np_polyfit).

(** Smoothing never empties a history that holds a fit. *)
Lemma smooth_lane_keeps_a_fit (self : t) (poly : option Poly) (history : list Poly) :
  history <> [] ->
  (Z.of_nat (length history) <= history_size self)%Z ->
  exists retained p,
    _smooth_lane self poly history = Ret (retained, Some p) /\
    retained <> [] /\
    (Z.of_nat (length retained) <= history_size self)%Z.
Proof.
  intros Hne Hlen.
  destruct history as [|h0 rest]; [contradiction |].
  destruct poly as [p|].
  - destruct (Z.eq_dec (Z.of_nat (length (h0 :: rest))) (history_size self)) as [E | E].
    + rewrite (proj2 (smooth_lane_push self p (h0 :: rest))
                 h0 rest eq_refl E).
      do 2 eexists. split; [reflexivity |].
      split; [destruct rest; discriminate |].
      rewrite length_app. simpl in *. lia.
    + rewrite (proj1 (smooth_lane_push self p (h0 :: rest)))
        by lia.
      do 2 eexists. split; [reflexivity |].
      split; [discriminate |].
      rewrite length_app. simpl in *. lia.
  - rewrite smooth_lane_none by (discriminate || exact Hlen).
    do 2 eexists. split; [reflexivity |]. split; [discriminate | exact Hlen].
Qed.

(** One frame: a side whose history holds a fit is reported, keeps a fit
    in its history, and the frame is not NO_LANE. *)
Lemma detect_keeps_left_lane (frame : Frame) (self : t) :
  enable_smoothing self = true ->
  history_bounded self ->
  left_history self <> [] ->
  exists self' st,
    detect frame self = (self', Ret st) /\
    enable_smoothing self' = true /\
    history_bounded self' /\
    left_history self' <> [] /\
    left_poly st <> None /\
    departure_status st <> NO_LANE.
Proof.
  intros Hsm [HbL HbR] Hne.
  assert (Hsize : (0 <= history_size self)%Z) by lia.
  destruct (frame_shape frame) as [h w] eqn:Hshape.
  destruct (ensure_perspective_spec getPerspectiveTransform w h self)
    as (self1 & Hpersp & HL & HR & Hhs & Hen & _).
  rewrite <- HL, <- Hhs in HbL. rewrite <- HR, <- Hhs in HbR.
  rewrite <- Hhs in Hsize. rewrite <- Hen in Hsm. rewrite <- HL in Hne.
  destruct (smooth_lane_keeps_a_fit self1
              (raw_fit (fst (lane_pixels self1 frame)))
              (left_history self1) Hne HbL) as (hl & pl & Hl & Hlne & Hlb).
  destruct (smooth_lane_returns self1
              (raw_fit (snd (lane_pixels self1 frame)))
              (right_history self1) Hsize) as (hr & Hr & Hrb).
  rewrite (detect_smoothed Frame frame_shape getPerspectiveTransform
             extract_lane_pixels np_polyfit arctan_degrees pow_1_5
             frame self self1 h w _ _ _ _ Hshape Hpersp Hsm Hl Hr).
  do 2 eexists. split; [reflexivity |].
  split; [exact Hsm |].
  split; [split; simpl; auto |].
  split; [exact Hlne |].
  match goal with
  | |- context [_compute_metrics ?s ?l ?r w h] =>
      destruct (compute_metrics_confidence arctan_degrees pow_1_5 s l r w h)
        as (_ & Hlp & _);
      pose proof (no_lane_only_without_polys arctan_degrees pow_1_5 s l r w h)
        as Hno
  end.
  split; [rewrite Hlp; discriminate |].
  intros E. apply Hno in E. destruct E as [E _]. discriminate.
Qed.

(** X26.  With smoothing enabled, a marking that has been fitted once is
    reported ever after: if the left history holds a fit, then after any
    sequence of further frames, whatever they show, [detect] still returns
    a left polynomial and a status other than NO_LANE.  The history is
    never cleared and a frame without a fit removes nothing from it. *)
Theorem fitted_lane_is_never_lost (frames : list Frame) (frame : Frame) (self : t) :
  enable_smoothing self = true ->
  history_bounded self ->
  left_history self <> [] ->
  exists self' st,
    detect frame (lane_run detect frames self) = (self', Ret st) /\
    left_poly st <> None /\
    departure_status st <> NO_LANE.
Proof.
  revert self. induction frames as [|f frames IH]; intros self Hsm Hb Hne.
  - simpl. destruct (detect_keeps_left_lane frame self Hsm Hb Hne)
      as (self' & st & Hd & _ & _ & _ & Hp & Hs).
    exists self', st. auto.
  - simpl.
    destruct (detect_keeps_left_lane f self Hsm Hb Hne)
      as (self1 & st1 & Hd & Hsm1 & Hb1 & Hne1 & _).
    rewrite Hd. simpl. apply IH; assumption.
Qed.

End LaneRunFacts.

Section LaneRunInstances.

Import LaneKeeping Vocabulary Scenario.

(** One frame with a left marking, then three frames without any pixel,
    then a fifth frame without any pixel. *)
Lemma fitted_lane_is_never_lost_witness :
  let seen := fst (detect0 (column_pixels 150 150, ([], [])) lka) in
  let blank : frame0 := (([], []), ([], [])) in
  exists self' st,
    detect0 blank (lane_run detect0 [blank; blank; blank] seen) = (self', Ret st) /\
    left_poly st <> None /\
    departure_status st <> NO_LANE.
Proof.
  cbv zeta.
  apply (fitted_lane_is_never_lost frame0 shape0 transform0 extract0 column_fit
           arctan0 pow0).
  - reflexivity.
  - vm_compute. split; discriminate.
  - vm_compute. discriminate.
Defined.

End LaneRunInstances.

(* ===================================================================== *)
(** * Lane keeping: the sliding-window search *)
(* ===================================================================== *)

Section SlidingWindowFacts.

Import LaneKeeping Vocabulary.

Lemma set_columns_In (row : list bool) :
  forall x0 x, In x (set_columns x0 row) ->
    (x0 <= x)%nat /\ nth (x - x0) row false = true.
Proof.
  induction row as [|px row IH]; intros x0 x Hin; simpl in Hin; [contradiction |].
  destruct px.
  - destruct Hin as [<- | Hin].
    + split; [lia |]. rewrite Nat.sub_diag. reflexivity.
    + destruct (IH (S x0) x Hin) as [Hle Hnth]. split; [lia |].
      replace (x - x0)%nat with (S (x - S x0)) by lia. exact Hnth.
  - destruct (IH (S x0) x Hin) as [Hle Hnth]. split; [lia |].
    replace (x - x0)%nat with (S (x - S x0)) by lia. exact Hnth.
Qed.

Lemma nonzero_from_In (rows : list (list bool)) :
  forall y0 y x, In (y, x) (nonzero_from y0 rows) ->
    (y0 <= y)%nat /\ nth x (nth (y - y0) rows []) false = true.
Proof.
  induction rows as [|row rows IH]; intros y0 y x Hin; simpl in Hin;
    [contradiction |].
  apply in_app_or in Hin. destruct Hin as [Hin | Hin].
  - apply in_map_iff in Hin. destruct Hin as (x' & E & Hx).
    injection E as <- <-. split; [lia |]. rewrite Nat.sub_diag. simpl.
    destruct (set_columns_In row 0 x' Hx) as [_ H].
    rewrite Nat.sub_0_r in H. exact H.
  - destruct (IH (S y0) y x Hin) as [Hle Hnth]. split; [lia |].
    replace (y - y0)%nat with (S (y - S y0)) by lia. exact Hnth.
Qed.

(** Every position [nonzero] lists is a set pixel. *)
Lemma nonzero_In (b : mask) (y x : nat) :
  In (y, x) (nonzero b) -> mask_at b y x = true.
Proof.
  intros Hin. destruct (nonzero_from_In _ 0 y x Hin) as [_ H].
  rewrite Nat.sub_0_r in H. exact H.
Qed.

(** What the loop selects: pixels of [nz], in rows the windows cover. *)
Lemma search_windows_sound (nz : list (nat * nat)) (h w wh margin minp : Z)
    (n : nat) :
  (0 <= wh)%Z -> (Z.of_nat n * wh <= h)%Z ->
  forall windows current,
    Forall (fun k => (k < n)%nat) windows ->
    Forall (Forall (fun px =>
              In px nz /\
              (h - Z.of_nat n * wh <= Z.of_nat (fst px) < h)%Z))
      (search_windows nz h w wh margin minp windows current).
Proof.
  intros Hwh Hn. induction windows as [|k rest IH]; intros current Hk; simpl.
  - constructor.
  - pose proof (Forall_inv Hk) as Hkn. pose proof (Forall_inv_tail Hk) as Hrest.
    simpl in Hkn.
    constructor; [| apply IH; exact Hrest].
    apply List.Forall_forall. intros px Hpx.
    apply List.filter_In in Hpx. destruct Hpx as [Hin Hwin].
    split; [exact Hin |].
    unfold in_window in Hwin.
    repeat (apply andb_true_iff in Hwin; destruct Hwin as [Hwin ?]).
    apply Z.leb_le in Hwin.
    repeat match goal with
    | H : (_ <? _)%Z = true |- _ => apply Z.ltb_lt in H
    | H : (_ <=? _)%Z = true |- _ => apply Z.leb_le in H
    end.
    assert (Hk0 : (0 <= Z.of_nat k * wh)%Z) by (apply Z.mul_nonneg_nonneg; lia).
    assert (Hk1 : ((Z.of_nat k + 1) * wh <= Z.of_nat n * wh)%Z)
      by (apply Z.mul_le_mono_nonneg_r; lia).
    lia.
Qed.

Lemma seq_below (n : nat) : Forall (fun k => (k < n)%nat) (seq 0 n).
Proof.
  apply List.Forall_forall. intros k Hk. apply in_seq in Hk. lia.
Qed.

Lemma combine_map_pair {A B C} (f : A -> B) (g : A -> C) (l : list A) :
  combine (map f l) (map g l) = map (fun a => (f a, g a)) l.
Proof. induction l as [|a l IH]; simpl; [reflexivity | rewrite IH; reflexivity]. Qed.

(** What the search returns. *)
Lemma sliding_window_search_sound (binary : mask)
    (n_windows margin min_pixels offset : Z) (found : pixels) :
  _sliding_window_search binary n_windows margin min_pixels offset = Ret found ->
  length (fst found) = length (snd found) /\
  Forall (fun xy : Z * Z =>
            exists cx cy : nat,
              fst xy = (Z.of_nat cx + offset)%Z /\ snd xy = Z.of_nat cy /\
              mask_at binary cy cx = true /\
              (Z.of_nat (mask_height binary) mod n_windows <= snd xy
               < Z.of_nat (mask_height binary))%Z)
    (found_pixels found).
Proof.
  unfold _sliding_window_search.
  destruct (count_argmax (histogram binary)) as [[base peak]|]; [| discriminate].
  destruct (peak =? 0)%nat.
  { intros H. injection H as <-. split; [reflexivity | constructor]. }
  destruct (n_windows =? 0)%Z eqn:Hn0; [discriminate |].
  apply Z.eqb_neq in Hn0.
  set (h := Z.of_nat (mask_height binary)).
  set (lane := concat _).
  intros H. injection H as <-. unfold found_pixels. cbn [fst snd].
  split; [rewrite !length_map; reflexivity |].
  rewrite combine_map_pair.
  assert (Hlane : Forall (fun px =>
             In px (nonzero binary) /\
             (h mod n_windows <= Z.of_nat (fst px) < h)%Z) lane).
  { subst lane. destruct (Z.lt_ge_cases n_windows 0) as [Hneg | Hpos].
    - replace (Z.to_nat n_windows) with 0%nat by lia. constructor.
    - assert (Hn : (0 < n_windows)%Z) by lia.
      assert (Hh : (0 <= h)%Z) by (subst h; lia).
      apply concat_Forall.
      eapply Forall_impl;
        [apply (search_windows_sound (nonzero binary) h
                  (Z.of_nat (mask_width binary)) (h / n_windows) margin
                  min_pixels (Z.to_nat n_windows));
           [apply Z.div_pos; lia
           | rewrite Z2Nat.id by lia; apply Z.mul_div_le; lia
           | apply seq_below] |].
      intros l Hl. eapply Forall_impl; [exact Hl |].
      intros px [Hin Hrow]. split; [exact Hin |].
      rewrite Z2Nat.id in Hrow by lia.
      rewrite Z.mod_eq by lia. lia. }
  clear -Hlane. induction Hlane as [|[cy cx] l [Hin Hrow] _ IH]; simpl;
    constructor; [| exact IH].
  exists cx, cy. simpl. split; [reflexivity |]. split; [reflexivity |].
  split; [apply nonzero_In; exact Hin | exact Hrow].
Qed.

(** X27.  Every pixel the sliding-window search returns is a set pixel of
    the mask, shifted by the offset, and lies in one of the rows the
    windows cover: with [n_windows] windows over [h] rows, the top
    [h mod n_windows] rows are never searched.  The two arrays returned
    have the same length. *)
Theorem sliding_window_returns_set_pixels (binary : mask)
    (n_windows margin min_pixels offset : Z) (found : pixels) :
  _sliding_window_search binary n_windows margin min_pixels offset = Ret found ->
  length (fst found) = length (snd found) /\
  Forall (fun xy : Z * Z =>
            exists cx cy : nat,
              fst xy = (Z.of_nat cx + offset)%Z /\ snd xy = Z.of_nat cy /\
              mask_at binary cy cx = true /\
              (Z.of_nat (mask_height binary) mod n_windows <= snd xy
               < Z.of_nat (mask_height binary))%Z)
    (found_pixels found).
Proof.
  intros Hret.
  exact (sliding_window_search_sound binary n_windows margin min_pixels offset
           found Hret).
Qed.

Lemma count_argmax_from_zeros (l : list nat) :
  Forall (fun c => c = 0%nat) l ->
  forall bi i, count_argmax_from bi 0 i l = (bi, 0%nat).
Proof.
  induction 1 as [|c l Hc _ IH]; intros bi i; simpl; [reflexivity |].
  subst c. simpl. apply IH.
Qed.

Lemma In_skipn_nth {A} (d : A) (k : nat) (l : list A) (a : A) :
  In a (skipn k l) -> exists y, (k <= y)%nat /\ nth y l d = a.
Proof.
  intros Hin. destruct (In_nth _ _ d Hin) as (i & Hi & Hnth).
  exists (k + i)%nat. split; [lia |].
  rewrite <- Hnth. symmetry. apply nth_skipn.
Qed.

(** X28.  The search is seeded from the bottom quarter of the mask alone:
    when no pixel is set in the rows from [3h // 4] down, it returns no
    pixel at all, whatever is set higher up and whatever its parameters
    are. *)
Theorem empty_bottom_quarter_finds_nothing (binary : mask)
    (n_windows margin min_pixels offset : Z) :
  (0 < mask_width binary)%nat ->
  (forall y x, (3 * mask_height binary / 4 <= y)%nat -> mask_at binary y x = false) ->
  _sliding_window_search binary n_windows margin min_pixels offset = Ret ([], []).
Proof.
  intros Hw Hempty. unfold _sliding_window_search.
  assert (Hzero : Forall (fun c => c = 0%nat) (histogram binary)).
  { unfold histogram. apply List.Forall_forall. intros c Hc.
    apply in_map_iff in Hc. destruct Hc as (x & <- & _).
    rewrite filter_drops_all; [reflexivity |].
    apply List.Forall_forall. intros row Hrow.
    destruct (In_skipn_nth [] _ _ _ Hrow) as (y & Hy & <-).
    apply (Hempty y x Hy). }
  assert (Hne : histogram binary <> []).
  { unfold histogram. destruct (mask_width binary); [lia | discriminate]. }
  destruct (histogram binary) as [|c l]; [contradiction |].
  pose proof (Forall_inv Hzero) as Hc. simpl in Hc. subst c.
  simpl. rewrite (count_argmax_from_zeros l (Forall_inv_tail Hzero)).
  reflexivity.
Qed.

Lemma nth_map_rows {A} (f : list A -> list A) (rows : list (list A)) :
  f [] = [] -> forall y, nth y (map f rows) [] = f (nth y rows []).
Proof.
  intros Hf. induction rows as [|row rows IH]; intros [|y]; simpl; auto.
Qed.

Lemma mask_at_left_half (combined : mask) (y x : nat) :
  mask_at (left_half combined) y x = true ->
  (x < mask_width combined / 2)%nat /\ mask_at combined y x = true.
Proof.
  unfold mask_at, left_half. cbn [mask_rows].
  rewrite (nth_map_rows (firstn (mask_width combined / 2)))
    by apply firstn_nil.
  rewrite nth_firstn.
  destruct (x <? mask_width combined / 2)%nat eqn:E; [| discriminate].
  apply Nat.ltb_lt in E. auto.
Qed.

Lemma mask_at_right_half (combined : mask) (y x : nat) :
  mask_at (right_half combined) y x
    = mask_at combined y (mask_width combined / 2 + x).
Proof.
  unfold mask_at, right_half. cbn [mask_rows].
  rewrite (nth_map_rows (skipn (mask_width combined / 2)))
    by apply skipn_nil.
  rewrite nth_skipn. reflexivity.
Qed.

(** X29.  The two searches of a frame keep to their own side: every pixel
    of the left result is a set pixel of the combined mask in the left
    half of the columns, and every pixel of the right result is a set
    pixel of the combined mask at or beyond the midpoint, reported in the
    coordinates of the whole mask. *)
Theorem halves_keep_to_their_side (combined : mask) (lp rp : pixels) :
  search_both_halves combined = Ret (lp, rp) ->
  let midpoint := (mask_width combined / 2)%nat in
  Forall (fun xy : Z * Z =>
            exists cx cy : nat,
              xy = (Z.of_nat cx, Z.of_nat cy) /\
              (cx < midpoint)%nat /\ mask_at combined cy cx = true)
    (found_pixels lp) /\
  Forall (fun xy : Z * Z =>
            exists cx cy : nat,
              xy = (Z.of_nat cx, Z.of_nat cy) /\
              (midpoint <= cx)%nat /\ mask_at combined cy cx = true)
    (found_pixels rp).
Proof.
  unfold search_both_halves.
  destruct (_sliding_window_search (left_half combined) 9 50 50 0)
    as [lfound|e] eqn:Hl; [| discriminate].
  destruct (_sliding_window_search (right_half combined) 9 50 50
              (Z.of_nat (mask_width combined / 2)))
    as [rfound|e] eqn:Hr; [| discriminate].
  intros H. injection H as <- <-. cbv zeta.
  destruct (sliding_window_search_sound _ _ _ _ _ _ Hl) as [_ HL].
  destruct (sliding_window_search_sound _ _ _ _ _ _ Hr) as [_ HR].
  split.
  - eapply Forall_impl; [exact HL |].
    intros [x y] (cx & cy & Hx & Hy & Hset & _). simpl in Hx, Hy.
    apply mask_at_left_half in Hset. destruct Hset as [Hlt Hset].
    exists cx, cy. split; [f_equal; lia |]. auto.
  - eapply Forall_impl; [exact HR |].
    intros [x y] (cx & cy & Hx & Hy & Hset & _). simpl in Hx, Hy.
    rewrite mask_at_right_half in Hset.
    exists (mask_width combined / 2 + cx)%nat, cy.
    split; [rewrite Nat2Z.inj_add, Hx, Hy; f_equal; apply Z.add_comm |].
    split; [apply Nat.le_add_r | exact Hset].
Qed.

End SlidingWindowFacts.

Section SlidingWindowInstances.

Import LaneKeeping Vocabulary Scenario.

(** On the 12-row stripe the nine windows are one row high and cover rows
    3 to 11. *)
Lemma sliding_window_returns_set_pixels_witness :
  exists found,
    _sliding_window_search stripe_mask 9 50 50 0 = Ret found /\
    length (fst found) = 9%nat /\
    Forall (fun xy : Z * Z =>
              exists cx cy : nat,
                fst xy = (Z.of_nat cx + 0)%Z /\ snd xy = Z.of_nat cy /\
                mask_at stripe_mask cy cx = true /\
                (Z.of_nat (mask_height stripe_mask) mod 9 <= snd xy
                 < Z.of_nat (mask_height stripe_mask))%Z)
      (found_pixels found).
Proof.
  destruct (_sliding_window_search stripe_mask 9 50 50 0) as [found|e] eqn:E;
    pose proof E as E0; vm_compute in E0; try discriminate E0.
  exists found. split; [reflexivity |].
  split; [injection E0 as <-; reflexivity |].
  apply (sliding_window_returns_set_pixels stripe_mask 9 50 50 0 found E).
Defined.

Lemma empty_bottom_quarter_finds_nothing_witness :
  mask_at far_stripe_mask 0 1 = true /\
  _sliding_window_search far_stripe_mask 9 50 50 0 = Ret ([], []).
Proof.
  split; [reflexivity |].
  apply empty_bottom_quarter_finds_nothing.
  - vm_compute. lia.
  - intros y x Hy. change (3 * mask_height far_stripe_mask / 4)%nat with 9%nat in Hy.
    unfold mask_at, far_stripe_mask. cbn [mask_rows].
    do 9 (destruct y as [|y]; [lia |]).
    do 3 (destruct y as [|y]; [simpl; do 4 (destruct x as [|x]; [reflexivity |]);
                               destruct x; reflexivity |]).
    simpl. destruct y; destruct x; reflexivity.
Defined.

Lemma halves_keep_to_their_side_witness :
  exists lp rp,
    search_both_halves two_stripes_mask = Ret (lp, rp) /\
    Forall (fun xy : Z * Z =>
              exists cx cy : nat,
                xy = (Z.of_nat cx, Z.of_nat cy) /\
                (cx < 4)%nat /\ mask_at two_stripes_mask cy cx = true)
      (found_pixels lp) /\
    Forall (fun xy : Z * Z =>
              exists cx cy : nat,
                xy = (Z.of_nat cx, Z.of_nat cy) /\
                (4 <= cx)%nat /\ mask_at two_stripes_mask cy cx = true)
      (found_pixels rp).
Proof.
  destruct (search_both_halves two_stripes_mask) as [[lp rp]|e] eqn:E;
    pose proof E as E0; vm_compute in E0; try discriminate E0.
  exists lp, rp. split; [reflexivity |].
  apply (halves_keep_to_their_side two_stripes_mask lp rp E).
Defined.

End SlidingWindowInstances.
